(** * Carbon Aegis: the spreadsheet ingestion and emissions core

    A shallow embedding of [utils/ai_emission_mapper.py]: the tabular
    reader ([read_excel_file]), the column classifier
    ([detect_column_types], [infer_from_content], [detect_unit]), the row
    mapper ([map_to_emission_categories]) and the calculator with its
    roll-up ([calculate_emissions]).

    Conventions of the embedding.
    - Python [float] is idealised as an exact rational ([Q]); equalities
      between amounts are stated with [==].  Where rounding matters, in
      the roll-up of the calculator, the calculator is also given over
      an arbitrary arithmetic ([calculate_emissions_in]) and run in IEEE
      754 binary64, the [float] of Python.
    - Python [str] is a [string] of 8-bit characters; [.lower()] and
      [.strip()] act on the ASCII letters and the ASCII blanks.
    - A Python [dict] is an association list in insertion order, because
      every loop of the module iterates [.items()] and stops at the first
      hit.
    - An exception that leaves a function is the [None] of an [option]
      result.
    - The human readable [calculation] text of a line item and the
      [st.warning]/[st.error] messages carry no data and are left out. *)

From Stdlib Require Import Bool List ZArith QArith Qabs Qminmax Lia Lqa.
From Stdlib Require Import Ascii String DecimalString.
From Stdlib Require PrimFloat Uint63.
Import ListNotations.

Local Open Scope string_scope.
Local Open Scope list_scope.

(** ** Python strings *)

Module PyStr.

Definition lower_ascii (c : ascii) : ascii :=
  let n := N_of_ascii c in
  if ((65 <=? n) && (n <=? 90))%N then ascii_of_N (n + 32) else c.

(** [s.lower()] *)
Fixpoint lower (s : string) : string :=
  match s with
  | EmptyString => EmptyString
  | String c rest => String (lower_ascii c) (lower rest)
  end.

(** [needle in hay] *)
Fixpoint contains (needle hay : string) : bool :=
  String.prefix needle hay ||
  match hay with
  | EmptyString => false
  | String _ rest => contains needle rest
  end.

(** [any(k in s for k in keywords)] *)
Definition any_in (keywords : list string) (s : string) : bool :=
  existsb (fun k => contains k s) keywords.

(** The ASCII characters [str.isspace] holds for: the space, tab to
    carriage return, and the four separators 28 to 31. *)
Definition is_space (c : ascii) : bool :=
  let n := N_of_ascii c in
  ((n =? 32) || ((9 <=? n) && (n <=? 13)) || ((28 <=? n) && (n <=? 31)))%N.

Fixpoint lstrip (s : string) : string :=
  match s with
  | String c rest => if is_space c then lstrip rest else s
  | EmptyString => EmptyString
  end.

Fixpoint rstrip (s : string) : string :=
  match s with
  | EmptyString => EmptyString
  | String c rest =>
      match rstrip rest with
      | EmptyString => if is_space c then EmptyString else String c EmptyString
      | kept => String c kept
      end
  end.

(** [s.strip()] *)
Definition strip (s : string) : string := rstrip (lstrip s).

(** Truth value of a string: empty is false. *)
Definition truthy (s : string) : bool :=
  match s with EmptyString => false | _ => true end.

(** A text made of ASCII characters only: on such a text [lower] and
    [strip] are the [.lower()] and [.strip()] of Python. *)
Definition is_ascii (s : string) : bool :=
  forallb (fun c => (N_of_ascii c <? 128)%N) (list_ascii_of_string s).

End PyStr.
Import PyStr.

(** ** Python dictionaries, in insertion order *)

Section Dict.
Context {V : Type}.

Definition dict := list (string * V).

Fixpoint dict_get (k : string) (d : dict) : option V :=
  match d with
  | [] => None
  | (k', v) :: rest => if String.eqb k k' then Some v else dict_get k rest
  end.

(** [k in d] *)
Definition dict_mem (k : string) (d : dict) : bool :=
  match dict_get k d with Some _ => true | None => false end.

(** [d[k] = v]: an existing key keeps its place, a new one goes last. *)
Fixpoint dict_set (k : string) (v : V) (d : dict) : dict :=
  match d with
  | [] => [(k, v)]
  | (k', v') :: rest =>
        if String.eqb k k' then (k', v) :: rest
        else (k', v') :: dict_set k v rest
  end.

Definition dict_values (d : dict) : list V := map snd d.
End Dict.
Arguments dict V : clear implicits.

(** [x in [a, b, ...]] for strings *)
Definition str_in (x : string) (l : list string) : bool :=
  existsb (String.eqb x) l.

(** ** Cell values

    What a cell of a DataFrame row can hold once [read_excel_file] has
    replaced NaN by None: nothing, a number (int or float), a bool, a
    text, or a timestamp (kept as its printed form). *)

Inductive Cell : Type :=
| CNull
| CNum (q : Q)
| CBool (b : bool)
| CStr (s : string)
| CTime (iso : string).

(** [pd.notna(v)] *)
Definition notna (c : Cell) : bool :=
  match c with CNull => false | _ => true end.

(** [pd.api.types.is_numeric_dtype(type(v))]: numbers and bools. *)
Definition is_numeric_value (c : Cell) : bool :=
  match c with CNum _ | CBool _ => true | _ => false end.

(** [isinstance(v, str)] with the text *)
Definition as_str (c : Cell) : option string :=
  match c with CStr s => Some s | _ => None end.

Definition Q_of_bool (b : bool) : Q := if b then 1 else 0.

(** Numeric value of a numeric cell. *)
Definition num_value (c : Cell) : option Q :=
  match c with
  | CNum q => Some q
  | CBool b => Some (Q_of_bool b)
  | _ => None
  end.

(** Scopes of the GHG protocol: the [1], [2], [3] of a mapping's
    ['scope'] entry and the keys ['scope1'], ['scope2'], ['scope3'].
    [get_scope_for_category] returns 1, 2, 3 or None, and the import page
    lets the caller choose among Not Applicable, 1, 2 and 3; other values
    are not modelled. *)
Inductive Scope : Type := Scope1 | Scope2 | Scope3.

Definition Scope_eqb (a b : Scope) : bool :=
  match a, b with
  | Scope1, Scope1 | Scope2, Scope2 | Scope3, Scope3 => true
  | _, _ => false
  end.

(** One entry of [column_types] / [column_mappings]. *)
Record ColumnMapping : Type := mkMapping {
  category : string;
  confidence : Q;
  scope : option Scope;
  unit : option string
}.

(** The six emission kinds. *)
Definition KINDS : list string :=
  ["fuel"; "refrigerant"; "electricity"; "transport"; "waste"; "water"].

(** ** Python run time left abstract

    [str(x)] of a number and [float(s)] of a text are the interpreter's;
    they are parameters of the model.  So is the answer of the language
    model behind [analyze_column_with_ai], already parsed into a mapping
    ([None] when no key is configured, the call fails, or its JSON does
    not parse). *)

Section Runtime.
Variable str_of_num : Q -> string.
Variable float_of_str : string -> option Q.

(** [str(v)] *)
Definition py_str (c : Cell) : string :=
  match c with
  | CNull => "None"
  | CNum q => str_of_num q
  | CBool true => "True"
  | CBool false => "False"
  | CStr s => s
  | CTime iso => iso
  end.

(** [float(v)]; a text is parsed, [None] and timestamps raise. *)
Definition py_float (c : Cell) : option Q :=
  match c with
  | CNum q => Some q
  | CBool b => Some (Q_of_bool b)
  | CStr s => float_of_str s
  | CNull | CTime _ => None
  end.
End Runtime.

(** ** DataFrames

    A column of a DataFrame with what pandas knows about it: its name,
    its dtype as seen by [is_numeric_dtype], [is_datetime64_any_dtype] and
    [is_string_dtype], and its cells.  A DataFrame is its columns in
    order; all have the same length. *)

Inductive DType : Type := DNumeric | DDatetime | DText | DOther.

Record Series : Type := mkSeries {
  s_name : string;
  s_dtype : DType;
  s_values : list Cell
}.

Definition DataFrame := list Series.

(** [df.columns] *)
Definition columns (df : DataFrame) : list string := map s_name df.

(** [column.empty or column.isna().all()] *)
Definition empty_or_all_na (col : Series) : bool :=
  match s_values col with
  | [] => true
  | vs => forallb (fun c => negb (notna c)) vs
  end.

(** [column.dropna()] *)
Definition dropna (vs : list Cell) : list Cell := filter notna vs.

(** A row as [iterrows] yields it: the cell of every column. *)
Definition Row := dict Cell.

(** [row[col]]; the callers look up columns of [df.columns] only. *)
Definition row_get (row : Row) (col : string) : Cell :=
  match dict_get col row with Some c => c | None => CNull end.

Definition nrows (df : DataFrame) : nat :=
  match df with [] => 0%nat | col :: _ => List.length (s_values col) end.

(** [df.iterrows()], without the index labels *)
Definition iterrows (df : DataFrame) : list Row :=
  map (fun i => map (fun col => (s_name col, nth i (s_values col) CNull)) df)
      (seq 0 (nrows df)).

(** ** Column classifier *)

(** The regular expressions of [patterns] are alternations of literals,
    but for [r-\d+]; [search] is [pattern.search], on a lower-cased
    subject. *)
Inductive Alt : Type :=
| Lit (s : string)
| LitDigits (s : string).

Definition digit_chars : list string :=
  ["0"; "1"; "2"; "3"; "4"; "5"; "6"; "7"; "8"; "9"].

Definition alt_search (a : Alt) (subject : string) : bool :=
  match a with
  | Lit l => contains l subject
  | LitDigits l => existsb (fun d => contains (l ++ d)%string subject) digit_chars
  end.

Definition search (pattern : list Alt) (subject : string) : bool :=
  existsb (fun a => alt_search a subject) pattern.

Definition lits (l : list string) : list Alt := map Lit l.

Definition patterns : list (string * list Alt) :=
  [ ("fuel", lits ["fuel"; "diesel"; "gasoline"; "petrol"; "gas"; "oil";
                   "litre"; "liter"; "gallon"; "combustion"; "fleet";
                   "vehicle fuel"; "natural gas"; "lpg"; "propane";
                   "biodiesel"]);
    ("electricity", lits ["electric"; "energy"; "kwh"; "mwh"; "power";
                          "consumption"; "generation"; "grid"; "renewable";
                          "solar"; "wind"; "hydroelectric"]);
    ("transport", lits ["travel"; "transport"; "vehicle"; "flight";
                        "distance"; "km"; "mile"; "commute";
                        "business travel"; "train"; "bus"; "taxi";
                        "airplane"; "ship"; "ferry"; "logistics"]);
    ("waste", lits ["waste"; "landfill"; "recycl"; "compost"; "garbage";
                    "trash"; "disposal"; "incineration"; "hazardous";
                    "scrap"; "sewage"]);
    ("water", lits ["water"; "m3"; "cubic"; "consumption"; "treatment";
                    "wastewater"; "effluent"; "discharge"; "irrigation";
                    "potable"]);
    ("refrigerant", lits ["refrigerant"; "coolant"; "air condition"; "hfc"]
                    ++ [LitDigits "r-"]
                    ++ lits ["leak"; "fugitive"; "cooling"; "hvac";
                             "chiller"]);
    ("amount", lits ["amount"; "quantity"; "volume"; "weight"; "total";
                     "consumption"; "usage"; "value"; "count"; "number";
                     "sum"]);
    ("unit", lits ["unit"; "measure"; "uom"; "metric"; "kwh"; "kg"; "ton";
                   "liter"; "gallon"; "km"; "mile"; "m3"]);
    ("date", lits ["date"; "time"; "period"; "month"; "year"; "quarter";
                   "week"; "day"; "fiscal"; "calendar"; "report"]);
    ("category", lits ["category"; "type"; "class"; "scope";
                       "classification"; "group"; "source"; "activity"]);
    ("location", lits ["location"; "site"; "facility"; "building"; "office";
                       "plant"; "region"; "country"; "city"; "address";
                       "geography"]);
    ("notes", lits ["note"; "comment"; "description"; "detail";
                    "additional"; "info"; "remark"]) ].

(** The first category, in dictionary order, whose pattern is found. *)
Fixpoint first_pattern (ps : list (string * list Alt)) (subject : string)
  : option string :=
  match ps with
  | [] => None
  | (cat, p) :: rest =>
      if search p subject then Some cat else first_pattern rest subject
  end.

Definition get_scope_for_category (cat : string) : option Scope :=
  dict_get cat
    [ ("fuel", Scope1); ("refrigerant", Scope1); ("electricity", Scope2);
      ("transport", Scope3); ("waste", Scope3); ("water", Scope3) ].

(** The [if]/[elif] chain of [detect_unit] over the column name. *)
Definition name_units : list (list string * string) :=
  [ (["kwh"; "kw-h"; "kilowatt"], "kWh");
    (["mwh"; "mw-h"; "megawatt"], "MWh");
    (["kg"; "kilo"; "weight"], "kg");
    (["ton"; "tonne"], "tonnes");
    (["l"; "liter"; "litre"], "litres");
    (["gal"; "gallon"], "gallons");
    (["km"; "kilometer"], "km");
    (["mi"; "mile"], "miles");
    (["m3"; "cubic"], "m³") ].

Fixpoint unit_of_name (chain : list (list string * string)) (col_str : string)
  : option string :=
  match chain with
  | [] => None
  | (tokens, u) :: rest =>
      if any_in tokens col_str then Some u else unit_of_name rest col_str
  end.

(** The [units] dictionary of [detect_unit] for text cells. *)
Definition value_units : dict string :=
  [ ("kwh", "kWh"); ("kilowatt", "kWh"); ("mwh", "MWh"); ("megawatt", "MWh");
    ("kg", "kg"); ("kilo", "kg"); ("ton", "tonnes"); ("tonne", "tonnes");
    ("liter", "litres"); ("litre", "litres"); ("gallon", "gallons");
    ("km", "km"); ("kilometer", "km"); ("mile", "miles"); ("m3", "m³");
    ("cubic meter", "m³") ].

(** Inner loop: the first unit string found in one value. *)
Fixpoint unit_in_value (units : dict string) (value : string) : option string :=
  match units with
  | [] => None
  | (unit_str, unit_value) :: rest =>
      if contains unit_str value then Some unit_value
      else unit_in_value rest value
  end.

(** Outer loop over the sample values. *)
Fixpoint unit_in_values (values : list string) : option string :=
  match values with
  | [] => None
  | v :: rest =>
      match unit_in_value value_units v with
      | Some u => Some u
      | None => unit_in_values rest
      end
  end.

Section Classifier.
Variable str_of_num : Q -> string.
Variable analyze_column_with_ai : string -> list Cell -> option ColumnMapping.

(** [column.dropna().astype(str).str.lower().tolist()] *)
Definition sample_strings (vs : list Cell) : list string :=
  map (fun c => lower (py_str str_of_num c)) (dropna vs).

Definition detect_unit (column : Series) : option string :=
  if empty_or_all_na column then None
  else
    match s_dtype column with
    | DNumeric => unit_of_name name_units (lower (s_name column))
    | DText => unit_in_values (firstn 5 (sample_strings (s_values column)))
    | _ => None
    end.

(** [column.min()], [column.max()] of a numeric column (nulls skipped). *)
Definition numeric_values (vs : list Cell) : list Q :=
  flat_map (fun c => match num_value c with Some q => [q] | None => [] end) vs.

Definition col_min (vs : list Cell) : option Q :=
  match numeric_values vs with
  | [] => None
  | q :: qs => Some (fold_left Qmin qs q)
  end.

Definition col_max (vs : list Cell) : option Q :=
  match numeric_values vs with
  | [] => None
  | q :: qs => Some (fold_left Qmax qs q)
  end.

Definition Qle_b (a b : Q) : bool := Qle_bool a b.

Definition in_0_100 (q : Q) : bool := Qle_b 0 q && Qle_b q 100.

(** The text branch of [infer_from_content]. *)
Definition infer_from_text (sample_values : list string) : option ColumnMapping :=
  if existsb (contains "scope 1") sample_values then
    Some (mkMapping "category" (8 # 10) (Some Scope1) None)
  else if existsb (contains "scope 2") sample_values then
    Some (mkMapping "category" (8 # 10) (Some Scope2) None)
  else if existsb (contains "scope 3") sample_values then
    Some (mkMapping "category" (8 # 10) (Some Scope3) None)
  else
    match find (fun u => existsb (contains u) sample_values)
               ["kwh"; "mwh"; "kg"; "ton"; "tonnes"; "liter"; "litre";
                "gallon"; "km"; "mile"; "m3"] with
    | Some u => Some (mkMapping "unit" (7 # 10) None (Some u))
    | None =>
        if existsb (fun v => any_in ["diesel"; "gasoline"; "petrol";
                                      "natural gas"; "lpg"; "propane"] v)
                   sample_values
        then Some (mkMapping "fuel" (8 # 10) (Some Scope1) None)
        else None
    end.

(** [infer_from_content]: the mapping it stores, [None] when it returns
    [False]. *)
Definition infer_from_content (column : Series) : option ColumnMapping :=
  if empty_or_all_na column then None
  else
    match s_dtype column with
    | DDatetime => Some (mkMapping "date" (9 # 10) None None)
    | DNumeric =>
        match col_min (s_values column), col_max (s_values column) with
        | Some min_val, Some max_val =>
            if in_0_100 min_val && in_0_100 max_val
            then Some (mkMapping "amount" (6 # 10) None (Some "%"))
            else Some (mkMapping "amount" (7 # 10) None (detect_unit column))
        | _, _ => None
        end
    | DText => infer_from_text (sample_strings (s_values column))
    | DOther => None
    end.

(** The body of the loop of [detect_column_types] for one column. *)
Definition classify_column (use_ai : bool) (column : Series) : ColumnMapping :=
  match first_pattern patterns (lower (s_name column)) with
  | Some cat =>
      mkMapping cat (8 # 10) (get_scope_for_category cat)
        (if str_in cat ["amount"; "unit"] then detect_unit column else None)
  | None =>
      match infer_from_content column with
      | Some m => m
      | None =>
          match (if use_ai
                 then analyze_column_with_ai (s_name column)
                        (firstn 3 (dropna (s_values column)))
                 else None) with
          | Some m => m
          | None => mkMapping "unknown" (1 # 10) None None
          end
      end
  end.

Definition detect_column_types (df : DataFrame) (use_ai : bool)
  : dict ColumnMapping :=
  fold_left (fun column_types column =>
               dict_set (s_name column) (classify_column use_ai column)
                        column_types)
            df [].

End Classifier.

(** ** Row mapper *)

(** One entry of a list of [structured_data]. *)
Record Item : Type := mkItem {
  item_type : string;
  item_data : dict Cell;
  original_row : Row
}.

(** [structured_data]: the lists under ['scope1'], ['scope2'], ['scope3'],
    in that key order. *)
Record StructuredData : Type := mkStructured {
  scope1 : list Item;
  scope2 : list Item;
  scope3 : list Item
}.

Definition items_of (sd : StructuredData) (s : Scope) : list Item :=
  match s with
  | Scope1 => scope1 sd
  | Scope2 => scope2 sd
  | Scope3 => scope3 sd
  end.

(** [structured_data[scope_key].append(item)] *)
Definition append_item (sd : StructuredData) (s : Scope) (it : Item)
  : StructuredData :=
  match s with
  | Scope1 => mkStructured (scope1 sd ++ [it]) (scope2 sd) (scope3 sd)
  | Scope2 => mkStructured (scope1 sd) (scope2 sd ++ [it]) (scope3 sd)
  | Scope3 => mkStructured (scope1 sd) (scope2 sd) (scope3 sd ++ [it])
  end.

(** [None] stays [None], a text becomes a cell. *)
Definition cell_of_opt (o : option string) : Cell :=
  match o with Some s => CStr s | None => CNull end.

(** The keyword cascade on the category text. *)
Definition kind_of_text (category_value : string) : option (string * Scope) :=
  if any_in ["fuel"; "diesel"; "gasoline"; "petrol"] category_value
  then Some ("fuel", Scope1)
  else if any_in ["refrigerant"; "coolant"; "r-"] category_value
  then Some ("refrigerant", Scope1)
  else if any_in ["electric"; "power"; "energy"] category_value
  then Some ("electricity", Scope2)
  else if any_in ["transport"; "travel"; "vehicle"; "flight"] category_value
  then Some ("transport", Scope3)
  else if any_in ["waste"; "landfill"; "recycl"] category_value
  then Some ("waste", Scope3)
  else if any_in ["water"] category_value
  then Some ("water", Scope3)
  else None.

(** The [scope N] cascade on the category text. *)
Definition scope_of_text (category_value : string) : option Scope :=
  if contains "scope 1" category_value then Some Scope1
  else if contains "scope 2" category_value then Some Scope2
  else if contains "scope 3" category_value then Some Scope3
  else None.

Section Mapper.
Variable str_of_num : Q -> string.
Variable df_columns : list string.
Variable column_mappings : dict ColumnMapping.

(** [[col for col, mapping in column_mappings.items()
      if mapping['category'] == role and col in df.columns]] *)
Definition columns_of_role (role : string) : list string :=
  map fst
    (filter (fun cm => String.eqb (category (snd cm)) role
                       && str_in (fst cm) df_columns)
            column_mappings).

Definition amount_columns : list string := columns_of_role "amount".
Definition unit_columns : list string := columns_of_role "unit".
Definition category_columns : list string := columns_of_role "category".

Section Row.
Variable row : Row.

(** Extract category: first non-null cell, as lower-cased text. *)
Fixpoint extract_category (cols : list string) : option string :=
  match cols with
  | [] => None
  | col :: rest =>
      if notna (row_get row col)
      then Some (lower (py_str str_of_num (row_get row col)))
      else extract_category rest
  end.

(** Extract amount: first non-null cell of a numeric type, as a float. *)
Fixpoint extract_amount (cols : list string) : option Q :=
  match cols with
  | [] => None
  | col :: rest =>
      if notna (row_get row col) && is_numeric_value (row_get row col)
      then num_value (row_get row col)
      else extract_amount rest
  end.

(** Extract unit: first non-null cell, as text. *)
Fixpoint extract_unit (cols : list string) : option string :=
  match cols with
  | [] => None
  | col :: rest =>
      if notna (row_get row col)
      then Some (py_str str_of_num (row_get row col))
      else extract_unit rest
  end.

(** The loop that determines emission type and scope from the columns:
    every non-null column of an emission kind overwrites both; the loop
    stops as soon as the scope it read is set. *)
Fixpoint kind_loop (items : dict ColumnMapping)
                   (emission_type : option string) (sc : option Scope)
  : option string * option Scope :=
  match items with
  | [] => (emission_type, sc)
  | (col, mapping) :: rest =>
      if str_in col df_columns
         && negb (str_in (category mapping)
                    ["amount"; "unit"; "date"; "notes"; "unknown"])
         && notna (row_get row col)
         && str_in (category mapping) KINDS
      then
        match scope mapping with
        | Some s =>
            if truthy (category mapping)
            then (Some (category mapping), Some s)
            else kind_loop rest (Some (category mapping)) (Some s)
        | None => kind_loop rest (Some (category mapping)) None
        end
      else kind_loop rest emission_type sc
  end.

(** Truth value of [emission_type]. *)
Definition type_set (emission_type : option string) : bool :=
  match emission_type with Some t => truthy t | None => false end.

(** [if not emission_type and category_value: ...] *)
Definition kind_from_text (category_value : option string)
                          (st : option string * option Scope)
  : option string * option Scope :=
  match category_value with
  | Some cv =>
      if negb (type_set (fst st)) && truthy cv
      then match kind_of_text cv with
           | Some (t, s) => (Some t, Some s)
           | None => st
           end
      else st
  | None => st
  end.

(** The loop over the scopes declared by the mappings: the first column
    with a scope and a non-null cell sets the scope. *)
Fixpoint scope_loop (items : dict ColumnMapping) (sc : option Scope)
  : option Scope :=
  match items with
  | [] => sc
  | (col, mapping) :: rest =>
      match scope mapping with
      | Some s =>
          if str_in col df_columns && notna (row_get row col)
          then Some s
          else scope_loop rest sc
      | None => scope_loop rest sc
      end
  end.

(** [if category_value and not scope: ...] *)
Definition scope_from_text (category_value : option string)
                           (sc : option Scope) : option Scope :=
  match category_value, sc with
  | Some cv, None =>
      if truthy cv then scope_of_text cv else None
  | _, _ => sc
  end.

(** The loop that collects the row's other data into [data], keyed by
    the category of each mapping. *)
Fixpoint collect (items : dict ColumnMapping) (data : dict Cell) : dict Cell :=
  match items with
  | [] => data
  | (col, mapping) :: rest =>
      if str_in col df_columns
         && negb (str_in (category mapping) ["unknown"; "ignore"])
         && notna (row_get row col)
      then collect rest (dict_set (category mapping) (row_get row col) data)
      else collect rest data
  end.

(** The variables of one iteration just before the final test. *)
Definition row_amount : option Q := extract_amount amount_columns.
Definition row_unit : option string := extract_unit unit_columns.
Definition row_category : option string := extract_category category_columns.

Definition row_kind_scope : option string * option Scope :=
  kind_from_text row_category (kind_loop column_mappings None None).

Definition row_emission_type : option string := fst row_kind_scope.

Definition row_scope : option Scope :=
  scope_from_text row_category
    (scope_loop column_mappings (snd row_kind_scope)).

(** One iteration of the loop over the rows: the scope list the item is
    appended to and the item, or [None] when nothing is appended. *)
Definition map_row : option (Scope * Item) :=
  match row_amount, row_emission_type, row_scope with
  | Some amount, Some emission_type, Some sc =>
      if truthy emission_type then
        let data :=
          dict_set emission_type (CBool true)
            (dict_set "category" (cell_of_opt row_category)
               (dict_set "unit" (cell_of_opt row_unit)
                  (dict_set "amount" (CNum amount) []))) in
        Some (sc, mkItem emission_type (collect column_mappings data) row)
      else None
  | _, _, _ => None
  end.

End Row.

Definition map_rows (rows : list Row) : StructuredData :=
  fold_left (fun sd row =>
               match map_row row with
               | Some (sc, it) => append_item sd sc it
               | None => sd
               end)
            rows (mkStructured [] [] []).

End Mapper.

(** [map_to_emission_categories(df, column_mappings, use_ai)]; the flag
    is not used by the function. *)
Definition map_to_emission_categories (str_of_num : Q -> string)
    (df : DataFrame) (column_mappings : dict ColumnMapping) (use_ai : bool)
  : StructuredData :=
  map_rows str_of_num (columns df) column_mappings (iterrows df).

(** ** Factor catalog *)

(** [emission_factors]: kind, then subtype, then factor. *)
Definition Catalog := dict (dict Q).

(** [load_emission_factors()]: the default factors (a file path, when
    given, is read and then ignored by the source). *)
Definition load_emission_factors : Catalog :=
  [ ("fuel",
     [ ("Petrol/Gasoline", 231 # 100); ("Diesel", 268 # 100);
       ("LPG/Propane", 151 # 100); ("Natural Gas", 202 # 100);
       ("Biodiesel", 179 # 100); ("E85 (Ethanol)", 156 # 100) ]);
    ("electricity",
     [ ("UK", 19 # 100); ("EU Average", 23 # 100); ("US Average", 38 # 100);
       ("China", 55 # 100); ("India", 71 # 100);
       ("Global Average", 48 # 100) ]);
    ("transport",
     [ ("Car (Petrol/Gasoline)", 19 # 100); ("Car (Diesel)", 17 # 100);
       ("Car (Hybrid)", 11 # 100); ("Car (Electric)", 5 # 100);
       ("Bus", 10 # 100); ("Train", 4 # 100);
       ("Flight (Short-haul)", 16 # 100); ("Flight (Medium-haul)", 14 # 100);
       ("Flight (Long-haul)", 15 # 100) ]);
    ("waste",
     [ ("Landfill (Mixed)", 45 # 100); ("Recycled Paper", 2 # 100);
       ("Recycled Plastic", 4 # 100); ("Recycled Glass", 1 # 100);
       ("Recycled Metal", 2 # 100); ("Composted", 1 # 100);
       ("Incineration", 22 # 100) ]);
    ("water",
     [ ("Supply", 34 # 100); ("Treatment", 71 # 100);
       ("Recycled", 5 # 100) ]);
    ("refrigerant",
     [ ("R-410A", 2088 # 1); ("R-22", 1810 # 1); ("R-134a", 1430 # 1);
       ("R-404A", 3922 # 1); ("R-407C", 1774 # 1); ("R-32", 675 # 1) ]) ].

(** ** Emissions calculator *)

(** What differs between the six branches of [calculate_emissions]: the
    keywords that pick the subtype out of [data], the default subtype,
    the factor used when the catalog lacks the default, and whether the
    product is divided by 1000. *)
Record Branch : Type := mkBranch {
  keywords : list string;
  default_subtype : string;
  default_factor : Q;
  per_thousand : bool
}.

Definition branches : dict Branch :=
  [ ("fuel",
     mkBranch ["diesel"; "gasoline"; "petrol"; "natural gas"; "lpg"]
              "Diesel" (268 # 100) false);
    ("electricity",
     mkBranch ["uk"; "us"; "eu"; "china"; "india"]
              "Global Average" (48 # 100) false);
    ("transport",
     mkBranch ["car"; "bus"; "train"; "flight"; "plane"]
              "Car (Petrol/Gasoline)" (19 # 100) false);
    ("waste",
     mkBranch ["landfill"; "recycled"; "composted"; "incineration"]
              "Landfill (Mixed)" (45 # 100) false);
    ("water",
     mkBranch ["supply"; "treatment"; "recycled"] "Supply" (34 # 100) false);
    ("refrigerant",
     mkBranch ["r-"; "hfc"; "refrigerant"] "R-410A" (2088 # 1) true) ].

(** The subtype: the first text value of [data], in dictionary order,
    whose lower-cased form contains one of the keywords. *)
Fixpoint find_subtype (kws : list string) (data : dict Cell) : option string :=
  match data with
  | [] => None
  | (_, value) :: rest =>
      match as_str value with
      | Some s => if any_in kws (lower s) then Some s
                  else find_subtype kws rest
      | None => find_subtype kws rest
      end
  end.

(** [if not subtype: subtype = default] *)
Definition subtype_or_default (b : Branch) (data : dict Cell) : string :=
  match find_subtype (keywords b) data with
  | Some s => if truthy s then s else default_subtype b
  | None => default_subtype b
  end.

(** The factor of the first catalog entry whose lower-cased name
    contains the lower-cased subtype. *)
Fixpoint match_factor (subtype : string) (factors : dict Q) : option Q :=
  match factors with
  | [] => None
  | (factor_name, factor_value) :: rest =>
      if contains (lower subtype) (lower factor_name) then Some factor_value
      else match_factor subtype rest
  end.

(** [ef], after the fall back to the default subtype. *)
Definition resolve_factor (b : Branch) (factors : dict Q) (subtype : string)
  : Q :=
  match match_factor subtype factors with
  | Some ef => ef
  | None =>
      match dict_get (default_subtype b) factors with
      | Some ef => ef
      | None => default_factor b
      end
  end.

Record ScopeResult : Type := mkScopeResult {
  total : Q;
  categories : dict Q
}.

(** One entry of [results['line_items']]. *)
Record LineItem : Type := mkLine {
  li_scope : Scope;
  li_type : string;
  li_data : dict Cell;
  li_emissions : Q;
  li_original_row : Row
}.

(** [results] *)
Record Results : Type := mkResults {
  r_scope1 : ScopeResult;
  r_scope2 : ScopeResult;
  r_scope3 : ScopeResult;
  r_total : Q;
  line_items : list LineItem
}.

Definition scope_result (r : Results) (s : Scope) : ScopeResult :=
  match s with
  | Scope1 => r_scope1 r
  | Scope2 => r_scope2 r
  | Scope3 => r_scope3 r
  end.

Definition set_scope_result (r : Results) (s : Scope) (sr : ScopeResult)
  : Results :=
  match s with
  | Scope1 => mkResults sr (r_scope2 r) (r_scope3 r) (r_total r) (line_items r)
  | Scope2 => mkResults (r_scope1 r) sr (r_scope3 r) (r_total r) (line_items r)
  | Scope3 => mkResults (r_scope1 r) (r_scope2 r) sr (r_total r) (line_items r)
  end.

(** [if k not in d: d[k] = 0.0] then [d[k] += x] *)
Definition dict_add (k : string) (x : Q) (d : dict Q) : dict Q :=
  match dict_get k d with
  | Some v => dict_set k (v + x) d
  | None => dict_set k (0 + x) d
  end.

Definition empty_results : Results :=
  mkResults (mkScopeResult 0 []) (mkScopeResult 0 []) (mkScopeResult 0 [])
            0 [].

Section Calculator.
Variable float_of_str : string -> option Q.
Variable emission_factors : Catalog.

(** The emissions of one item: the branch of its type when [data] has an
    amount, 0.0 otherwise.  [None] is an exception: [float] of the amount
    fails, or the catalog has no entry for the kind. *)
Definition item_emissions (it : Item) : option Q :=
  match dict_get (item_type it) branches with
  | Some b =>
      match dict_get "amount" (item_data it) with
      | Some amount_cell =>
          match py_float float_of_str amount_cell,
                dict_get (item_type it) emission_factors with
          | Some amount, Some factors =>
              let ef := resolve_factor b factors
                          (subtype_or_default b (item_data it)) in
              Some (if per_thousand b then amount * ef / 1000
                    else amount * ef)
          | _, _ => None
          end
      | None => Some 0
      end
  | None => Some 0
  end.

(** The body of the inner loop: add the emissions to the category, to
    the scope total and to the grand total, and append the line item.
    The three sums are exact here: this is [add_item_in], below, in the
    arithmetic [exact].  What rounding does to the three accumulators is
    read off [add_item_in] in [binary64]. *)
Definition add_item (sc : Scope) (results : Results) (it : Item)
  : option Results :=
  match item_emissions it with
  | Some emissions =>
      let sr := scope_result results sc in
      let sr' := mkScopeResult (total sr + emissions)
                   (dict_add (item_type it) emissions (categories sr)) in
      let r1 := set_scope_result results sc sr' in
      Some (mkResults (r_scope1 r1) (r_scope2 r1) (r_scope3 r1)
              (r_total r1 + emissions)
              (line_items r1 ++
               [mkLine sc (item_type it) (item_data it) emissions
                       (original_row it)]))
  | None => None
  end.

(** The inner loop over the items of one scope. *)
Fixpoint add_items (sc : Scope) (results : Results) (items : list Item)
  : option Results :=
  match items with
  | [] => Some results
  | it :: rest =>
      match add_item sc results it with
      | Some results' => add_items sc results' rest
      | None => None
      end
  end.

(** [calculate_emissions(structured_data, emission_factors)]: the scopes
    in the key order of [structured_data]. *)
Definition calculate_emissions (structured_data : StructuredData)
  : option Results :=
  match add_items Scope1 empty_results (scope1 structured_data) with
  | Some r1 =>
      match add_items Scope2 r1 (scope2 structured_data) with
      | Some r2 => add_items Scope3 r2 (scope3 structured_data)
      | None => None
      end
  | None => None
  end.

End Calculator.

(** ** The arithmetic of the calculator

    [calculate_emissions] multiplies an amount by a factor, divides the
    product by 1000 for a refrigerant, and adds the result to three
    accumulators.  [Arith] is the arithmetic it does this with: the
    numbers, the number a decimal literal of the source or the float of
    a cell stands for, and the three operations. *)
Record Arith : Type := mkArith {
  a_num : Type;
  a_of_Q : Q -> a_num;
  a_add : a_num -> a_num -> a_num;
  a_mul : a_num -> a_num -> a_num;
  a_div : a_num -> a_num -> a_num
}.

(** Exact arithmetic: the rationals. *)
Definition exact : Arith := mkArith Q (fun q => q) Qplus Qmult Qdiv.

(** The float of a whole number (exact below 2^53). *)
Definition float_of_Z (z : Z) : PrimFloat.float :=
  match z with
  | Z0 => PrimFloat.of_uint63 (Uint63.of_Z 0)
  | Zpos _ => PrimFloat.of_uint63 (Uint63.of_Z z)
  | Zneg p => PrimFloat.opp (PrimFloat.of_uint63 (Uint63.of_Z (Zpos p)))
  end.

(** The float nearest to a rational: numerator and denominator are
    exact floats when they are below 2^53, and the division of IEEE 754
    rounds their quotient to the nearest float, so that
    [float_of_Q (268 # 100)] is the float of the literal [2.68]. *)
Definition float_of_Q (q : Q) : PrimFloat.float :=
  PrimFloat.div (float_of_Z (Qnum q)) (float_of_Z (Zpos (Qden q))).

(** IEEE 754 binary64 with rounding to nearest even: the [float] of
    Python. *)
Definition binary64 : Arith :=
  mkArith PrimFloat.float float_of_Q PrimFloat.add PrimFloat.mul
          PrimFloat.div.

Section Arithmetic.
Variable A : Arith.

(** [results[scope]] *)
Record ScopeSums : Type := mkScopeSums {
  ss_total : a_num A;
  ss_categories : dict (a_num A)
}.

(** One entry of [results['line_items']]. *)
Record ReportLine : Type := mkReportLine {
  rl_scope : Scope;
  rl_type : string;
  rl_data : dict Cell;
  rl_emissions : a_num A;
  rl_original_row : Row
}.

(** [results] *)
Record Report : Type := mkReport {
  rp_scope1 : ScopeSums;
  rp_scope2 : ScopeSums;
  rp_scope3 : ScopeSums;
  rp_total : a_num A;
  rp_lines : list ReportLine
}.

Definition scope_sums (r : Report) (s : Scope) : ScopeSums :=
  match s with
  | Scope1 => rp_scope1 r
  | Scope2 => rp_scope2 r
  | Scope3 => rp_scope3 r
  end.

Definition set_scope_sums (r : Report) (s : Scope) (ss : ScopeSums)
  : Report :=
  match s with
  | Scope1 => mkReport ss (rp_scope2 r) (rp_scope3 r) (rp_total r) (rp_lines r)
  | Scope2 => mkReport (rp_scope1 r) ss (rp_scope3 r) (rp_total r) (rp_lines r)
  | Scope3 => mkReport (rp_scope1 r) (rp_scope2 r) ss (rp_total r) (rp_lines r)
  end.

(** [0.0] *)
Definition a_zero : a_num A := a_of_Q A 0.

(** [if k not in d: d[k] = 0.0] then [d[k] += x] *)
Definition accumulate (k : string) (x : a_num A) (d : dict (a_num A))
  : dict (a_num A) :=
  match dict_get k d with
  | Some v => dict_set k (a_add A v x) d
  | None => dict_set k (a_add A a_zero x) d
  end.

Definition empty_report : Report :=
  mkReport (mkScopeSums a_zero []) (mkScopeSums a_zero [])
           (mkScopeSums a_zero []) a_zero [].

Variable float_of_str : string -> option Q.
Variable emission_factors : Catalog.

(** The emissions of one item: [amount * ef], or [amount * ef / 1000]
    for a refrigerant, in the arithmetic [A]; [0.0] when no branch
    applies.  [None] is an exception, as for [item_emissions]. *)
Definition item_emissions_in (it : Item) : option (a_num A) :=
  match dict_get (item_type it) branches with
  | Some b =>
      match dict_get "amount" (item_data it) with
      | Some amount_cell =>
          match py_float float_of_str amount_cell,
                dict_get (item_type it) emission_factors with
          | Some amount, Some factors =>
              let ef := resolve_factor b factors
                          (subtype_or_default b (item_data it)) in
              let product := a_mul A (a_of_Q A amount) (a_of_Q A ef) in
              Some (if per_thousand b
                    then a_div A product (a_of_Q A 1000)
                    else product)
          | _, _ => None
          end
      | None => Some a_zero
      end
  | None => Some a_zero
  end.

(** The body of the inner loop: the three [+=] and the [append]. *)
Definition add_item_in (sc : Scope) (report : Report) (it : Item)
  : option Report :=
  match item_emissions_in it with
  | Some emissions =>
      let ss := scope_sums report sc in
      let ss' := mkScopeSums (a_add A (ss_total ss) emissions)
                   (accumulate (item_type it) emissions (ss_categories ss)) in
      let r1 := set_scope_sums report sc ss' in
      Some (mkReport (rp_scope1 r1) (rp_scope2 r1) (rp_scope3 r1)
              (a_add A (rp_total r1) emissions)
              (rp_lines r1 ++
               [mkReportLine sc (item_type it) (item_data it) emissions
                             (original_row it)]))
  | None => None
  end.

Fixpoint add_items_in (sc : Scope) (report : Report) (items : list Item)
  : option Report :=
  match items with
  | [] => Some report
  | it :: rest =>
      match add_item_in sc report it with
      | Some report' => add_items_in sc report' rest
      | None => None
      end
  end.

(** [calculate_emissions(structured_data, emission_factors)] in the
    arithmetic [A]. *)
Definition calculate_emissions_in (structured_data : StructuredData)
  : option Report :=
  match add_items_in Scope1 empty_report (scope1 structured_data) with
  | Some r1 =>
      match add_items_in Scope2 r1 (scope2 structured_data) with
      | Some r2 => add_items_in Scope3 r2 (scope3 structured_data)
      | None => None
      end
  | None => None
  end.

(** The sum of a list as an accumulator builds it: from [0.0], left to
    right. *)
Definition running_sum (l : list (a_num A)) : a_num A :=
  fold_left (a_add A) l a_zero.

(** The lines of one scope, and those of one scope and type. *)
Definition lines_of_scope (s : Scope) (lines : list ReportLine)
  : list ReportLine :=
  filter (fun l => Scope_eqb (rl_scope l) s) lines.

Definition lines_of_scope_and_type (s : Scope) (k : string)
    (lines : list ReportLine) : list ReportLine :=
  filter (fun l => Scope_eqb (rl_scope l) s && String.eqb (rl_type l) k)
         lines.

(** Every accumulator of a report is the running sum of the emissions
    of the lines it covers. *)
Definition totals_are_running_sums (r : Report) : Prop :=
  rp_total r = running_sum (map rl_emissions (rp_lines r))
  /\ (forall s,
         ss_total (scope_sums r s)
         = running_sum (map rl_emissions (lines_of_scope s (rp_lines r))))
  /\ (forall s k,
         dict_get k (ss_categories (scope_sums r s))
         = match lines_of_scope_and_type s k (rp_lines r) with
           | [] => None
           | covered => Some (running_sum (map rl_emissions covered))
           end).

End Arithmetic.

Arguments ss_total {A} _.
Arguments ss_categories {A} _.
Arguments rl_scope {A} _.
Arguments rl_type {A} _.
Arguments rl_data {A} _.
Arguments rl_emissions {A} _.
Arguments rl_original_row {A} _.
Arguments rp_scope1 {A} _.
Arguments rp_scope2 {A} _.
Arguments rp_scope3 {A} _.
Arguments rp_total {A} _.
Arguments rp_lines {A} _.
Arguments scope_sums {A} _ _.

(** A report in exact arithmetic, as [Results]. *)
Definition results_of_sums (ss : ScopeSums exact) : ScopeResult :=
  mkScopeResult (ss_total ss) (ss_categories ss).

Definition results_of_line (l : ReportLine exact) : LineItem :=
  mkLine (rl_scope l) (rl_type l) (rl_data l) (rl_emissions l)
         (rl_original_row l).

Definition results_of_report (r : Report exact) : Results :=
  mkResults (results_of_sums (rp_scope1 r)) (results_of_sums (rp_scope2 r))
            (results_of_sums (rp_scope3 r)) (rp_total r)
            (map results_of_line (rp_lines r)).

(** ** Tabular reader

    [read_excel_file] touches the file system through one temporary
    file.  The file system is the list of paths that exist.  The uploaded
    file is given by what pandas makes of its bytes at each of the three
    reading attempts. *)

Definition FileSystem := list string.

Inductive Attempt (A : Type) : Type :=
| Returned (a : A)
| Raised.
Arguments Returned {A} a.
Arguments Raised {A}.

Record Upload : Type := mkUpload {
  read_default : Attempt DataFrame;          (* pd.read_excel(tmp_path) *)
  read_first_sheet : Attempt DataFrame;      (* ..., sheet_name=0 *)
  read_all_sheets : Attempt (dict DataFrame) (* ..., sheet_name=None *)
}.

(** [sheet_df.empty]: no column or no row. *)
Definition df_empty (df : DataFrame) : bool :=
  match df with
  | [] => true
  | _ => Nat.eqb (nrows df) 0
  end.

(** [os.unlink(path)] *)
Definition unlink (path : string) (fs : FileSystem) : FileSystem :=
  filter (fun p => negb (String.eqb p path)) fs.

(** [column.isna().any()] *)
Definition has_null (col : Series) : bool :=
  existsb (fun c => negb (notna c)) (s_values col).

(** The dtype of a column after [df.replace({np.nan: None})]: a numeric
    or datetime column that holds a null is cast to dtype object, which
    is neither numeric nor datetime, and which [is_string_dtype] does
    not take for text since its values are not all strings; a column
    that is object already keeps its dtype.  pandas casts block by
    block, so a float column without a null may be cast along with one
    that has a null; [Series] does not tell which columns share a block,
    and nothing below depends on the dtype of such a column. *)
Definition replaced_dtype (col : Series) : DType :=
  match s_dtype col with
  | DNumeric | DDatetime => if has_null col then DOther else s_dtype col
  | DText | DOther => s_dtype col
  end.

(** [df.columns = [str(col).strip() for col in df.columns]] and
    [df = df.replace({np.nan: None})]; on the cells the replacement of
    NaN by None is the identity of [Cell], on the dtypes it is
    [replaced_dtype].  [strip] removes the ASCII blanks: a label that
    begins or ends with another Unicode blank is stripped further by
    Python. *)
Definition clean_columns (df : DataFrame) : DataFrame :=
  map (fun col => mkSeries (strip (s_name col)) (replaced_dtype col)
                           (s_values col))
      df.

(** The nested [try] blocks.  [Returned None] is the case where the
    third attempt finds only empty sheets and leaves [df] unbound. *)
Definition read_attempts (file : Upload) : Attempt (option DataFrame) :=
  match read_default file with
  | Returned df => Returned (Some df)
  | Raised =>
      match read_first_sheet file with
      | Returned df => Returned (Some df)
      | Raised =>
          match read_all_sheets file with
          | Returned dfs =>
              if Nat.ltb 0 (List.length dfs)
              then Returned (find (fun df => negb (df_empty df))
                                  (map snd dfs))
              else Raised
          | Raised => Raised
          end
      end
  end.

(** [read_excel_file(file)], run on a file system in which
    [NamedTemporaryFile] creates [tmp_path]: the file system afterwards
    and the value returned. *)
Definition read_excel_file (fs : FileSystem) (tmp_path : string)
                           (file : Upload)
  : FileSystem * option DataFrame :=
  let fs_written := tmp_path :: fs in
  match read_attempts file with
  | Raised => (fs_written, None)
  | Returned bound =>
      let fs_cleaned := unlink tmp_path fs_written in
      match bound with
      | Some df => (fs_cleaned, Some (clean_columns df))
      | None => (fs_cleaned, None)
      end
  end.

(** ** A run time for the scenarios

    [str] and [float] on whole numbers (the digits of the numerator, an
    integer literal), and no language model.  The scenarios hold numbers
    in amount columns and text elsewhere, so neither is ever called on
    anything else. *)

Definition int_text (q : Q) : string :=
  NilZero.string_of_int (Z.to_int (Qnum q)).

Definition int_literal (s : string) : option Q :=
  match NilZero.int_of_string s with
  | Some i => Some (inject_Z (Z.of_int i))
  | None => None
  end.

Definition no_ai (name : string) (samples : list Cell) : option ColumnMapping :=
  None.

(** The three calls the import page chains on a DataFrame it has read:
    classify the columns, map the rows, calculate with the default
    factors. *)
Definition pipeline (str_of_num : Q -> string)
    (float_of_str : string -> option Q)
    (ai : string -> list Cell -> option ColumnMapping)
    (df : DataFrame) : option Results :=
  let column_mappings := detect_column_types str_of_num ai df false in
  calculate_emissions float_of_str load_emission_factors
    (map_to_emission_categories str_of_num df column_mappings false).

(** ** Scenario inputs *)

Definition text_column (name : string) (cells : list string) : Series :=
  mkSeries name DText (map CStr cells).

Definition number_column (name : string) (cells : list Q) : Series :=
  mkSeries name DNumeric (map CNum cells).

(** A long-haul flight, 3500 km, declared scope 3. *)
Definition flight_df : DataFrame :=
  [ text_column "Category" ["Business Flight (Long-haul International)"];
    number_column "Amount" [3500];
    text_column "Unit" ["km"];
    text_column "Scope" ["Scope 3"] ].

(** The sample template the import page offers for download. *)
Definition sample_template : DataFrame :=
  [ text_column "Category"
      ["Electricity"; "Diesel Fuel"; "Natural Gas"; "Company Car";
       "Refrigerant R-410A"; "Business Flight"; "Waste (Landfill)";
       "Waste (Recycled)"; "Water"];
    number_column "Amount"
      [10500; 450; 2300; 15000; 5 # 2; 3500; 750; 500; 350];
    text_column "Unit"
      ["kWh"; "liters"; "m³"; "km"; "kg"; "km"; "kg"; "kg"; "m³"];
    text_column "Scope"
      ["Scope 2"; "Scope 1"; "Scope 1"; "Scope 1"; "Scope 1"; "Scope 3";
       "Scope 3"; "Scope 3"; "Scope 3"];
    text_column "Location"
      ["Main Office"; "Warehouse"; "Factory"; "Sales Fleet"; "HVAC Systems";
       "International"; "All Facilities"; "All Facilities";
       "All Facilities"];
    text_column "Date"
      ["2025-01-15"; "2025-01-20"; "2025-01-22"; "2025-01-25"; "2025-01-28";
       "2025-02-05"; "2025-02-10"; "2025-02-10"; "2025-02-15"] ].

(** Two amount columns: a quantity and a second figure in the same row. *)
Definition two_amounts_df (quantity other : Q) : DataFrame :=
  [ text_column "Category" ["Diesel"];
    number_column "Quantity" [quantity];
    number_column "Total" [other] ].

(** An amount column followed by an amount-role column holding text. *)
Definition amount_then_text_df : DataFrame :=
  [ text_column "Category" ["Diesel"];
    number_column "Quantity" [5];
    text_column "Total" ["n/a"] ].

(** An upload no reading attempt can open. *)
Definition unreadable_upload : Upload := mkUpload Raised Raised Raised.

(** An upload whose default sheet reads at once. *)
Definition readable_upload : Upload :=
  mkUpload (Returned flight_df) Raised Raised.

(** Columns named after a unit: meter readings under [kWh], free text
    under [Weight (kg)], and a [kg] column without rows. *)
Definition kwh_readings : Series := number_column "kWh" [1200; 900].
Definition weight_notes : Series := text_column "Weight (kg)" ["heavy"; "light"].
Definition kg_no_rows : Series := mkSeries "kg" DNumeric [].

(** A numeric column the pattern table gives the role amount and whose
    name holds the token [kg]. *)
Definition net_weight_kg : Series := number_column "Net weight kg" [12; 250].

(** ** Declarative reading of the mapper's loops

    Used to state what the loops compute. *)

Section RowFacts.
Variable df_columns : list string.
Variable row : Row.

(** The column belongs to the table and its cell in the row is non-null. *)
Definition present (col : string) : bool :=
  str_in col df_columns && notna (row_get row col).

Definition hints_scope (cm : string * ColumnMapping) : bool :=
  match scope (snd cm) with
  | Some _ => present (fst cm)
  | None => false
  end.

(** The scope hint of the first mapping, in order, that has one and
    whose column is present. *)
Definition first_scope_hint (column_mappings : dict ColumnMapping)
  : option Scope :=
  match find hints_scope column_mappings with
  | Some cm => scope (snd cm)
  | None => None
  end.

(** Some present column has the role of an emission kind. *)
Definition has_kind_column (column_mappings : dict ColumnMapping) : bool :=
  existsb (fun cm => present (fst cm) && str_in (category (snd cm)) KINDS)
          column_mappings.

(** Some present column of role amount holds a numeric cell. *)
Definition has_numeric_amount (column_mappings : dict ColumnMapping) : bool :=
  existsb (fun cm => String.eqb (category (snd cm)) "amount"
                     && present (fst cm)
                     && is_numeric_value (row_get row (fst cm)))
          column_mappings.

(** The cell of the last present column of a role, in mapping order. *)
Fixpoint last_cell_of_role (role : string)
                           (column_mappings : dict ColumnMapping)
  : option Cell :=
  match column_mappings with
  | [] => None
  | (col, mapping) :: rest =>
      match last_cell_of_role role rest with
      | Some c => Some c
      | None =>
          if String.eqb (category mapping) role && present col
          then Some (row_get row col)
          else None
      end
  end.

End RowFacts.

(** A category text that names a scope other than the default of the
    kind it names. *)
Definition labelled_df (category_text : string) : DataFrame :=
  [ text_column "Category" [category_text];
    number_column "Amount" [100] ].

(** Its single row, with the columns and the mappings the classifier
    gives them. *)
Definition labelled_columns : list string := ["Category"; "Amount"].

Definition labelled_mappings : dict ColumnMapping :=
  [ ("Category", mkMapping "category" (8 # 10) None None);
    ("Amount", mkMapping "amount" (8 # 10) None None) ].

Definition labelled_row : Row :=
  [ ("Category", CStr "Diesel generator (Scope 2)"); ("Amount", CNum 100) ].

(** A fuel column, found by name and hence hinted scope 1, next to a
    category text that names scope 3. *)
Definition fuel_column_df : DataFrame :=
  [ text_column "Fuel Type" ["Diesel"];
    text_column "Category" ["Scope 3 upstream"];
    number_column "Amount" [100] ].

(** A table whose kind column had its scope set to Not Applicable by the
    caller. *)
Definition unscoped_columns : list string := ["Fuel Type"; "Amount"].

Definition unscoped_mappings : dict ColumnMapping :=
  [ ("Fuel Type", mkMapping "fuel" (8 # 10) None None);
    ("Amount", mkMapping "amount" (8 # 10) None None) ].

Definition unscoped_row : Row :=
  [ ("Fuel Type", CStr "Diesel"); ("Amount", CNum 120) ].

(** ** Sums over a report *)

Definition Qsum (l : list Q) : Q := fold_right Qplus 0 l.

(** The sum of [line.emissions] over the lines of one scope. *)
Definition emissions_of_scope (s : Scope) (lines : list LineItem) : Q :=
  Qsum (map li_emissions (filter (fun l => Scope_eqb (li_scope l) s) lines)).

(** The sum of the category totals of one scope. *)
Definition categories_sum (sr : ScopeResult) : Q :=
  Qsum (dict_values (categories sr)).

(** The invariants of a report. *)
Definition report_consistent (r : Results) : Prop :=
  r_total r == total (r_scope1 r) + total (r_scope2 r) + total (r_scope3 r)
  /\ (forall s, total (scope_result r s) == emissions_of_scope s (line_items r))
  /\ (forall s, total (scope_result r s) == categories_sum (scope_result r s))
  /\ r_total r == Qsum (map li_emissions (line_items r)).

(** The structured data of the sample template. *)
Definition sample_structured : StructuredData :=
  map_to_emission_categories int_text sample_template
    (detect_column_types int_text no_ai sample_template false) false.

(** The refrigerant branch of the calculator. *)
Definition refrigerant_branch : Branch :=
  mkBranch ["r-"; "hfc"; "refrigerant"] "R-410A" (2088 # 1) true.

(** One kilogram of R-134a, named in a refrigerant column. *)
Definition r134a_df : DataFrame :=
  [ text_column "Refrigerant" ["R-134a"];
    number_column "Amount" [1];
    text_column "Unit" ["kg"] ].

(** One kilogram of R-134a in a row shaped as that of scenario S4, and
    the same row without its [Scope] column. *)
Definition r134a_leak_df : DataFrame :=
  [ text_column "Category" ["Refrigerant R-134a"];
    number_column "Amount" [1];
    text_column "Unit" ["kg"];
    text_column "Scope" ["Scope 1"] ].

Definition r134a_category_df : DataFrame :=
  [ text_column "Category" ["Refrigerant R-134a"];
    number_column "Amount" [1];
    text_column "Unit" ["kg"] ].

(** Scenario S4: a leak of 2.5 kg of R-410A. *)
Definition leak_df : DataFrame :=
  [ text_column "Category" ["Refrigerant R-410A"];
    number_column "Amount" [5 # 2];
    text_column "Unit" ["kg"];
    text_column "Scope" ["Scope 1"] ].

(** ** Order of the line items *)

Section RowOrder.
Variable str_of_num : Q -> string.
Variable df_columns : list string.
Variable column_mappings : dict ColumnMapping.

(** The row yields a record. *)
Definition emits (row : Row) : bool :=
  match map_row str_of_num df_columns column_mappings row with
  | Some _ => true
  | None => false
  end.

(** The row yields a record under the scope [s]. *)
Definition emits_in (s : Scope) (row : Row) : bool :=
  match map_row str_of_num df_columns column_mappings row with
  | Some (s', _) => Scope_eqb s' s
  | None => false
  end.

(** The records of the rows that land in scope [s], in row order. *)
Definition items_in (s : Scope) (rows : list Row) : list Item :=
  flat_map (fun row =>
              match map_row str_of_num df_columns column_mappings row with
              | Some (s', it) => if Scope_eqb s' s then [it] else []
              | None => []
              end)
           rows.

End RowOrder.

(** Scope and source row of a line item. *)
Definition line_source (l : LineItem) : Scope * Row :=
  (li_scope l, li_original_row l).

(** A scope 3 row followed by a scope 1 row. *)
Definition travel_then_diesel_df : DataFrame :=
  [ text_column "Category" ["Business travel"; "Diesel"];
    number_column "Amount" [100; 10] ].

Definition travel_row : Row :=
  [ ("Category", CStr "Business travel"); ("Amount", CNum 100) ].

Definition diesel_row : Row :=
  [ ("Category", CStr "Diesel"); ("Amount", CNum 10) ].

(** ** Vocabularies read off the classifier *)

(** The roles [detect_column_types] can assign on its own: the keys of
    [patterns], the categories of [infer_from_content], and [unknown]. *)
Definition ROLES : list string :=
  ["fuel"; "electricity"; "transport"; "waste"; "water"; "refrigerant";
   "amount"; "unit"; "date"; "category"; "location"; "notes"; "unknown"].

(** The units [detect_unit] can return. *)
Definition CANONICAL_UNITS : list string :=
  ["kWh"; "MWh"; "kg"; "tonnes"; "litres"; "gallons"; "km"; "miles"; "m³"].

(** A numeric column of volumes named in gallons. *)
Definition gallons_column : Series := number_column "Volume (gallons)" [120; 340].

(** The mapping names a column of the table. *)
Definition in_table (df_columns : list string) (cm : string * ColumnMapping)
  : bool :=
  str_in (fst cm) df_columns.

(** A row whose amount cell is a text. *)
Definition text_amount_row : Row :=
  [ ("Category", CStr "Diesel"); ("Amount", CStr "a lot") ].

(** The row of [two_amounts_df 5 7] with its columns and mappings. *)
Definition two_amounts_columns : list string :=
  ["Category"; "Quantity"; "Total"].

Definition two_amounts_mappings : dict ColumnMapping :=
  [ ("Category", mkMapping "category" (8 # 10) None None);
    ("Quantity", mkMapping "amount" (8 # 10) None None);
    ("Total", mkMapping "amount" (8 # 10) None None) ].

Definition two_amounts_row : Row :=
  [ ("Category", CStr "Diesel"); ("Quantity", CNum 5); ("Total", CNum 7) ].

(** The record the mapper makes of [labelled_row]. *)
Definition labelled_item : Item :=
  mkItem "fuel"
    [ ("amount", CNum 100); ("unit", CNull);
      ("category", CStr "Diesel generator (Scope 2)");
      ("fuel", CBool true) ]
    labelled_row.

(** A table with columns but no row. *)
Definition header_only_df : DataFrame :=
  [ mkSeries "Category" DOther []; mkSeries "Amount" DOther [] ].

(** ** Per-kind sums and line shapes *)

(** The lines of one scope and one type. *)
Definition lines_of_kind (s : Scope) (k : string) (lines : list LineItem)
  : list LineItem :=
  filter (fun l => Scope_eqb (li_scope l) s && String.eqb (li_type l) k) lines.

(** The sum of [line.emissions] over the lines of one scope and type. *)
Definition kind_emissions (s : Scope) (k : string) (lines : list LineItem)
  : Q :=
  Qsum (map li_emissions (lines_of_kind s k lines)).

(** The entry of a category is the sum over the lines of that scope and
    type; a category without entry has no line. *)
Definition categories_consistent (r : Results) : Prop :=
  forall s k,
    match dict_get k (categories (scope_result r s)) with
    | Some v => v == kind_emissions s k (line_items r)
                /\ lines_of_kind s k (line_items r) <> []
    | None => lines_of_kind s k (line_items r) = []
    end.

(** What a line item copies from its record. *)
Definition line_record (l : LineItem) : Scope * string * dict Cell * Row :=
  (li_scope l, li_type l, li_data l, li_original_row l).

Definition item_record (s : Scope) (it : Item)
  : Scope * string * dict Cell * Row :=
  (s, item_type it, item_data it, original_row it).

(** A record of a type the calculator has no branch for. *)
Definition heating_item : Item :=
  mkItem "heating" [("amount", CNum 40)] [].

(** ** Signs *)

(** No factor of the catalog is negative. *)
Definition catalog_nonneg (emission_factors : Catalog) : bool :=
  forallb (fun kf => forallb (fun nv => Qle_bool 0 (snd nv)) (snd kf))
          emission_factors.

(** The amount of the record, when it converts to a float, is not
    negative. *)
Definition amount_nonneg (float_of_str : string -> option Q) (it : Item)
  : bool :=
  match dict_get "amount" (item_data it) with
  | Some c =>
      match py_float float_of_str c with
      | Some a => Qle_bool 0 a
      | None => true
      end
  | None => true
  end.

Definition amounts_nonneg (float_of_str : string -> option Q)
                          (sd : StructuredData) : bool :=
  forallb (amount_nonneg float_of_str) (scope1 sd)
  && forallb (amount_nonneg float_of_str) (scope2 sd)
  && forallb (amount_nonneg float_of_str) (scope3 sd).

(** No earlier name of the list contains the text, case aside. *)
Definition not_in_earlier_name (name : string) (before : dict Q) : bool :=
  forallb (fun kv => negb (contains (lower name) (lower (fst kv)))) before.

(** The factors the default catalog lists for a kind. *)
Definition default_factors_of (kind : string) : dict Q :=
  match dict_get kind load_emission_factors with
  | Some factors => factors
  | None => []
  end.

(** The transport branch of the calculator. *)
Definition transport_branch : Branch :=
  mkBranch ["car"; "bus"; "train"; "flight"; "plane"]
           "Car (Petrol/Gasoline)" (19 # 100) false.

(** A record whose category text is the name of a catalog entry. *)
Definition long_haul_record : Item :=
  mkItem "transport"
    [ ("amount", CNum 3500); ("unit", CStr "km");
      ("category", CStr "Flight (Long-haul)"); ("transport", CBool true) ]
    [].

(** ** The DEFRA loader

    [process_defra_emission_factors(file_path)] copies the file into a
    temporary file, has pandas open the copy, unlinks it and returns a
    catalog with the six kinds and no factor yet.  [open(file_path)]
    succeeds when the path exists; [workbook] is what pandas makes of the
    copy. *)

Definition defra_factors : Catalog :=
  [ ("fuel", []); ("electricity", []); ("transport", []); ("waste", []);
    ("water", []); ("refrigerant", []) ].

Definition process_defra_emission_factors (fs : FileSystem)
    (tmp_path file_path : string) (workbook : Attempt Datatypes.unit)
  : FileSystem * option Catalog :=
  let fs_created := tmp_path :: fs in
  if negb (str_in file_path fs) then (fs_created, None)
  else
    match workbook with
    | Raised => (fs_created, None)
    | Returned _ => (unlink tmp_path fs_created, Some defra_factors)
    end.

(** A table whose column labels carry blanks and whose last column,
    numeric, has an empty cell. *)
Definition padded_table : DataFrame :=
  [ text_column "  Category " ["Diesel"; "Petrol"];
    number_column "Amount  " [10; 20];
    mkSeries " Reading" DNumeric [CNum 7; CNull] ].

Definition padded_upload : Upload :=
  mkUpload Raised (Returned padded_table) Raised.

(** A text that does not begin with a blank. *)
Definition starts_clean (s : string) : bool :=
  match s with
  | EmptyString => true
  | String c _ => negb (is_space c)
  end.

(** ** Conversion to the application format

    [app_data] is a dictionary whose values are numbers, texts, a cell
    copied from a record, the three category dictionaries, or the line
    items.  [st.session_state] is a dictionary of texts. *)

Inductive AppVal : Type :=
| ANum (q : Q)
| AText (s : string)
| ACell (c : Cell)
| AEmissions (s1 s2 s3 : dict Q)
| ALines (lines : list LineItem).

Definition AppData := dict AppVal.

(** [st.session_state.get(key, default)] *)
Definition session_get (session_state : dict string) (key default : string)
  : string :=
  match dict_get key session_state with
  | Some v => v
  | None => default
  end.

(** [app_data[key] += x]; a missing key or a value that is no number
    raises. *)
Definition add_amount (key : string) (x : Q) (app_data : AppData)
  : option AppData :=
  match dict_get key app_data with
  | Some (ANum v) => Some (dict_set key (ANum (v + x)) app_data)
  | _ => None
  end.

(** The cascades that name a subtype from the category text. *)
Definition flight_type_of (transport_str : string) : string :=
  if contains "short" transport_str then "Short-haul (<1,500 km)"
  else if contains "medium" transport_str then "Medium-haul (1,500-3,700 km)"
  else if contains "long" transport_str then "Long-haul (>3,700 km)"
  else "Short-haul (<1,500 km)".

(** The key set and its value; a train sets ['transport_type'], all
    other cases ['vehicle_type']. *)
Definition vehicle_type_of (vehicle_str : string) : string * string :=
  if contains "car" vehicle_str && contains "petrol" vehicle_str
  then ("vehicle_type", "Car (Petrol/Gasoline)")
  else if contains "car" vehicle_str && contains "diesel" vehicle_str
  then ("vehicle_type", "Car (Diesel)")
  else if contains "car" vehicle_str && contains "hybrid" vehicle_str
  then ("vehicle_type", "Car (Hybrid)")
  else if contains "car" vehicle_str && contains "electric" vehicle_str
  then ("vehicle_type", "Car (Electric)")
  else if contains "bus" vehicle_str
  then ("vehicle_type", "Bus")
  else if contains "train" vehicle_str
  then ("transport_type", "Train (Intercity)")
  else ("vehicle_type", "Car (Petrol/Gasoline)").

Definition waste_type_of (waste_str : string) : string :=
  if contains "landfill" waste_str then "Landfill (Mixed)"
  else if contains "recycled" waste_str && contains "paper" waste_str
  then "Recycled Paper"
  else if contains "recycled" waste_str && contains "plastic" waste_str
  then "Recycled Plastic"
  else if contains "recycled" waste_str && contains "glass" waste_str
  then "Recycled Glass"
  else if contains "recycled" waste_str && contains "metal" waste_str
  then "Recycled Metal"
  else if contains "compost" waste_str || contains "organic" waste_str
  then "Organic/Compost"
  else if contains "electronic" waste_str then "Electronic Waste"
  else "Landfill (Mixed)".

Definition water_type_of (water_str : string) : string :=
  if contains "municipal" water_str then "Municipal Supply"
  else if contains "well" water_str then "Well Water"
  else if contains "rain" water_str then "Harvested Rainwater"
  else if contains "recycled" water_str then "Recycled Water"
  else "Municipal Supply".

Definition refrigerant_type_of (ref_str : string) : string :=
  if contains "r-410a" ref_str then "R-410A"
  else if contains "r-22" ref_str then "R-22"
  else if contains "r-134a" ref_str then "R-134a"
  else if contains "r-404a" ref_str then "R-404A"
  else if contains "r-407c" ref_str then "R-407C"
  else if contains "r-32" ref_str then "R-32"
  else "R-410A".

Section Convert.
Variable str_of_num : Q -> string.
Variable float_of_str : string -> option Q.
Variable session_state : dict string.

(** [str(data.get('category', '')).lower()] *)
Definition category_text (data : dict Cell) : string :=
  lower (match dict_get "category" data with
         | Some c => py_str str_of_num c
         | None => ""
         end).

(** [float(data.get('amount', 0))] *)
Definition amount_of (data : dict Cell) : option Q :=
  match dict_get "amount" data with
  | Some c => py_float float_of_str c
  | None => Some 0
  end.

(** The initial dictionary, with the results copied in. *)
Definition initial_app_data (calculation_results : Results) : AppData :=
  [ ("time_period", AText (session_get session_state "time_period" "Annually"));
    ("calculation_method",
     AText (session_get session_state "calculation_method"
              "Exact (measured data)"));
    ("distance_unit",
     AText (session_get session_state "distance_unit" "Kilometers"));
    ("volume_unit", AText (session_get session_state "volume_unit" "Liters"));
    ("fuel_amount", ANum 0);
    ("vehicle_distance", ANum 0);
    ("flight_distance", ANum 0);
    ("electricity", ANum 0);
    ("heating_amount", ANum 0);
    ("waste_amount", ANum 0);
    ("water_amount", ANum 0);
    ("material_amount", ANum 0);
    ("refrigerant_amount", ANum 0);
    ("emissions_data",
     AEmissions (categories (r_scope1 calculation_results))
                (categories (r_scope2 calculation_results))
                (categories (r_scope3 calculation_results)));
    ("scope1_total", ANum (total (r_scope1 calculation_results)));
    ("scope2_total", ANum (total (r_scope2 calculation_results)));
    ("scope3_total", ANum (total (r_scope3 calculation_results)));
    ("total_emissions", ANum (r_total calculation_results));
    ("imported_line_items", ALines (line_items calculation_results)) ].

(** The body of the loop over the items. *)
Definition convert_item (app_data : AppData) (it : Item) : option AppData :=
  let emission_type := item_type it in
  let data := item_data it in
  if negb (dict_mem "amount" data) then Some app_data
  else if String.eqb emission_type "fuel" then
    match amount_of data with
    | Some a =>
        match add_amount "fuel_amount" a app_data with
        | Some app1 =>
            match dict_get "fuel" data with
            | Some c => Some (dict_set "fuel_type" (ACell c) app1)
            | None => Some app1
            end
        | None => None
        end
    | None => None
    end
  else if String.eqb emission_type "transport" then
    let transport_str := category_text data in
    if contains "flight" transport_str || contains "plane" transport_str
       || contains "air" transport_str
    then
      match amount_of data with
      | Some a =>
          match add_amount "flight_distance" a app_data with
          | Some app1 =>
              Some (dict_set "flight_type"
                      (AText (flight_type_of transport_str)) app1)
          | None => None
          end
      | None => None
      end
    else
      match amount_of data with
      | Some a =>
          match add_amount "vehicle_distance" a app_data with
          | Some app1 =>
              if dict_mem "category" data
              then let kv := vehicle_type_of (category_text data) in
                   Some (dict_set (fst kv) (AText (snd kv)) app1)
              else Some app1
          | None => None
          end
      | None => None
      end
  else if String.eqb emission_type "electricity" then
    match amount_of data with
    | Some a =>
        match add_amount "electricity" a app_data with
        | Some app1 => Some (dict_set "electricity_unit" (AText "kWh") app1)
        | None => None
        end
    | None => None
    end
  else if String.eqb emission_type "waste" then
    match amount_of data with
    | Some a =>
        match add_amount "waste_amount" a app_data with
        | Some app1 =>
            if dict_mem "category" data
            then Some (dict_set "waste_type"
                         (AText (waste_type_of (category_text data))) app1)
            else Some app1
        | None => None
        end
    | None => None
    end
  else if String.eqb emission_type "water" then
    match amount_of data with
    | Some a =>
        match add_amount "water_amount" a app_data with
        | Some app1 =>
            if dict_mem "category" data
            then Some (dict_set "water_type"
                         (AText (water_type_of (category_text data))) app1)
            else Some app1
        | None => None
        end
    | None => None
    end
  else if String.eqb emission_type "refrigerant" then
    match amount_of data with
    | Some a =>
        match add_amount "refrigerant_amount" a app_data with
        | Some app1 =>
            if dict_mem "category" data
            then Some (dict_set "refrigerant_type"
                         (AText (refrigerant_type_of (category_text data)))
                         app1)
            else Some app1
        | None => None
        end
    | None => None
    end
  else Some app_data.

Fixpoint convert_items (app_data : AppData) (items : list Item)
  : option AppData :=
  match items with
  | [] => Some app_data
  | it :: rest =>
      match convert_item app_data it with
      | Some app1 => convert_items app1 rest
      | None => None
      end
  end.

(** [convert_to_app_format(structured_data, calculation_results)] *)
Definition convert_to_app_format (structured_data : StructuredData)
                                 (calculation_results : Results)
  : option AppData :=
  match convert_items (initial_app_data calculation_results)
                      (scope1 structured_data) with
  | Some a1 =>
      match convert_items a1 (scope2 structured_data) with
      | Some a2 => convert_items a2 (scope3 structured_data)
      | None => None
      end
  | None => None
  end.

End Convert.

(** The number under a key of [app_data]. *)
Definition num_of (key : string) (app_data : AppData) : option Q :=
  match dict_get key app_data with
  | Some (ANum v) => Some v
  | _ => None
  end.


(** The sum of the amounts of the records of one type that have an
    amount. *)
Definition amount_total (float_of_str : string -> option Q) (kind : string)
                        (items : list Item) : Q :=
  Qsum (flat_map
          (fun it =>
             if String.eqb (item_type it) kind
                && dict_mem "amount" (item_data it)
             then match amount_of float_of_str (item_data it) with
                  | Some a => [a]
                  | None => []
                  end
             else [])
          items).

(** The keys [convert_to_app_format] ever assigns inside its loop. *)
Definition WRITTEN_KEYS : list string :=
  ["fuel_amount"; "vehicle_distance"; "flight_distance"; "electricity";
   "waste_amount"; "water_amount"; "refrigerant_amount"; "fuel_type";
   "flight_type"; "vehicle_type"; "transport_type"; "electricity_unit";
   "waste_type"; "water_type"; "refrigerant_type"].

(** The amount keys fed by a single kind, with that kind. *)
Definition AMOUNT_KEYS : list (string * string) :=
  [ ("fuel_amount", "fuel"); ("electricity", "electricity");
    ("waste_amount", "waste"); ("water_amount", "water");
    ("refrigerant_amount", "refrigerant") ].

(** What the loop of the conversion keeps true of the amounts. *)
Definition amounts_conserved (float_of_str : string -> option Q)
    (items : list Item) (app_data : AppData) : Prop :=
  (forall key kind,
      In (key, kind) AMOUNT_KEYS ->
      exists v, num_of key app_data = Some v
                /\ v == amount_total float_of_str kind items)
  /\ exists vehicle flight,
       num_of "vehicle_distance" app_data = Some vehicle
       /\ num_of "flight_distance" app_data = Some flight
       /\ vehicle + flight == amount_total float_of_str "transport" items.

(** The report of the sample template. *)
Definition sample_results : Results :=
  match calculate_emissions int_literal load_emission_factors
          sample_structured with
  | Some results => results
  | None => empty_results
  end.

(** The application data of the sample template, in a fresh session. *)
Definition sample_app_data : AppData :=
  match convert_to_app_format int_text int_literal [] sample_structured
          sample_results with
  | Some app_data => app_data
  | None => []
  end.

(** A record of zero litres of diesel. *)
Definition zero_diesel_item : Item :=
  mkItem "fuel"
    [ ("amount", CNum 0); ("unit", CStr "liters");
      ("category", CStr "Diesel"); ("fuel", CBool true) ]
    [].


(** ** Agreement of two floats

    [a] and [b] agree within the relative tolerance 1e-6: the distance
    between them is at most a millionth of the larger magnitude. *)
Definition float_max (a b : PrimFloat.float) : PrimFloat.float :=
  if PrimFloat.ltb a b then b else a.

Definition floats_agree (a b : PrimFloat.float) : bool :=
  PrimFloat.leb
    (PrimFloat.abs (PrimFloat.sub a b))
    (PrimFloat.mul (float_of_Q (1 # 1000000))
                   (float_max (PrimFloat.abs a) (PrimFloat.abs b))).

(** The claimed agreement of the grand total with the sum of the three
    scope totals, in binary64. *)
Definition scope_totals_sum (r : Report binary64) : PrimFloat.float :=
  PrimFloat.add
    (PrimFloat.add (ss_total (rp_scope1 r)) (ss_total (rp_scope2 r)))
    (ss_total (rp_scope3 r)).

(** The sum of the category totals of one scope, in binary64 and in the
    order of the dictionary. *)
Definition category_totals_sum (ss : ScopeSums binary64) : PrimFloat.float :=
  running_sum binary64 (dict_values (ss_categories ss)).

(** Three records whose amounts cancel: a site that buys 10^12 kWh, the
    same energy booked back with the opposite sign under scope 3, and
    one kilogram of landfill waste. *)
Definition electricity_record (kwh : Q) : Item :=
  mkItem "electricity"
    [ ("amount", CNum kwh); ("unit", CStr "kWh");
      ("category", CStr "Electricity"); ("electricity", CBool true) ]
    [].

Definition landfill_record (kg : Q) : Item :=
  mkItem "waste"
    [ ("amount", CNum kg); ("unit", CStr "kg");
      ("category", CStr "Waste (Landfill)"); ("waste", CBool true) ]
    [].

Definition cancelling_records : StructuredData :=
  mkStructured []
    [ electricity_record 1000000000000 ]
    [ electricity_record (-1000000000000); landfill_record 1 ].

(** The same three records under one scope, the waste between the two
    bookings of energy. *)
Definition interleaved_records : StructuredData :=
  mkStructured [] []
    [ electricity_record 1000000000000; landfill_record 1;
      electricity_record (-1000000000000) ].
(** * Properties *)

Lemma Scope_eqb_eq a b : Scope_eqb a b = true <-> a = b.
Proof. destruct a, b; simpl; split; congruence. Qed.

(** ** Scenario S3: the flight row *)

(** C1.  On the row [{Category: "Business Flight (Long-haul
    International)", Amount: 3500, Unit: "km", Scope: "Scope 3"}] the
    pipeline produces exactly one line, of type transport in scope 3; but
    the text kept under ['category'] is that of the [Scope] column, no
    text of the record names a transport subtype, and the factor is that
    of the default [Car (Petrol/Gasoline)]: the emissions are
    3500 x 0.19 = 665, not 3500 x 0.15 = 525. *)
Theorem C1_flight_row_gets_car_factor :
  forall (str_of_num : Q -> string) (float_of_str : string -> option Q)
         (ai : string -> list Cell -> option ColumnMapping),
  exists line : LineItem,
    option_map line_items (pipeline str_of_num float_of_str ai flight_df)
      = Some [line]
    /\ li_type line = "transport"
    /\ li_scope line = Scope3
    /\ dict_get "category" (li_data line) = Some (CStr "Scope 3")
    /\ find_subtype ["car"; "bus"; "train"; "flight"; "plane"] (li_data line)
       = None
    /\ li_emissions line == 3500 * (19 # 100)
    /\ ~ li_emissions line == 525.
Proof.
  intros str_of_num float_of_str ai.
  eexists. split; [ vm_compute; reflexivity | ].
  repeat split; try reflexivity.
  intro H. vm_compute in H. discriminate H.
Qed.

(** Even with the flight text itself as the subtype, no catalog name
    contains it, so the factor falls back to the default. *)
Lemma flight_text_matches_no_key :
  option_map (match_factor "Business Flight (Long-haul International)")
             (dict_get "transport" load_emission_factors)
  = Some None.
Proof. reflexivity. Qed.

(** ** The temporary file of the reader *)

(** When a reading attempt returns a table, the temporary file is
    unlinked before [read_excel_file] returns. *)
Lemma temp_file_unlinked_after_read :
  forall fs tmp_path file bound,
    read_attempts file = Returned bound ->
    ~ In tmp_path (fst (read_excel_file fs tmp_path file)).
Proof.
  intros fs tmp_path file bound Hread. unfold read_excel_file.
  rewrite Hread.
  assert (Hgone : ~ In tmp_path (unlink tmp_path (tmp_path :: fs))).
  { unfold unlink. rewrite filter_In. intros [_ Hneq].
    rewrite String.eqb_refl in Hneq. discriminate Hneq. }
  destruct bound; exact Hgone.
Qed.

(** C8.  When every reading attempt raises, [read_excel_file] returns
    [None] from inside the handler, before the [os.unlink] that follows
    the [try] block: the temporary file it wrote still exists after the
    call. *)
Theorem C8_unreadable_upload_leaves_temp_file :
  forall (fs : FileSystem) (tmp_path : string),
    snd (read_excel_file fs tmp_path unreadable_upload) = None
    /\ In tmp_path (fst (read_excel_file fs tmp_path unreadable_upload)).
Proof.
  intros fs tmp_path. split.
  - reflexivity.
  - simpl. left. reflexivity.
Qed.

(** The same holds when the workbook opens at the third attempt but has
    no sheet at all ([ValueError]). *)
Lemma no_sheet_leaves_temp_file :
  forall (fs : FileSystem) (tmp_path : string),
    read_excel_file fs tmp_path (mkUpload Raised Raised (Returned []))
    = (tmp_path :: fs, None).
Proof. reflexivity. Qed.

(** ** Rows with more than one amount column *)

(** C5.  In a row whose columns [Quantity] = 5 and [Total] = 7 both have
    the role amount, the mapper selects 5 (the first numeric amount), but
    the loop that collects the row's other data then stores every
    amount-role cell under ['amount'] again: the record carries 7, and the
    calculator computes 7 x 2.68.  When the later cell is the text "n/a",
    the record carries that text. *)
Theorem C5_later_amount_cell_replaces_selected_amount :
  forall (str_of_num : Q -> string) (float_of_str : string -> option Q)
         (ai : string -> list Cell -> option ColumnMapping),
    let df := two_amounts_df 5 7 in
    let cm := detect_column_types str_of_num ai df false in
    amount_columns (columns df) cm = ["Quantity"; "Total"]
    /\ map (row_amount (columns df) cm) (iterrows df) = [Some 5]
    /\ map (fun it => dict_get "amount" (item_data it))
           (scope1 (map_to_emission_categories str_of_num df cm false))
       = [Some (CNum 7)]
    /\ (exists line,
          option_map line_items (pipeline str_of_num float_of_str ai df)
            = Some [line]
          /\ li_emissions line == 7 * (268 # 100))
    /\ map (fun it => dict_get "amount" (item_data it))
           (scope1 (map_to_emission_categories str_of_num amount_then_text_df
                      (detect_column_types str_of_num ai amount_then_text_df
                         false) false))
       = [Some (CStr "n/a")].
Proof.
  intros str_of_num float_of_str ai df cm.
  split; [ reflexivity | ].
  split; [ reflexivity | ].
  split; [ reflexivity | ].
  split; [ | reflexivity ].
  eexists. split; [ vm_compute; reflexivity | reflexivity ].
Qed.

(** C9.  In a row whose first amount cell is 0 and whose second
    amount-role cell is 7, the mapper selects the amount 0 and emits a
    record, but the record carries 7 under ['amount']: the line's
    emissions are 7 x 2.68, not 0, and the totals move by as much. *)
Theorem C9_zero_amount_replaced_by_later_cell :
  forall (str_of_num : Q -> string) (float_of_str : string -> option Q)
         (ai : string -> list Cell -> option ColumnMapping),
    let df := two_amounts_df 0 7 in
    let cm := detect_column_types str_of_num ai df false in
    map (row_amount (columns df) cm) (iterrows df) = [Some 0]
    /\ exists line results,
         pipeline str_of_num float_of_str ai df = Some results
         /\ line_items results = [line]
         /\ li_emissions line == 7 * (268 # 100)
         /\ ~ li_emissions line == 0
         /\ ~ r_total results == 0
         /\ ~ total (r_scope1 results) == 0.
Proof.
  intros str_of_num float_of_str ai df cm.
  split; [ reflexivity | ].
  eexists. eexists. split; [ vm_compute; reflexivity | ].
  split; [ reflexivity | ].
  split; [ reflexivity | ].
  repeat split; intro H; vm_compute in H; discriminate H.
Qed.

(** ** Unit hints of the classifier *)

Lemma search_lits_false :
  forall (l : list string) (subject : string),
    search (lits l) subject = false ->
    forall k, In k l -> contains k subject = false.
Proof.
  induction l as [| k0 l IH]; intros subject H k Hin.
  - destruct Hin.
  - unfold search, lits in H. cbn [map existsb alt_search] in H.
    apply orb_false_elim in H. destruct H as [Hk0 Hrest].
    destruct Hin as [<- | Hin]; [ exact Hk0 | ].
    apply (IH subject); assumption.
Qed.

(** A name that reaches the roles amount or unit was not caught by the
    electricity pattern: it contains neither [kwh] nor [mwh]. *)
Lemma amount_or_unit_name_has_no_kwh :
  forall (subject cat : string),
    first_pattern patterns subject = Some cat ->
    str_in cat ["amount"; "unit"] = true ->
    contains "kwh" subject = false /\ contains "mwh" subject = false.
Proof.
  intros subject cat Hpat Hrole.
  unfold patterns in Hpat. cbn [first_pattern] in Hpat.
  match type of Hpat with
  | (if ?c then _ else _) = _ => destruct c
  end; [ injection Hpat as <-; discriminate Hrole | ].
  match type of Hpat with
  | (if ?c then _ else _) = _ => destruct c eqn:Helec
  end; [ injection Hpat as <-; discriminate Hrole | ].
  split; apply (search_lits_false _ _ Helec); simpl; tauto.
Qed.

Lemma search_lits_true :
  forall (l : list string) (subject k : string),
    In k l -> contains k subject = true -> search (lits l) subject = true.
Proof.
  intros l subject k Hin Hk. unfold search, lits.
  apply existsb_exists. exists (Lit k). split; [ | exact Hk ].
  apply in_map. exact Hin.
Qed.

Lemma first_pattern_finds :
  forall (ps : list (string * list Alt)) (subject cat : string)
         (p : list Alt),
    In (cat, p) ps -> search p subject = true ->
    exists cat', first_pattern ps subject = Some cat'.
Proof.
  induction ps as [| [cat0 p0] rest IH]; intros subject cat p Hin Hp.
  - destruct Hin.
  - cbn [first_pattern]. destruct (search p0 subject) eqn:Hp0.
    + exists cat0. reflexivity.
    + destruct Hin as [Heq | Hin].
      * injection Heq as _ <-. rewrite Hp in Hp0. discriminate Hp0.
      * apply (IH subject cat p Hin Hp).
Qed.

(** Every name that holds a unit token is matched by a pattern: [mwh] by
    that of electricity, the others by that of unit at the latest. *)
Lemma unit_token_is_matched :
  forall subject : string,
    any_in ["kwh"; "mwh"; "kg"; "ton"; "liter"; "gallon"; "km"; "mile"; "m3"]
           subject = true ->
    exists cat, first_pattern patterns subject = Some cat.
Proof.
  intros subject Htoken. unfold any_in in Htoken.
  apply existsb_exists in Htoken. destruct Htoken as [k [Hin Hk]].
  assert (Hcase : k = "mwh"
                  \/ In k ["unit"; "measure"; "uom"; "metric"; "kwh"; "kg";
                           "ton"; "liter"; "gallon"; "km"; "mile"; "m3"]).
  { simpl in Hin. simpl. intuition. }
  destruct Hcase as [-> | Hunit].
  - eapply (first_pattern_finds patterns subject "electricity");
      [ unfold patterns; right; left; reflexivity | ].
    apply (search_lits_true _ subject "mwh"); [ simpl; tauto | exact Hk ].
  - eapply (first_pattern_finds patterns subject "unit");
      [ unfold patterns; do 7 right; left; reflexivity | ].
    apply (search_lits_true _ subject k); assumption.
Qed.

(** A name with one of the tokens [kwh], [mwh], [liter], [gallon], [km],
    [mile], [m3] is caught by the pattern of an emission kind, which
    comes before those of amount and unit. *)
Lemma kind_token_gives_kind :
  forall subject cat : string,
    any_in ["kwh"; "mwh"; "liter"; "gallon"; "km"; "mile"; "m3"] subject
      = true ->
    first_pattern patterns subject = Some cat ->
    str_in cat ["fuel"; "electricity"; "transport"; "waste"; "water"] = true.
Proof.
  intros subject cat Htoken Hpat.
  unfold patterns in Hpat. cbn [first_pattern] in Hpat.
  destruct (search (lits _) subject) eqn:Hfuel in Hpat;
    [ injection Hpat as <-; reflexivity | ].
  destruct (search (lits _) subject) eqn:Helectricity in Hpat;
    [ injection Hpat as <-; reflexivity | ].
  destruct (search (lits _) subject) eqn:Htransport in Hpat;
    [ injection Hpat as <-; reflexivity | ].
  destruct (search (lits _) subject) eqn:Hwaste in Hpat;
    [ injection Hpat as <-; reflexivity | ].
  destruct (search (lits _) subject) eqn:Hwater in Hpat;
    [ injection Hpat as <-; reflexivity | ].
  exfalso. unfold any_in in Htoken. cbn [existsb] in Htoken.
  rewrite (search_lits_false _ _ Helectricity "kwh"),
          (search_lits_false _ _ Helectricity "mwh"),
          (search_lits_false _ _ Hfuel "liter"),
          (search_lits_false _ _ Hfuel "gallon"),
          (search_lits_false _ _ Htransport "km"),
          (search_lits_false _ _ Htransport "mile"),
          (search_lits_false _ _ Hwater "m3") in Htoken
    by (simpl; tauto).
  discriminate Htoken.
Qed.

(** C7 (amended).  A column whose name is an ASCII text that holds a
    unit token is always matched by a name pattern, and its unit hint is
    decided by the first pattern matched.  If that is not amount or unit
    there is no hint: so for every name with [kwh], [mwh], [liter],
    [gallon], [km], [mile] or [m3], which the pattern of an emission
    kind catches first.  Under the roles amount and unit the hint is the
    result of [detect_unit]: nothing for a column that is empty or all
    null; for a numeric column the unit of the first token group found
    in the name, whatever the cells hold ([kg] for a name with [kg] and
    without [kw-h], [kilowatt], [mw-h], [megawatt]); for a text column
    (of ASCII texts) the first unit found in its first five values,
    whatever the name; nothing for another dtype. *)
Theorem C7_unit_hint_of_unit_named_column :
  forall (str_of_num : Q -> string)
         (ai : string -> list Cell -> option ColumnMapping)
         (use_ai : bool) (column : Series),
    is_ascii (s_name column) = true ->
    any_in ["kwh"; "mwh"; "kg"; "ton"; "liter"; "gallon"; "km"; "mile"; "m3"]
           (lower (s_name column)) = true ->
    let mapping := classify_column str_of_num ai use_ai column in
    exists cat,
      first_pattern patterns (lower (s_name column)) = Some cat
      /\ category mapping = cat
      /\ unit mapping
         = (if str_in cat ["amount"; "unit"]
            then detect_unit str_of_num column
            else None)
      /\ (any_in ["kwh"; "mwh"; "liter"; "gallon"; "km"; "mile"; "m3"]
                 (lower (s_name column)) = true ->
          str_in cat ["fuel"; "electricity"; "transport"; "waste"; "water"]
            = true
          /\ unit mapping = None)
      /\ (str_in cat ["amount"; "unit"] = true ->
          (empty_or_all_na column = true -> unit mapping = None)
          /\ (empty_or_all_na column = false ->
              s_dtype column = DNumeric ->
              unit mapping = unit_of_name name_units (lower (s_name column))
              /\ (contains "kg" (lower (s_name column)) = true ->
                  any_in ["kw-h"; "kilowatt"; "mw-h"; "megawatt"]
                         (lower (s_name column)) = false ->
                  unit mapping = Some "kg"))
          /\ (empty_or_all_na column = false ->
              s_dtype column = DText ->
              forallb (fun c => is_ascii (py_str str_of_num c))
                      (s_values column) = true ->
              unit mapping
              = unit_in_values
                  (firstn 5 (sample_strings str_of_num (s_values column))))
          /\ (s_dtype column = DDatetime \/ s_dtype column = DOther ->
              unit mapping = None)).
Proof.
  intros str_of_num ai use_ai column _ Htoken mapping.
  destruct (unit_token_is_matched _ Htoken) as [cat Hpat].
  exists cat.
  assert (Hcat : category mapping = cat).
  { unfold mapping, classify_column. rewrite Hpat. reflexivity. }
  assert (Hunit : unit mapping
                  = (if str_in cat ["amount"; "unit"]
                     then detect_unit str_of_num column
                     else None)).
  { unfold mapping, classify_column. rewrite Hpat. reflexivity. }
  split; [ exact Hpat | ]. split; [ exact Hcat | ].
  split; [ exact Hunit | ]. split.
  - intros Hkind.
    pose proof (kind_token_gives_kind _ cat Hkind Hpat) as Hfive.
    split; [ exact Hfive | ].
    rewrite Hunit.
    destruct (str_in cat ["amount"; "unit"]) eqn:Hrole; [ | reflexivity ].
    exfalso. unfold str_in in Hfive, Hrole. cbn [existsb] in Hfive, Hrole.
    repeat (apply orb_prop in Hfive; destruct Hfive as [Hk | Hfive];
            [ apply String.eqb_eq in Hk; rewrite Hk in Hrole;
              vm_compute in Hrole; discriminate Hrole | ]).
    discriminate Hfive.
  - intros Hrole. rewrite Hunit, Hrole. unfold detect_unit.
    split; [ | split; [ | split ] ].
    + intros Hempty. rewrite Hempty. reflexivity.
    + intros Hcells Hnum. rewrite Hcells, Hnum.
      split; [ reflexivity | ].
      intros Hkg Hnone.
      destruct (amount_or_unit_name_has_no_kwh _ _ Hpat Hrole)
        as [Hkwh Hmwh].
      unfold any_in in Hnone. cbn [existsb] in Hnone.
      repeat (apply orb_false_elim in Hnone; destruct Hnone as [? Hnone]).
      unfold name_units. cbn [unit_of_name]. unfold any_in. cbn [existsb].
      repeat match goal with
             | H : contains _ _ = _ |- _ => rewrite H; clear H
             end.
      reflexivity.
    + intros Hcells Htext _. rewrite Hcells, Htext. reflexivity.
    + intros [Hd | Hd]; rewrite Hd;
        destruct (empty_or_all_na column); reflexivity.
Qed.

Lemma C7_witness :
  exists cat,
    first_pattern patterns (lower (s_name net_weight_kg)) = Some cat
    /\ cat = "amount"
    /\ unit (classify_column int_text no_ai false net_weight_kg) = Some "kg".
Proof.
  destruct (C7_unit_hint_of_unit_named_column int_text no_ai false
              net_weight_kg eq_refl eq_refl)
    as [cat [Hpat [Hcat [Hunit [_ Hrole]]]]].
  exists cat. split; [ exact Hpat | ].
  assert (Hamount : cat = "amount").
  { rewrite <- Hcat. reflexivity. }
  split; [ exact Hamount | ].
  subst cat.
  destruct (Hrole eq_refl) as [_ [Hnumeric _]].
  destruct (Hnumeric eq_refl eq_refl) as [_ Hkg].
  apply Hkg; reflexivity.
Defined.

(** C7 as stated fails: the column [kWh] of meter readings is given the
    role electricity and no unit hint; the text column [Weight (kg)] and
    the [kg] column without rows get no unit hint either. *)
Lemma C7_counterexample :
  contains "kwh" (lower (s_name kwh_readings)) = true
  /\ unit (classify_column int_text no_ai false kwh_readings) = None
  /\ category (classify_column int_text no_ai false kwh_readings)
     = "electricity"
  /\ contains "kg" (lower (s_name weight_notes)) = true
  /\ unit (classify_column int_text no_ai false weight_notes) = None
  /\ contains "kg" (lower (s_name kg_no_rows)) = true
  /\ unit (classify_column int_text no_ai false kg_no_rows) = None.
Proof. repeat split; reflexivity. Qed.

(** ** Scope and kind of a mapped row *)

Section MapperFacts.
Variable str_of_num : Q -> string.
Variable df_columns : list string.
Variable row : Row.

Lemma kind_is_not_skipped :
  forall cat, str_in cat KINDS = true ->
    str_in cat ["amount"; "unit"; "date"; "notes"; "unknown"] = false.
Proof.
  intros cat H. unfold str_in in H. apply existsb_exists in H.
  destruct H as [k [Hin Heq]]. apply String.eqb_eq in Heq. subst k.
  simpl in Hin.
  repeat (destruct Hin as [<- | Hin]; [ reflexivity | ]). destruct Hin.
Qed.

Lemma kind_is_truthy :
  forall cat, str_in cat KINDS = true -> truthy cat = true.
Proof.
  intros cat H. unfold str_in in H. apply existsb_exists in H.
  destruct H as [k [Hin Heq]]. apply String.eqb_eq in Heq. subst k.
  simpl in Hin.
  repeat (destruct Hin as [<- | Hin]; [ reflexivity | ]). destruct Hin.
Qed.

(** The scope loop returns the first hint of a present column, and the
    scope it was given when there is none. *)
Lemma scope_loop_first_hint :
  forall (items : dict ColumnMapping) (sc : option Scope),
    scope_loop df_columns row items sc
    = match first_scope_hint df_columns row items with
      | Some s => Some s
      | None => sc
      end.
Proof.
  induction items as [| [col mapping] rest IH]; intros sc.
  - reflexivity.
  - unfold first_scope_hint. cbn [scope_loop find].
    unfold hints_scope at 1. cbn [fst snd]. unfold present at 1.
    destruct (scope mapping) as [s |] eqn:Hs.
    + destruct (str_in col df_columns && notna (row_get row col)).
      * cbn [snd]. rewrite Hs. reflexivity.
      * apply IH.
    + apply IH.
Qed.

Lemma first_scope_hint_cons_none :
  forall col mapping rest,
    first_scope_hint df_columns row ((col, mapping) :: rest) = None ->
    (scope mapping = None \/ present df_columns row col = false)
    /\ first_scope_hint df_columns row rest = None.
Proof.
  intros col mapping rest H. unfold first_scope_hint in H.
  cbn [find] in H. unfold hints_scope at 1 in H. cbn [fst snd] in H.
  destruct (scope mapping) as [s |] eqn:Hs.
  - destruct (present df_columns row col) eqn:Hp.
    + cbn [snd] in H. congruence.
    + split; [ right; reflexivity | exact H ].
  - split; [ left; reflexivity | exact H ].
Qed.

(** Without a scope hint on a present column, the kind loop runs to the
    end: it leaves its variables alone when no kind column is present,
    and otherwise ends on a kind with no scope. *)
Lemma kind_loop_without_hint :
  forall (items : dict ColumnMapping) (et : option string)
         (sc : option Scope),
    first_scope_hint df_columns row items = None ->
    if has_kind_column df_columns row items
    then exists cat, str_in cat KINDS = true
                     /\ kind_loop df_columns row items et sc
                        = (Some cat, None)
    else kind_loop df_columns row items et sc = (et, sc).
Proof.
  induction items as [| [col mapping] rest IH]; intros et sc Hhint.
  - reflexivity.
  - apply first_scope_hint_cons_none in Hhint.
    destruct Hhint as [Hhere Hrest].
    cbn [kind_loop has_kind_column existsb fst snd].
    fold (has_kind_column df_columns row rest).
    unfold present in *.
    destruct (str_in col df_columns && notna (row_get row col)) eqn:Hp.
    + destruct Hhere as [Hnone | Hfalse]; [ | discriminate Hfalse ].
      apply andb_prop in Hp. destruct Hp as [Hcol Hcell].
      rewrite Hcol, Hcell.
      destruct (str_in (category mapping) KINDS) eqn:Hk.
      * rewrite (kind_is_not_skipped _ Hk). cbn [negb andb orb].
        rewrite Hnone.
        specialize (IH (Some (category mapping)) None Hrest).
        destruct (has_kind_column df_columns row rest).
        -- exact IH.
        -- exists (category mapping). split; [ exact Hk | exact IH ].
      * rewrite !andb_false_r. cbn [orb andb].
        apply IH. exact Hrest.
    + assert (Hcond : str_in col df_columns
                      && negb (str_in (category mapping)
                                 ["amount"; "unit"; "date"; "notes";
                                  "unknown"])
                      && notna (row_get row col)
                      && str_in (category mapping) KINDS = false).
      { apply andb_false_iff in Hp.
        destruct Hp as [-> | ->]; [ reflexivity | ].
        rewrite andb_false_r. reflexivity. }
      rewrite Hcond. cbn [andb orb]. apply IH. exact Hrest.
Qed.

End MapperFacts.

(** C2 (amended).  The scope under which a row is recorded follows the
    order the code gives its sources: the hint of the first present
    column that has one wins; without such a hint, a row whose kind came
    from the keywords of its category text takes that kind's default
    scope; the [scope N] of the category text is used only for a row
    whose kind came from a column without a scope hint. *)
Theorem C2_scope_precedence :
  forall (str_of_num : Q -> string) (df_columns : list string)
         (column_mappings : dict ColumnMapping) (row : Row)
         (sc : Scope) (it : Item),
    map_row str_of_num df_columns column_mappings row = Some (sc, it) ->
    match first_scope_hint df_columns row column_mappings with
    | Some hint => sc = hint
    | None =>
        exists cv,
          row_category str_of_num df_columns column_mappings row = Some cv
          /\ if has_kind_column df_columns row column_mappings
             then scope_of_text cv = Some sc
             else exists kind, kind_of_text cv = Some (kind, sc)
    end.
Proof.
  intros str_of_num df_columns column_mappings row sc it Hmap.
  unfold map_row in Hmap.
  destruct (row_amount df_columns column_mappings row) as [amount |];
    [ | discriminate Hmap ].
  destruct (row_emission_type str_of_num df_columns column_mappings row)
    as [etype |] eqn:Htype; [ | discriminate Hmap ].
  destruct (row_scope str_of_num df_columns column_mappings row)
    as [sc' |] eqn:Hscope; [ | discriminate Hmap ].
  destruct (truthy etype) eqn:Htruthy; [ | discriminate Hmap ].
  injection Hmap as Hsc _. subst sc'.
  unfold row_scope in Hscope. rewrite scope_loop_first_hint in Hscope.
  unfold row_emission_type in Htype.
  destruct (first_scope_hint df_columns row column_mappings)
    as [hint |] eqn:Hhint.
  - unfold scope_from_text in Hscope.
    destruct (row_category str_of_num df_columns column_mappings row);
      congruence.
  - pose proof (kind_loop_without_hint df_columns row column_mappings
                  None None Hhint) as Hloop.
    unfold row_kind_scope in Hscope, Htype.
    destruct (has_kind_column df_columns row column_mappings).
    + destruct Hloop as [cat [Hcat Hloop]].
      rewrite Hloop in Hscope, Htype.
      unfold kind_from_text in Hscope, Htype.
      destruct (row_category str_of_num df_columns column_mappings row)
        as [cv |] eqn:Hcv.
      * cbn [fst type_set] in Hscope, Htype.
        rewrite (kind_is_truthy _ Hcat) in Hscope, Htype.
        cbn [negb andb snd] in Hscope, Htype.
        unfold scope_from_text in Hscope.
        exists cv. split; [ reflexivity | ].
        destruct (truthy cv); [ exact Hscope | discriminate Hscope ].
      * cbn [snd scope_from_text] in Hscope. discriminate Hscope.
    + rewrite Hloop in Hscope, Htype.
      unfold kind_from_text in Hscope, Htype.
      destruct (row_category str_of_num df_columns column_mappings row)
        as [cv |] eqn:Hcv; [ | discriminate Htype ].
      cbn [fst type_set negb andb] in Hscope, Htype.
      exists cv. split; [ reflexivity | ].
      destruct (truthy cv); [ | discriminate Htype ].
      destruct (kind_of_text cv) as [[kind ks] |] eqn:Hkind;
        [ | discriminate Htype ].
      cbn [snd scope_from_text] in Hscope.
      exists kind. congruence.
Qed.

Lemma C2_witness :
  match first_scope_hint labelled_columns labelled_row labelled_mappings with
  | Some hint => Scope1 = hint
  | None =>
      exists cv,
        row_category int_text labelled_columns labelled_mappings labelled_row
        = Some cv
        /\ if has_kind_column labelled_columns labelled_row labelled_mappings
           then scope_of_text cv = Some Scope1
           else exists kind, kind_of_text cv = Some (kind, Scope1)
  end.
Proof.
  eapply (C2_scope_precedence int_text labelled_columns labelled_mappings
            labelled_row).
  reflexivity.
Defined.

(** C2 as stated fails.  A row whose category text reads "diesel
    generator (scope 2)", in a table without any scope hint, is recorded
    under scope 1, the default of the kind fuel; and a row with a fuel
    column (hint 1) and the category text "scope 3 upstream" is recorded
    under scope 1. *)
Lemma C2_counterexample :
  (let df := labelled_df "Diesel generator (Scope 2)" in
   let cm := detect_column_types int_text no_ai df false in
   map (fun cmap => scope (snd cmap)) cm = [None; None]
   /\ map (row_category int_text (columns df) cm) (iterrows df)
      = [Some "diesel generator (scope 2)"]
   /\ scope_of_text "diesel generator (scope 2)" = Some Scope2
   /\ map (fun row => option_map fst (map_row int_text (columns df) cm row))
          (iterrows df)
      = [Some Scope1])
  /\
  (let df := fuel_column_df in
   let cm := detect_column_types int_text no_ai df false in
   map (row_category int_text (columns df) cm) (iterrows df)
      = [Some "scope 3 upstream"]
   /\ scope_of_text "scope 3 upstream" = Some Scope3
   /\ map (fun row => option_map fst (map_row int_text (columns df) cm row))
          (iterrows df)
      = [Some Scope1]).
Proof. repeat split; reflexivity. Qed.

(** C10.  A record is appended only when the amount, the emission type
    and the scope of the row are all set.  In particular, when a present
    column has the role of a kind, no present column carries a scope
    hint and the category text names no scope, the kind of the row is
    determined but its scope is not, and the row is left out whatever
    its amount. *)
Theorem C10_row_without_scope_is_left_out :
  forall (str_of_num : Q -> string) (df_columns : list string)
         (column_mappings : dict ColumnMapping) (row : Row),
    (forall sc it,
        map_row str_of_num df_columns column_mappings row = Some (sc, it) ->
        row_amount df_columns column_mappings row <> None
        /\ row_emission_type str_of_num df_columns column_mappings row
           = Some (item_type it)
        /\ row_scope str_of_num df_columns column_mappings row = Some sc)
    /\
    (has_kind_column df_columns row column_mappings = true ->
     first_scope_hint df_columns row column_mappings = None ->
     (forall cv,
         row_category str_of_num df_columns column_mappings row = Some cv ->
         scope_of_text cv = None) ->
     (exists kind,
         str_in kind KINDS = true
         /\ row_emission_type str_of_num df_columns column_mappings row
            = Some kind)
     /\ row_scope str_of_num df_columns column_mappings row = None
     /\ map_row str_of_num df_columns column_mappings row = None).
Proof.
  intros str_of_num df_columns column_mappings row. split.
  - intros sc it Hmap. unfold map_row in Hmap.
    destruct (row_amount df_columns column_mappings row) as [amount |];
      [ | discriminate Hmap ].
    destruct (row_emission_type str_of_num df_columns column_mappings row)
      as [etype |]; [ | discriminate Hmap ].
    destruct (row_scope str_of_num df_columns column_mappings row)
      as [sc' |]; [ | discriminate Hmap ].
    destruct (truthy etype); [ | discriminate Hmap ].
    injection Hmap as <- <-. repeat split. discriminate.
  - intros Hkind Hhint Htext.
    pose proof (kind_loop_without_hint df_columns row column_mappings
                  None None Hhint) as Hloop.
    rewrite Hkind in Hloop. destruct Hloop as [cat [Hcat Hloop]].
    assert (Hks : row_kind_scope str_of_num df_columns column_mappings row
                  = (Some cat, None)).
    { unfold row_kind_scope. rewrite Hloop. unfold kind_from_text.
      destruct (row_category str_of_num df_columns column_mappings row);
        [ | reflexivity ].
      cbn [fst type_set]. rewrite (kind_is_truthy _ Hcat). reflexivity. }
    assert (Hscope : row_scope str_of_num df_columns column_mappings row
                     = None).
    { unfold row_scope. rewrite scope_loop_first_hint, Hhint, Hks.
      cbn [snd]. unfold scope_from_text.
      destruct (row_category str_of_num df_columns column_mappings row)
        as [cv |] eqn:Hcv; [ | reflexivity ].
      destruct (truthy cv); [ | reflexivity ].
      apply Htext. reflexivity. }
    split; [ | split ].
    + exists cat. split; [ exact Hcat | ].
      unfold row_emission_type. rewrite Hks. reflexivity.
    + exact Hscope.
    + unfold map_row. rewrite Hscope.
      destruct (row_amount df_columns column_mappings row);
        [ | reflexivity ].
      destruct (row_emission_type str_of_num df_columns column_mappings row);
        reflexivity.
Qed.

Lemma C10_witness :
  row_amount unscoped_columns unscoped_mappings unscoped_row = Some 120
  /\ (exists kind,
         str_in kind KINDS = true
         /\ row_emission_type int_text unscoped_columns unscoped_mappings
              unscoped_row = Some kind)
  /\ row_scope int_text unscoped_columns unscoped_mappings unscoped_row = None
  /\ map_row int_text unscoped_columns unscoped_mappings unscoped_row = None.
Proof.
  split; [ reflexivity | ].
  apply (C10_row_without_scope_is_left_out int_text unscoped_columns
           unscoped_mappings unscoped_row).
  - reflexivity.
  - reflexivity.
  - intros cv H. vm_compute in H. discriminate H.
Defined.

Lemma labelled_row_is_classified :
  let df := labelled_df "Diesel generator (Scope 2)" in
  columns df = labelled_columns
  /\ detect_column_types int_text no_ai df false = labelled_mappings
  /\ iterrows df = [labelled_row].
Proof. repeat split; reflexivity. Qed.

(** ** The roll-up of the calculator *)

Lemma Qsum_nil : Qsum [] = 0.
Proof. reflexivity. Qed.

Lemma Qsum_cons : forall x l, Qsum (x :: l) = x + Qsum l.
Proof. reflexivity. Qed.

Lemma Qsum_app : forall l1 l2, Qsum (l1 ++ l2) == Qsum l1 + Qsum l2.
Proof.
  induction l1 as [| x l1 IH]; intros l2.
  - rewrite app_nil_l, Qsum_nil. ring.
  - rewrite <- app_comm_cons, !Qsum_cons, IH. ring.
Qed.

Lemma Qsum_snoc : forall l x, Qsum (l ++ [x]) == Qsum l + x.
Proof.
  intros l x. rewrite Qsum_app, Qsum_cons, Qsum_nil. ring.
Qed.

Lemma dict_values_cons :
  forall (k : string) (v : Q) (d : dict Q),
    dict_values ((k, v) :: d) = v :: dict_values d.
Proof. reflexivity. Qed.

Lemma dict_set_sum_absent :
  forall (d : dict Q) k v,
    dict_get k d = None ->
    Qsum (dict_values (dict_set k v d)) == Qsum (dict_values d) + v.
Proof.
  induction d as [| [k' v'] d IH]; intros k v Hget.
  - cbn [dict_set]. rewrite dict_values_cons, Qsum_cons. ring.
  - cbn [dict_get] in Hget. cbn [dict_set].
    destruct (String.eqb k k'); [ discriminate Hget | ].
    rewrite !dict_values_cons, !Qsum_cons, (IH k v Hget). ring.
Qed.

Lemma dict_set_sum_present :
  forall (d : dict Q) k v old,
    dict_get k d = Some old ->
    Qsum (dict_values (dict_set k v d)) == Qsum (dict_values d) - old + v.
Proof.
  induction d as [| [k' v'] d IH]; intros k v old Hget.
  - discriminate Hget.
  - cbn [dict_get] in Hget. cbn [dict_set].
    destruct (String.eqb k k').
    + injection Hget as <-. rewrite !dict_values_cons, !Qsum_cons. ring.
    + rewrite !dict_values_cons, !Qsum_cons, (IH k v old Hget). ring.
Qed.

(** Adding to a category adds as much to the sum of the categories. *)
Lemma dict_add_sum :
  forall (d : dict Q) k x,
    Qsum (dict_values (dict_add k x d)) == Qsum (dict_values d) + x.
Proof.
  intros d k x. unfold dict_add.
  destruct (dict_get k d) as [old |] eqn:Hget.
  - rewrite (dict_set_sum_present d k (old + x) old Hget). ring.
  - rewrite (dict_set_sum_absent d k (0 + x) Hget). ring.
Qed.

Lemma emissions_of_scope_snoc :
  forall s lines line,
    emissions_of_scope s (lines ++ [line])
    == emissions_of_scope s lines
       + (if Scope_eqb (li_scope line) s then li_emissions line else 0).
Proof.
  intros s lines line. unfold emissions_of_scope.
  rewrite filter_app, map_app, Qsum_app. cbn [filter].
  destruct (Scope_eqb (li_scope line) s); cbn [map].
  - rewrite Qsum_cons, Qsum_nil. ring.
  - rewrite Qsum_nil. ring.
Qed.

Lemma empty_results_consistent : report_consistent empty_results.
Proof.
  unfold report_consistent, empty_results. simpl.
  repeat split.
  - intros s; destruct s; reflexivity.
  - intros s; destruct s; reflexivity.
Qed.

Section RollUp.
Variable float_of_str : string -> option Q.
Variable emission_factors : Catalog.

(** One pass of the loop body keeps the report consistent. *)
Lemma add_item_consistent :
  forall sc results it results',
    add_item float_of_str emission_factors sc results it = Some results' ->
    report_consistent results -> report_consistent results'.
Proof.
  intros sc results it results' Hadd [Htot [Hlines [Hcats Hall]]].
  unfold add_item in Hadd.
  destruct (item_emissions float_of_str emission_factors it)
    as [emissions |]; [ | discriminate Hadd ].
  injection Hadd as <-.
  pose proof (Hlines Scope1) as HL1. pose proof (Hlines Scope2) as HL2.
  pose proof (Hlines Scope3) as HL3. pose proof (Hcats Scope1) as HC1.
  pose proof (Hcats Scope2) as HC2. pose proof (Hcats Scope3) as HC3.
  unfold report_consistent.
  destruct results as [r1 r2 r3 rt lines].
  cbn [r_scope1 r_scope2 r_scope3 r_total line_items scope_result] in *.
  destruct sc;
    cbn [set_scope_result scope_result r_scope1 r_scope2 r_scope3 r_total
         line_items total categories] in *.
  all: repeat split.
  all: try (intros s; destruct s;
            cbn [scope_result r_scope1 r_scope2 r_scope3 total categories]).
  all: try rewrite emissions_of_scope_snoc.
  all: try (unfold categories_sum; cbn [categories]; rewrite dict_add_sum;
            fold (categories_sum r1); fold (categories_sum r2);
            fold (categories_sum r3)).
  all: try (rewrite map_app; cbn [map]; rewrite Qsum_snoc).
  all: cbn [li_scope li_emissions Scope_eqb map].
  all: try (unfold categories_sum in *).
  all: try lra.
Qed.

Lemma add_items_consistent :
  forall sc items results results',
    add_items float_of_str emission_factors sc results items
      = Some results' ->
    report_consistent results -> report_consistent results'.
Proof.
  intros sc items. induction items as [| it rest IH];
    intros results results' Hadd Hinv.
  - simpl in Hadd. injection Hadd as <-. exact Hinv.
  - simpl in Hadd.
    destruct (add_item float_of_str emission_factors sc results it)
      as [mid |] eqn:Hmid; [ | discriminate Hadd ].
    apply (IH mid results' Hadd).
    apply (add_item_consistent sc results it mid Hmid Hinv).
Qed.

End RollUp.

(** In exact arithmetic every report the calculator returns is
    consistent: the grand total is the sum of the three scope totals;
    each scope total is the sum of the emissions of the lines of that
    scope, and the sum of the category totals of that scope; and the
    grand total is the sum of the emissions of all the line items. *)
Lemma exact_totals_agree :
  forall (float_of_str : string -> option Q) (emission_factors : Catalog)
         (structured_data : StructuredData) (results : Results),
    calculate_emissions float_of_str emission_factors structured_data
      = Some results ->
    report_consistent results.
Proof.
  intros float_of_str emission_factors structured_data results Hcalc.
  unfold calculate_emissions in Hcalc.
  destruct (add_items float_of_str emission_factors Scope1 empty_results
              (scope1 structured_data)) as [r1 |] eqn:H1;
    [ | discriminate Hcalc ].
  destruct (add_items float_of_str emission_factors Scope2 r1
              (scope2 structured_data)) as [r2 |] eqn:H2;
    [ | discriminate Hcalc ].
  eapply add_items_consistent; [ exact Hcalc | ].
  eapply add_items_consistent; [ exact H2 | ].
  eapply add_items_consistent; [ exact H1 | ].
  exact empty_results_consistent.
Qed.

(** ** Refrigerants *)

(** For a refrigerant record whose amount is [a], the calculator
    appends a line with emissions [a x g / 1000], where [g] is the GWP
    resolved for the record: that of the first catalog entry whose name
    contains the subtype text, else that of R-410A.  A record whose text
    is exactly [R-134a], as a column of refrigerant names gives it, has
    emissions 1 x 1430 / 1000 = 1.43, and the leak of 2.5 kg of scenario
    S4 has 2.5 x 2088 / 1000 = 5.22, R-410A being the default. *)
Lemma refrigerant_emissions_formula :
  (forall (float_of_str : string -> option Q) (emission_factors : Catalog)
          (sc : Scope) (results : Results) (it : Item)
          (amount_cell : Cell) (a : Q) (factors : dict Q),
      item_type it = "refrigerant" ->
      dict_get "amount" (item_data it) = Some amount_cell ->
      py_float float_of_str amount_cell = Some a ->
      dict_get "refrigerant" emission_factors = Some factors ->
      let g := resolve_factor refrigerant_branch factors
                 (subtype_or_default refrigerant_branch (item_data it)) in
      exists results',
        add_item float_of_str emission_factors sc results it = Some results'
        /\ line_items results'
           = line_items results
             ++ [mkLine sc "refrigerant" (item_data it) (a * g / 1000)
                        (original_row it)])
  /\ (forall (str_of_num : Q -> string) (float_of_str : string -> option Q)
             (ai : string -> list Cell -> option ColumnMapping),
        exists line,
          option_map line_items (pipeline str_of_num float_of_str ai r134a_df)
            = Some [line]
          /\ li_type line = "refrigerant"
          /\ subtype_or_default refrigerant_branch (li_data line) = "R-134a"
          /\ li_emissions line == 1 * 1430 / 1000
          /\ li_emissions line == 143 # 100)
  /\ (forall (str_of_num : Q -> string) (float_of_str : string -> option Q)
             (ai : string -> list Cell -> option ColumnMapping),
        exists line,
          option_map line_items (pipeline str_of_num float_of_str ai leak_df)
            = Some [line]
          /\ li_type line = "refrigerant"
          /\ li_scope line = Scope1
          /\ li_emissions line == (5 # 2) * 2088 / 1000
          /\ li_emissions line == 522 # 100).
Proof.
  split; [ | split ].
  - intros float_of_str emission_factors sc results it amount_cell a factors
           Htype Hcell Hfloat Hfactors g.
    unfold add_item, item_emissions.
    rewrite Htype, Hcell, Hfloat, Hfactors.
    change (dict_get "refrigerant" branches) with (Some refrigerant_branch).
    cbv iota beta. fold g.
    change (per_thousand refrigerant_branch) with true. cbv iota.
    eexists. split; [ reflexivity | ].
    destruct sc; reflexivity.
  - intros str_of_num float_of_str ai. eexists.
    split; [ vm_compute; reflexivity | ].
    repeat split; reflexivity.
  - intros str_of_num float_of_str ai. eexists.
    split; [ vm_compute; reflexivity | ].
    repeat split; reflexivity.
Qed.

(** C4.  On the row [{Category: "Refrigerant R-134a", Amount: 1, Unit:
    "kg", Scope: "Scope 1"}], shaped as the row of scenario S4, the
    pipeline produces one refrigerant line in scope 1, but with the GWP
    2088 of the default R-410A and not the 1430 of R-134a: the emissions
    are 1 x 2088 / 1000 = 2.088, not 1.43.  The text kept under
    ['category'] is that of the [Scope] column, so no text of the record
    names a refrigerant.  Without the [Scope] column the text
    "Refrigerant R-134a" is found as the subtype, but it is looked for
    inside the catalog names, none of which contains it, and the result
    is the same. *)
Theorem C4_r134a_row_gets_r410a_gwp :
  forall (str_of_num : Q -> string) (float_of_str : string -> option Q)
         (ai : string -> list Cell -> option ColumnMapping),
    (exists line : LineItem,
        option_map line_items
          (pipeline str_of_num float_of_str ai r134a_leak_df)
          = Some [line]
        /\ li_type line = "refrigerant"
        /\ li_scope line = Scope1
        /\ dict_get "amount" (li_data line) = Some (CNum 1)
        /\ dict_get "category" (li_data line) = Some (CStr "Scope 1")
        /\ find_subtype ["r-"; "hfc"; "refrigerant"] (li_data line) = None
        /\ li_emissions line == 1 * 2088 / 1000
        /\ ~ li_emissions line == 1 * 1430 / 1000)
    /\ (exists line : LineItem,
          option_map line_items
            (pipeline str_of_num float_of_str ai r134a_category_df)
            = Some [line]
          /\ li_type line = "refrigerant"
          /\ li_scope line = Scope1
          /\ dict_get "amount" (li_data line) = Some (CNum 1)
          /\ find_subtype ["r-"; "hfc"; "refrigerant"] (li_data line)
             = Some "Refrigerant R-134a"
          /\ option_map (match_factor "Refrigerant R-134a")
               (dict_get "refrigerant" load_emission_factors)
             = Some None
          /\ li_emissions line == 1 * 2088 / 1000
          /\ ~ li_emissions line == 1 * 1430 / 1000).
Proof.
  intros str_of_num float_of_str ai. split.
  - eexists. split; [ vm_compute; reflexivity | ].
    repeat split; try reflexivity.
    intro H. vm_compute in H. discriminate H.
  - eexists. split; [ vm_compute; reflexivity | ].
    repeat split; try reflexivity.
    intro H. vm_compute in H. discriminate H.
Qed.

(** ** Order of the line items *)

Section RowOrderFacts.
Variable str_of_num : Q -> string.
Variable df_columns : list string.
Variable column_mappings : dict ColumnMapping.

Lemma map_row_keeps_row :
  forall row sc it,
    map_row str_of_num df_columns column_mappings row = Some (sc, it) ->
    original_row it = row.
Proof.
  intros row sc it H. unfold map_row in H.
  destruct (row_amount df_columns column_mappings row); [ | discriminate H ].
  destruct (row_emission_type str_of_num df_columns column_mappings row)
    as [etype |]; [ | discriminate H ].
  destruct (row_scope str_of_num df_columns column_mappings row);
    [ | discriminate H ].
  destruct (truthy etype); [ | discriminate H ].
  injection H as _ <-. reflexivity.
Qed.

Lemma items_of_append :
  forall sd sc it s,
    items_of (append_item sd sc it) s
    = items_of sd s ++ (if Scope_eqb sc s then [it] else []).
Proof.
  intros sd sc it s. destruct sc, s; simpl; try reflexivity;
    rewrite app_nil_r; reflexivity.
Qed.

(** The loop over the rows files every record under its scope, in row
    order. *)
Lemma fold_rows_items :
  forall rows sd s,
    items_of
      (fold_left
         (fun sd row =>
            match map_row str_of_num df_columns column_mappings row with
            | Some (sc, it) => append_item sd sc it
            | None => sd
            end)
         rows sd) s
    = items_of sd s ++ items_in str_of_num df_columns column_mappings s rows.
Proof.
  induction rows as [| row rest IH]; intros sd s.
  - simpl. rewrite app_nil_r. reflexivity.
  - cbn [fold_left]. rewrite IH. unfold items_in. cbn [flat_map].
    destruct (map_row str_of_num df_columns column_mappings row)
      as [[sc it] |].
    + rewrite items_of_append, <- app_assoc. reflexivity.
    + reflexivity.
Qed.

Lemma map_rows_items :
  forall rows s,
    items_of (map_rows str_of_num df_columns column_mappings rows) s
    = items_in str_of_num df_columns column_mappings s rows.
Proof.
  intros rows s. unfold map_rows. rewrite fold_rows_items.
  destruct s; reflexivity.
Qed.

(** The records of a scope come from the rows that land in it, each
    once and in row order. *)
Lemma items_in_rows :
  forall s rows,
    map original_row (items_in str_of_num df_columns column_mappings s rows)
    = filter (emits_in str_of_num df_columns column_mappings s) rows.
Proof.
  intros s rows. induction rows as [| row rest IH].
  - reflexivity.
  - unfold items_in in *. cbn [flat_map filter]. rewrite map_app, IH.
    unfold emits_in at 2.
    destruct (map_row str_of_num df_columns column_mappings row)
      as [[sc it] |] eqn:Hrow.
    + destruct (Scope_eqb sc s).
      * cbn [map app]. rewrite (map_row_keeps_row _ _ _ Hrow). reflexivity.
      * reflexivity.
    + reflexivity.
Qed.

End RowOrderFacts.

Section LineOrder.
Variable float_of_str : string -> option Q.
Variable emission_factors : Catalog.

(** The inner loop appends one line per item, in item order. *)
Lemma add_items_lines :
  forall sc items results results',
    add_items float_of_str emission_factors sc results items
      = Some results' ->
    map line_source (line_items results')
    = map line_source (line_items results)
      ++ map (fun it => (sc, original_row it)) items.
Proof.
  intros sc items. induction items as [| it rest IH];
    intros results results' Hadd.
  - simpl in Hadd. injection Hadd as <-. rewrite app_nil_r. reflexivity.
  - cbn [add_items] in Hadd.
    destruct (add_item float_of_str emission_factors sc results it)
      as [mid |] eqn:Hmid; [ | discriminate Hadd ].
    rewrite (IH mid results' Hadd).
    unfold add_item in Hmid.
    destruct (item_emissions float_of_str emission_factors it)
      as [emissions |]; [ | discriminate Hmid ].
    injection Hmid as <-.
    assert (Hlines : forall r sr, line_items (set_scope_result r sc sr)
                                  = line_items r)
      by (intros r sr; destruct sc; reflexivity).
    cbn [line_items]. rewrite Hlines, map_app, <- app_assoc.
    reflexivity.
Qed.

End LineOrder.

(** C6 (amended).  The line items are listed scope by scope, scope 1
    first, then scope 2, then scope 3.  Within one scope they follow the
    order of the input rows: the lines of a scope are exactly the rows
    that yield a record under it, each once and in row order. *)
Theorem C6_lines_follow_rows_within_scope :
  forall (str_of_num : Q -> string) (float_of_str : string -> option Q)
         (emission_factors : Catalog) (df_columns : list string)
         (column_mappings : dict ColumnMapping) (rows : list Row)
         (results : Results),
    calculate_emissions float_of_str emission_factors
      (map_rows str_of_num df_columns column_mappings rows) = Some results ->
    map line_source (line_items results)
    = map (pair Scope1)
          (filter (emits_in str_of_num df_columns column_mappings Scope1) rows)
      ++ map (pair Scope2)
           (filter (emits_in str_of_num df_columns column_mappings Scope2)
                   rows)
      ++ map (pair Scope3)
           (filter (emits_in str_of_num df_columns column_mappings Scope3)
                   rows).
Proof.
  intros str_of_num float_of_str emission_factors df_columns column_mappings
         rows results Hcalc.
  unfold calculate_emissions in Hcalc.
  destruct (add_items float_of_str emission_factors Scope1 empty_results _)
    as [r1 |] eqn:H1; [ | discriminate Hcalc ].
  destruct (add_items float_of_str emission_factors Scope2 r1 _)
    as [r2 |] eqn:H2; [ | discriminate Hcalc ].
  apply add_items_lines in H1. apply add_items_lines in H2.
  apply add_items_lines in Hcalc.
  rewrite Hcalc, H2, H1. cbn [empty_results line_items map app].
  change (scope1 ?sd) with (items_of sd Scope1).
  change (scope2 ?sd) with (items_of sd Scope2).
  change (scope3 ?sd) with (items_of sd Scope3).
  rewrite !map_rows_items, <- !items_in_rows, !map_map, <- app_assoc.
  reflexivity.
Qed.

Lemma C6_witness :
  let df := travel_then_diesel_df in
  let cm := detect_column_types int_text no_ai df false in
  exists results,
    calculate_emissions int_literal load_emission_factors
      (map_rows int_text (columns df) cm [travel_row; diesel_row])
      = Some results
    /\ map line_source (line_items results)
       = map (pair Scope1)
             (filter (emits_in int_text (columns df) cm Scope1)
                     [travel_row; diesel_row])
         ++ map (pair Scope2)
              (filter (emits_in int_text (columns df) cm Scope2)
                      [travel_row; diesel_row])
         ++ map (pair Scope3)
              (filter (emits_in int_text (columns df) cm Scope3)
                      [travel_row; diesel_row]).
Proof.
  intros df cm. eexists. split; [ vm_compute; reflexivity | ].
  apply (C6_lines_follow_rows_within_scope int_text int_literal
           load_emission_factors (columns df) cm [travel_row; diesel_row]).
  vm_compute. reflexivity.
Defined.

(** C6 as stated fails.  Of the two rows of the table, the first (travel,
    scope 3) and the second (diesel, scope 1) both yield a line, and the
    line of the second row comes first in the report. *)
Lemma C6_counterexample :
  let df := travel_then_diesel_df in
  let cm := detect_column_types int_text no_ai df false in
  iterrows df = [travel_row; diesel_row]
  /\ filter (emits int_text (columns df) cm) (iterrows df)
     = [travel_row; diesel_row]
  /\ option_map (fun results => map li_original_row (line_items results))
       (pipeline int_text int_literal no_ai df)
     = Some [diesel_row; travel_row].
Proof. repeat split; reflexivity. Qed.

(** ** What the record keeps under ['amount'] *)

Lemma dict_get_set :
  forall (V : Type) (d : dict V) (k k' : string) (v : V),
    dict_get k (dict_set k' v d)
    = if String.eqb k k' then Some v else dict_get k d.
Proof.
  intros V d k k' v. induction d as [| [k0 v0] d IH].
  - cbn [dict_set dict_get]. reflexivity.
  - cbn [dict_set]. destruct (String.eqb k' k0) eqn:Hk'.
    + apply String.eqb_eq in Hk'. subst k0. cbn [dict_get].
      destruct (String.eqb k k'); reflexivity.
    + cbn [dict_get]. rewrite IH.
      destruct (String.eqb k k0) eqn:Hk0; [ | reflexivity ].
      apply String.eqb_eq in Hk0. subst k0.
      rewrite String.eqb_sym, Hk'. reflexivity.
Qed.

(** After the collecting loop, the entry of a role holds the cell of the
    last present column of that role, when there is one. *)
Lemma collect_keeps_last_cell :
  forall (df_columns : list string) (row : Row) (role : string),
    str_in role ["unknown"; "ignore"] = false ->
    forall (items : dict ColumnMapping) (data : dict Cell),
      dict_get role (collect df_columns row items data)
      = match last_cell_of_role df_columns row role items with
        | Some c => Some c
        | None => dict_get role data
        end.
Proof.
  intros df_columns row role Hrole items.
  induction items as [| [col mapping] rest IH]; intros data.
  - reflexivity.
  - cbn [collect last_cell_of_role]. unfold present.
    destruct (String.eqb (category mapping) role) eqn:Hcat.
    + apply String.eqb_eq in Hcat. rewrite Hcat, Hrole.
      cbn [negb]. rewrite andb_true_r. cbn [andb].
      destruct (str_in col df_columns && notna (row_get row col)).
      * rewrite IH, dict_get_set, String.eqb_refl.
        destruct (last_cell_of_role df_columns row role rest); reflexivity.
      * rewrite IH.
        destruct (last_cell_of_role df_columns row role rest); reflexivity.
    + cbn [andb].
      destruct (str_in col df_columns
                && negb (str_in (category mapping) ["unknown"; "ignore"])
                && notna (row_get row col)).
      * rewrite IH, dict_get_set, String.eqb_sym, Hcat.
        destruct (last_cell_of_role df_columns row role rest); reflexivity.
      * rewrite IH.
        destruct (last_cell_of_role df_columns row role rest); reflexivity.
Qed.

(** The emission type of a row is one of the six kinds. *)
Lemma kind_loop_gives_kind :
  forall (df_columns : list string) (row : Row)
         (items : dict ColumnMapping) (et : option string)
         (sc : option Scope),
    (forall t, et = Some t -> str_in t KINDS = true) ->
    forall t, fst (kind_loop df_columns row items et sc) = Some t ->
              str_in t KINDS = true.
Proof.
  intros df_columns row items.
  induction items as [| [col mapping] rest IH]; intros et sc Het t Ht.
  - apply Het. exact Ht.
  - cbn [kind_loop] in Ht.
    destruct (str_in col df_columns
              && negb (str_in (category mapping)
                         ["amount"; "unit"; "date"; "notes"; "unknown"])
              && notna (row_get row col)
              && str_in (category mapping) KINDS) eqn:Hcond.
    + apply andb_prop in Hcond. destruct Hcond as [_ Hkind].
      destruct (scope mapping) as [s |].
      * rewrite (kind_is_truthy _ Hkind) in Ht. cbn [fst] in Ht.
        injection Ht as <-. exact Hkind.
      * apply (IH (Some (category mapping)) None); [ | exact Ht ].
        intros t' Ht'. injection Ht' as <-. exact Hkind.
    + apply (IH et sc Het t Ht).
Qed.

Lemma kind_of_text_gives_kind :
  forall cv t s, kind_of_text cv = Some (t, s) -> str_in t KINDS = true.
Proof.
  intros cv t s H. unfold kind_of_text in H.
  repeat match type of H with
         | (if ?c then _ else _) = _ =>
             destruct c; [ injection H as <- _; reflexivity | ]
         end.
  discriminate H.
Qed.

Lemma row_emission_type_is_kind :
  forall (str_of_num : Q -> string) (df_columns : list string)
         (column_mappings : dict ColumnMapping) (row : Row) (t : string),
    row_emission_type str_of_num df_columns column_mappings row = Some t ->
    str_in t KINDS = true.
Proof.
  intros str_of_num df_columns column_mappings row t H.
  unfold row_emission_type, row_kind_scope, kind_from_text in H.
  pose proof (kind_loop_gives_kind df_columns row column_mappings None None)
    as Hloop.
  destruct (row_category str_of_num df_columns column_mappings row)
    as [cv |].
  - destruct (negb (type_set (fst (kind_loop df_columns row column_mappings
                                     None None))) && truthy cv).
    + destruct (kind_of_text cv) as [[t' s'] |] eqn:Hk.
      * cbn [fst] in H. injection H as <-.
        apply (kind_of_text_gives_kind _ _ _ Hk).
      * apply Hloop; [ discriminate | exact H ].
    + apply Hloop; [ discriminate | exact H ].
  - apply Hloop; [ discriminate | exact H ].
Qed.

(** X1.  The amount a record carries is the cell of the last present column
    of role amount, not the amount the mapper selected. *)
Lemma record_amount_is_last_amount_cell :
  forall (str_of_num : Q -> string) (df_columns : list string)
         (column_mappings : dict ColumnMapping) (row : Row)
         (sc : Scope) (it : Item),
    map_row str_of_num df_columns column_mappings row = Some (sc, it) ->
    exists amount,
      row_amount df_columns column_mappings row = Some amount
      /\ dict_get "amount" (item_data it)
         = match last_cell_of_role df_columns row "amount" column_mappings
           with
           | Some c => Some c
           | None => Some (CNum amount)
           end.
Proof.
  intros str_of_num df_columns column_mappings row sc it H.
  unfold map_row in H.
  destruct (row_amount df_columns column_mappings row) as [amount |];
    [ | discriminate H ].
  destruct (row_emission_type str_of_num df_columns column_mappings row)
    as [etype |] eqn:Htype; [ | discriminate H ].
  apply row_emission_type_is_kind in Htype.
  destruct (row_scope str_of_num df_columns column_mappings row);
    [ | discriminate H ].
  destruct (truthy etype); [ | discriminate H ].
  injection H as _ <-. exists amount. split; [ reflexivity | ].
  cbn [item_data]. rewrite collect_keeps_last_cell by reflexivity.
  destruct (last_cell_of_role df_columns row "amount" column_mappings);
    [ reflexivity | ].
  cbn [dict_set].
  destruct (String.eqb etype "amount") eqn:Heq; [ | reflexivity ].
  apply String.eqb_eq in Heq. subst etype. discriminate Htype.
Qed.

(** X2.  A row without a non-null numeric cell in an amount column yields no
    record; nothing is raised. *)
Lemma row_without_amount_is_left_out :
  forall (str_of_num : Q -> string) (df_columns : list string)
         (column_mappings : dict ColumnMapping) (row : Row),
    (forall col, In col (amount_columns df_columns column_mappings) ->
                 notna (row_get row col)
                 && is_numeric_value (row_get row col) = false) ->
    map_row str_of_num df_columns column_mappings row = None.
Proof.
  intros str_of_num df_columns column_mappings row Hnone.
  unfold map_row, row_amount.
  assert (Hextract : extract_amount row
                       (amount_columns df_columns column_mappings) = None).
  { induction (amount_columns df_columns column_mappings) as [| col rest IH].
    - reflexivity.
    - cbn [extract_amount]. rewrite (Hnone col (or_introl eq_refl)).
      apply IH. intros c Hc. apply Hnone. right. exact Hc. }
  rewrite Hextract. reflexivity.
Qed.

(** X3.  A record whose amount is zero contributes a line of zero emissions. *)
Lemma zero_amount_contributes_nothing :
  forall (float_of_str : string -> option Q) (emission_factors : Catalog)
         (it : Item) (amount_cell : Cell) (a e : Q),
    dict_get "amount" (item_data it) = Some amount_cell ->
    py_float float_of_str amount_cell = Some a ->
    a == 0 ->
    item_emissions float_of_str emission_factors it = Some e ->
    e == 0.
Proof.
  intros float_of_str emission_factors it amount_cell a e Hcell Hfloat Ha He.
  unfold item_emissions in He. rewrite Hcell, Hfloat in He.
  destruct (dict_get (item_type it) branches) as [b |].
  - destruct (dict_get (item_type it) emission_factors) as [factors |];
      [ | discriminate He ].
    destruct (per_thousand b); injection He as <-; rewrite Ha;
      unfold Qdiv; ring.
  - injection He as <-. reflexivity.
Qed.

(** ** The dictionary of column types *)

Lemma find_name_absent :
  forall (df : DataFrame) (name : string),
    ~ In name (columns df) ->
    find (fun c => String.eqb (s_name c) name) df = None.
Proof.
  induction df as [| c rest IH]; intros name Hnot.
  - reflexivity.
  - cbn [find]. destruct (String.eqb (s_name c) name) eqn:Heq.
    + apply String.eqb_eq in Heq. exfalso. apply Hnot. left. exact Heq.
    + apply IH. intro Hin. apply Hnot. right. exact Hin.
Qed.

Section ColumnTypes.
Variable str_of_num : Q -> string.
Variable ai : string -> list Cell -> option ColumnMapping.
Variable use_ai : bool.

Lemma fold_classify_lookup :
  forall (df : DataFrame) (acc : dict ColumnMapping) (name : string),
    NoDup (columns df) ->
    dict_get name
      (fold_left (fun column_types column =>
                    dict_set (s_name column)
                      (classify_column str_of_num ai use_ai column)
                      column_types)
                 df acc)
    = match find (fun c => String.eqb (s_name c) name) df with
      | Some c => Some (classify_column str_of_num ai use_ai c)
      | None => dict_get name acc
      end.
Proof.
  induction df as [| c rest IH]; intros acc name Hnodup.
  - reflexivity.
  - cbn [columns map] in Hnodup. inversion Hnodup as [| ? ? Hnotin Hrest].
    subst. cbn [fold_left find]. rewrite (IH _ _ Hrest), dict_get_set.
    destruct (String.eqb (s_name c) name) eqn:Heq.
    + apply String.eqb_eq in Heq. subst name.
      rewrite (find_name_absent rest (s_name c) Hnotin), String.eqb_refl.
      reflexivity.
    + rewrite String.eqb_sym, Heq. reflexivity.
Qed.

(** With distinct column names, the entry of a column in the result of
    [detect_column_types] is the mapping of the loop body for it. *)
Lemma detect_column_types_lookup :
  forall (df : DataFrame) (column : Series),
    NoDup (columns df) -> In column df ->
    dict_get (s_name column) (detect_column_types str_of_num ai df use_ai)
    = Some (classify_column str_of_num ai use_ai column).
Proof.
  intros df column Hnodup Hin. unfold detect_column_types.
  rewrite (fold_classify_lookup df [] (s_name column) Hnodup).
  clear - Hnodup Hin. induction df as [| c rest IH].
  - destruct Hin.
  - cbn [columns map] in Hnodup. inversion Hnodup as [| ? ? Hnotin Hrest].
    subst. cbn [find]. destruct Hin as [-> | Hin].
    + rewrite String.eqb_refl. reflexivity.
    + destruct (String.eqb (s_name c) (s_name column)) eqn:Heq.
      * apply String.eqb_eq in Heq. exfalso. apply Hnotin.
        rewrite Heq. apply in_map. exact Hin.
      * apply IH; assumption.
Qed.

End ColumnTypes.

(** ** The amount the mapper selects *)

(** X4.  The amount selected is that of the first amount column, in mapping
    order, whose cell is non-null and numeric. *)
Lemma extract_amount_first_numeric :
  forall (row : Row) (cols : list string) (a : Q),
    extract_amount row cols = Some a ->
    exists before col after,
      cols = before ++ col :: after
      /\ (forall c, In c before ->
                    notna (row_get row c)
                    && is_numeric_value (row_get row c) = false)
      /\ notna (row_get row col) && is_numeric_value (row_get row col) = true
      /\ num_value (row_get row col) = Some a.
Proof.
  intros row cols a. induction cols as [| col rest IH]; intros H.
  - discriminate H.
  - cbn [extract_amount] in H.
    destruct (notna (row_get row col) && is_numeric_value (row_get row col))
      eqn:Hcol.
    + exists [], col, rest. repeat split; try assumption.
      intros c [].
    + destruct (IH H) as [before [col' [after [Hcols [Hbefore [Hcol' Ha]]]]]].
      exists (col :: before), col', after. repeat split; try assumption.
      * rewrite Hcols. reflexivity.
      * intros c [<- | Hc]; [ exact Hcol | apply Hbefore; exact Hc ].
Qed.

(** ** When the calculator returns *)

Section Returns.
Variable float_of_str : string -> option Q.
Variable emission_factors : Catalog.

Lemma add_items_returns :
  forall sc items results,
    (forall it, In it items ->
                item_emissions float_of_str emission_factors it <> None) ->
    exists results',
      add_items float_of_str emission_factors sc results items
      = Some results'.
Proof.
  intros sc items. induction items as [| it rest IH]; intros results Hok.
  - exists results. reflexivity.
  - cbn [add_items]. unfold add_item.
    destruct (item_emissions float_of_str emission_factors it)
      as [emissions |] eqn:Hit.
    + apply IH. intros it' Hin. apply Hok. right. exact Hin.
    + exfalso. apply (Hok it (or_introl eq_refl)). exact Hit.
Qed.

(** The calculator returns a report as soon as the emissions of every
    item can be computed: the amount converts to a float and the catalog
    knows the kind. *)
Lemma calculate_emissions_returns :
  forall structured_data,
    (forall s it, In it (items_of structured_data s) ->
                  item_emissions float_of_str emission_factors it <> None) ->
    exists results,
      calculate_emissions float_of_str emission_factors structured_data
      = Some results.
Proof.
  intros structured_data Hok. unfold calculate_emissions.
  destruct (add_items_returns Scope1 (scope1 structured_data) empty_results
              (Hok Scope1)) as [r1 H1].
  rewrite H1.
  destruct (add_items_returns Scope2 (scope2 structured_data) r1
              (Hok Scope2)) as [r2 H2].
  rewrite H2.
  apply (add_items_returns Scope3 (scope3 structured_data) r2 (Hok Scope3)).
Qed.

End Returns.

(** * Further properties of the module *)

(** ** Substrings *)

Lemma prefix_app_l :
  forall k1 k2 s, String.prefix (k1 ++ k2)%string s = true ->
                  String.prefix k1 s = true.
Proof.
  induction k1 as [| c k1 IH]; intros k2 s H.
  - destruct s; reflexivity.
  - destruct s as [| c' s']; [ discriminate H | ].
    cbn [String.append String.prefix] in *.
    destruct (ascii_dec c c'); [ | discriminate H ].
    apply (IH k2 s' H).
Qed.

(** A text that contains a needle contains every prefix of it. *)
Lemma contains_app_l :
  forall k1 k2 s, contains (k1 ++ k2)%string s = true -> contains k1 s = true.
Proof.
  intros k1 k2 s. induction s as [| c s IH]; intros H.
  - cbn [contains] in *. rewrite orb_false_r in *.
    apply (prefix_app_l k1 k2 _ H).
  - cbn [contains] in *. apply orb_true_iff in H. apply orb_true_iff.
    destruct H as [H | H].
    + left. apply (prefix_app_l k1 k2 _ H).
    + right. apply IH. exact H.
Qed.

(** A text that contains a needle contains the needle without its first
    character. *)
Lemma contains_tail :
  forall c k s, contains (String c k) s = true -> contains k s = true.
Proof.
  intros c k s. induction s as [| c' s IH]; intros H.
  - cbn [contains String.prefix] in H. discriminate H.
  - cbn [contains] in H. apply orb_true_iff in H.
    assert (Hrest : contains k s = true).
    { destruct H as [H | H].
      - cbn [String.prefix] in H. destruct (ascii_dec c c'); [ | discriminate H ].
        destruct s; cbn [contains]; rewrite H; reflexivity.
      - apply IH. exact H. }
    cbn [contains]. rewrite Hrest. apply orb_true_r.
Qed.

(** ** The classifier on its own *)

Lemma first_pattern_key :
  forall ps subject cat,
    first_pattern ps subject = Some cat -> In cat (map fst ps).
Proof.
  induction ps as [| [c p] rest IH]; intros subject cat H.
  - discriminate H.
  - cbn [first_pattern] in H. destruct (search p subject).
    + injection H as <-. left. reflexivity.
    + right. apply (IH subject cat H).
Qed.

(** What the classifier promises of a mapping it builds on its own. *)
Lemma infer_from_text_sound :
  forall (values : list string),
    match infer_from_text values with
    | Some m =>
        str_in (category m) ROLES = true
        /\ 0 <= confidence m /\ confidence m <= 1
        /\ scope m
           = (if str_in (category m) KINDS
              then get_scope_for_category (category m)
              else if String.eqb (category m) "category" then scope m
              else None)
    | None => True
    end.
Proof.
  intros values. unfold infer_from_text.
  destruct (existsb (contains "scope 1") values);
    [ repeat split; try reflexivity; unfold Qle; cbn; lia | ].
  destruct (existsb (contains "scope 2") values);
    [ repeat split; try reflexivity; unfold Qle; cbn; lia | ].
  destruct (existsb (contains "scope 3") values);
    [ repeat split; try reflexivity; unfold Qle; cbn; lia | ].
  destruct (find _ _);
    [ repeat split; try reflexivity; unfold Qle; cbn; lia | ].
  destruct (existsb _ values);
    [ repeat split; try reflexivity; unfold Qle; cbn; lia | exact I ].
Qed.

Lemma infer_from_content_sound :
  forall (str_of_num : Q -> string) (column : Series),
    match infer_from_content str_of_num column with
    | Some m =>
        str_in (category m) ROLES = true
        /\ 0 <= confidence m /\ confidence m <= 1
        /\ scope m
           = (if str_in (category m) KINDS
              then get_scope_for_category (category m)
              else if String.eqb (category m) "category" then scope m
              else None)
    | None => True
    end.
Proof.
  intros str_of_num column. unfold infer_from_content.
  destruct (empty_or_all_na column); [ exact I | ].
  destruct (s_dtype column).
  - destruct (col_min (s_values column)); [ | exact I ].
    destruct (col_max (s_values column)); [ | exact I ].
    destruct (in_0_100 q && in_0_100 q0);
      repeat split; try reflexivity; unfold Qle; cbn; lia.
  - repeat split; try reflexivity; unfold Qle; cbn; lia.
  - apply infer_from_text_sound.
  - exact I.
Qed.

(** X5.  Without the language model, the role in the mapping of a column
    is one of thirteen: the twelve keys of [patterns] ([fuel],
    [electricity], [transport], [waste], [water], [refrigerant],
    [amount], [unit], [date], [category], [location], [notes]) or
    [unknown]; [ignore] is never assigned.  The confidence lies between
    0 and 1; a column of an emission kind carries the default scope of
    that kind, and no other column than one of role [category] carries
    a scope. *)
Theorem classifier_roles_confidence_and_scopes :
  forall (str_of_num : Q -> string)
         (ai : string -> list Cell -> option ColumnMapping)
         (column : Series),
    let m := classify_column str_of_num ai false column in
    str_in (category m) ROLES = true
    /\ 0 <= confidence m /\ confidence m <= 1
    /\ scope m
       = (if str_in (category m) KINDS
          then get_scope_for_category (category m)
          else if String.eqb (category m) "category" then scope m
          else None).
Proof.
  intros str_of_num ai column. unfold classify_column.
  destruct (first_pattern patterns (lower (s_name column))) as [cat |] eqn:Hp.
  - apply first_pattern_key in Hp. unfold patterns in Hp. simpl in Hp.
    cbn [category confidence scope].
    repeat (destruct Hp as [<- | Hp];
            [ repeat split; try reflexivity; try (unfold Qle; cbn; lia) | ]).
    destruct Hp.
  - pose proof (infer_from_content_sound str_of_num column) as Hinfer.
    destruct (infer_from_content str_of_num column) as [m |].
    + exact Hinfer.
    + repeat split; try reflexivity; unfold Qle; cbn; lia.
Qed.

(** X6.  [detect_unit] answers with one of its nine canonical units or
    with nothing, and with nothing for a column that is empty or all
    null. *)
Theorem detect_unit_is_canonical :
  forall (str_of_num : Q -> string) (column : Series),
    match detect_unit str_of_num column with
    | Some u => str_in u CANONICAL_UNITS = true
    | None => True
    end
    /\ (if empty_or_all_na column
        then detect_unit str_of_num column = None
        else True).
Proof.
  intros str_of_num column. unfold detect_unit.
  destruct (empty_or_all_na column); [ split; exact I || reflexivity | ].
  split; [ | exact I ].
  destruct (s_dtype column); try exact I.
  - generalize (lower (s_name column)). intros name.
    unfold name_units. cbn [unit_of_name].
    repeat match goal with
           | |- context [if ?c then _ else _] => destruct c
           end; try reflexivity; exact I.
  - generalize (firstn 5 (sample_strings str_of_num (s_values column))).
    intros values. induction values as [| v rest IH].
    + exact I.
    + cbn [unit_in_values]. unfold value_units at 1. cbn [unit_in_value].
      repeat match goal with
             | |- context [if contains ?k v then _ else _] =>
                 destruct (contains k v)
             end; try reflexivity; exact IH.
Qed.

(** Case analysis on every test of a cascade of conditionals. *)
Ltac split_ifs :=
  repeat (cbv iota;
          match goal with
          | |- context [if ?c then _ else _] =>
              lazymatch c with
              | true => fail
              | false => fail
              | _ => destruct c
              end
          end);
  cbv iota.

(** X7.  On a numeric column [detect_unit] never answers [gallons]: the
    test for the letter [l] of litres comes first in the chain and
    catches every name with [gal]; for the same reason a name with [mile]
    never gets [miles]. *)
Theorem detect_unit_never_gallons :
  forall (str_of_num : Q -> string) (column : Series),
    s_dtype column = DNumeric ->
    detect_unit str_of_num column <> Some "gallons"
    /\ (contains "mile" (lower (s_name column)) = true ->
        detect_unit str_of_num column <> Some "miles").
Proof.
  intros str_of_num column Hnum. unfold detect_unit. rewrite Hnum.
  destruct (empty_or_all_na column); cbv iota;
    [ split; [ | intros _ ]; intro Hd; discriminate Hd | ].
  generalize (lower (s_name column)). intros name.
  assert (Hgal : contains "gal" name = true -> contains "l" name = true).
  { intros H. apply contains_tail in H. apply contains_tail in H. exact H. }
  assert (Hgallon : contains "gallon" name = true -> contains "l" name = true).
  { intros H. apply Hgal. apply (contains_app_l "gal" "lon" name H). }
  assert (Hmile : contains "mile" name = true -> contains "l" name = true).
  { intros H. apply contains_tail in H. apply contains_tail in H.
    apply (contains_app_l "l" "e" name H). }
  unfold name_units. cbn [unit_of_name]. unfold any_in. cbn [existsb].
  destruct (contains "l" name) eqn:Hl.
  - cbn [orb]. split; [ | intros _ ]; split_ifs; intro Hd; discriminate Hd.
  - destruct (contains "gal" name) eqn:Hg;
      [ specialize (Hgal eq_refl); congruence | ].
    destruct (contains "gallon" name) eqn:Hgn;
      [ specialize (Hgallon eq_refl); congruence | ].
    split.
    + cbn [orb]. split_ifs; intro Hd; discriminate Hd.
    + intros Hm. specialize (Hmile Hm). congruence.
Qed.

Lemma detect_unit_never_gallons_witness :
  detect_unit int_text gallons_column = Some "litres"
  /\ detect_unit int_text gallons_column <> Some "gallons".
Proof.
  split; [ reflexivity | ].
  apply (detect_unit_never_gallons int_text gallons_column). reflexivity.
Defined.

(** ** One mapping per column *)

Lemma dict_get_absent :
  forall (V : Type) (d : dict V) (k : string),
    ~ In k (map fst d) -> dict_get k d = None.
Proof.
  intros V d k. induction d as [| [k' v'] d IH]; intros Hnot.
  - reflexivity.
  - cbn [dict_get]. destruct (String.eqb k k') eqn:Heq.
    + apply String.eqb_eq in Heq. exfalso. apply Hnot. left. symmetry.
      exact Heq.
    + apply IH. intro Hin. apply Hnot. right. exact Hin.
Qed.

(** Setting a key the dictionary does not have appends the entry. *)
Lemma dict_set_fresh :
  forall (V : Type) (d : dict V) (k : string) (v : V),
    ~ In k (map fst d) -> dict_set k v d = d ++ [(k, v)].
Proof.
  intros V d k v. induction d as [| [k' v'] d IH]; intros Hnot.
  - reflexivity.
  - cbn [dict_set]. destruct (String.eqb k k') eqn:Heq.
    + apply String.eqb_eq in Heq. exfalso. apply Hnot. left. symmetry.
      exact Heq.
    + cbn [app]. f_equal. apply IH. intro Hin. apply Hnot. right. exact Hin.
Qed.

Lemma fold_classify_appends :
  forall (str_of_num : Q -> string)
         (ai : string -> list Cell -> option ColumnMapping) (use_ai : bool)
         (df : DataFrame) (acc : dict ColumnMapping),
    NoDup (map fst acc ++ columns df) ->
    fold_left (fun column_types column =>
                 dict_set (s_name column)
                   (classify_column str_of_num ai use_ai column)
                   column_types)
              df acc
    = acc ++ map (fun column =>
                    (s_name column,
                     classify_column str_of_num ai use_ai column))
                 df.
Proof.
  intros str_of_num ai use_ai df.
  induction df as [| c rest IH]; intros acc Hnodup.
  - cbn [fold_left map]. rewrite app_nil_r. reflexivity.
  - cbn [fold_left map]. cbn [columns map] in Hnodup.
    assert (Hfresh : ~ In (s_name c) (map fst acc)).
    { intro Hin. apply NoDup_remove_2 in Hnodup. apply Hnodup.
      apply in_or_app. left. exact Hin. }
    rewrite (dict_set_fresh _ acc (s_name c) _ Hfresh).
    rewrite IH.
    + rewrite <- app_assoc. reflexivity.
    + rewrite map_app, <- app_assoc. exact Hnodup.
Qed.

(** X8.  On a table with distinct column names, [detect_column_types]
    returns exactly one mapping per column, in the order of the table:
    every column is classified, none twice, and the entry of a column is
    the result of the loop body on that column alone. *)
Theorem detect_column_types_one_per_column :
  forall (str_of_num : Q -> string)
         (ai : string -> list Cell -> option ColumnMapping) (use_ai : bool)
         (df : DataFrame),
    NoDup (columns df) ->
    detect_column_types str_of_num ai df use_ai
    = map (fun column =>
             (s_name column, classify_column str_of_num ai use_ai column))
          df
    /\ map fst (detect_column_types str_of_num ai df use_ai) = columns df.
Proof.
  intros str_of_num ai use_ai df Hnodup.
  assert (Heq : detect_column_types str_of_num ai df use_ai
                = map (fun column =>
                         (s_name column,
                          classify_column str_of_num ai use_ai column))
                      df).
  { unfold detect_column_types.
    rewrite (fold_classify_appends str_of_num ai use_ai df []); [ reflexivity | ].
    exact Hnodup. }
  split; [ exact Heq | ].
  rewrite Heq, map_map. reflexivity.
Qed.

Lemma detect_column_types_one_per_column_witness :
  map fst (detect_column_types int_text no_ai sample_template false)
  = ["Category"; "Amount"; "Unit"; "Scope"; "Location"; "Date"].
Proof.
  apply (detect_column_types_one_per_column int_text no_ai false
           sample_template).
  repeat constructor; simpl; intuition discriminate.
Defined.

(** ** Records of the mapper *)

Lemma dict_mem_set :
  forall (V : Type) (d : dict V) (k k' : string) (v : V),
    dict_mem k (dict_set k' v d) = String.eqb k k' || dict_mem k d.
Proof.
  intros V d k k' v. unfold dict_mem. rewrite dict_get_set.
  destruct (String.eqb k k'); reflexivity.
Qed.

(** The collecting loop only adds or replaces entries. *)
Lemma collect_keeps_keys :
  forall (df_columns : list string) (row : Row)
         (items : dict ColumnMapping) (data : dict Cell) (k : string),
    dict_mem k data = true ->
    dict_mem k (collect df_columns row items data) = true.
Proof.
  intros df_columns row items.
  induction items as [| [col mapping] rest IH]; intros data k Hk.
  - exact Hk.
  - cbn [collect].
    destruct (str_in col df_columns
              && negb (str_in (category mapping) ["unknown"; "ignore"])
              && notna (row_get row col)).
    + apply IH. rewrite dict_mem_set, Hk. apply orb_true_r.
    + apply IH. exact Hk.
Qed.

Section RecordFacts.
Variable str_of_num : Q -> string.
Variable df_columns : list string.
Variable column_mappings : dict ColumnMapping.

Lemma map_row_record :
  forall row sc it,
    map_row str_of_num df_columns column_mappings row = Some (sc, it) ->
    str_in (item_type it) KINDS = true
    /\ original_row it = row
    /\ forallb (fun k => dict_mem k (item_data it))
               ["amount"; "unit"; "category"; item_type it] = true.
Proof.
  intros row sc it H.
  pose proof (map_row_keeps_row str_of_num df_columns column_mappings
                row sc it H) as Hrow.
  unfold map_row in H.
  destruct (row_amount df_columns column_mappings row) as [amount |];
    [ | discriminate H ].
  destruct (row_emission_type str_of_num df_columns column_mappings row)
    as [etype |] eqn:Htype; [ | discriminate H ].
  apply row_emission_type_is_kind in Htype.
  destruct (row_scope str_of_num df_columns column_mappings row);
    [ | discriminate H ].
  destruct (truthy etype); [ | discriminate H ].
  injection H as _ <-. cbn [item_type item_data] in *.
  split; [ exact Htype | ]. split; [ exact Hrow | ].
  cbn [forallb]. rewrite !andb_true_iff.
  clear Hrow.
  unfold str_in in Htype. apply existsb_exists in Htype.
  destruct Htype as [kind [Hin Heq]]. apply String.eqb_eq in Heq. subst kind.
  simpl in Hin.
  repeat (destruct Hin as [<- | Hin];
          [ repeat split; apply collect_keeps_keys; reflexivity | ]).
  destruct Hin.
Qed.

Lemma items_in_from_row :
  forall s rows it,
    In it (items_in str_of_num df_columns column_mappings s rows) ->
    exists row, In row rows
                /\ map_row str_of_num df_columns column_mappings row
                   = Some (s, it).
Proof.
  intros s rows it Hin. unfold items_in in Hin.
  apply in_flat_map in Hin. destruct Hin as [row [Hrow Hit]].
  exists row. split; [ exact Hrow | ].
  destruct (map_row str_of_num df_columns column_mappings row)
    as [[s' it'] |]; [ | destruct Hit ].
  destruct (Scope_eqb s' s) eqn:Hs; [ | destruct Hit ].
  apply Scope_eqb_eq in Hs. subst s'.
  destruct Hit as [<- | []]. reflexivity.
Qed.

(** X9.  Every record the mapper files has the type of one of the six
    emission kinds, keeps the row it came from, and carries the entries
    ['amount'], ['unit'], ['category'] and that of its kind. *)
Theorem mapper_records_are_well_formed :
  forall (rows : list Row) (s : Scope) (it : Item),
    In it (items_of (map_rows str_of_num df_columns column_mappings rows) s) ->
    str_in (item_type it) KINDS = true
    /\ In (original_row it) rows
    /\ forallb (fun k => dict_mem k (item_data it))
               ["amount"; "unit"; "category"; item_type it] = true.
Proof.
  intros rows s it Hin. rewrite map_rows_items in Hin.
  apply items_in_from_row in Hin. destruct Hin as [row [Hrow Hmap]].
  destruct (map_row_record row s it Hmap) as [Hkind [Horig Hkeys]].
  split; [ exact Hkind | ]. split; [ | exact Hkeys ].
  rewrite Horig. exact Hrow.
Qed.

Lemma items_in_length :
  forall s rows,
    List.length (items_in str_of_num df_columns column_mappings s rows)
    = List.length
        (filter (emits_in str_of_num df_columns column_mappings s) rows).
Proof.
  intros s rows. rewrite <- items_in_rows, length_map. reflexivity.
Qed.

(** X10.  A row yields at most one record: the three lists together hold
    as many records as there are rows that yield one, hence no more than
    the table has rows. *)
Theorem mapper_files_each_row_at_most_once :
  forall (rows : list Row),
    let sd := map_rows str_of_num df_columns column_mappings rows in
    (List.length (scope1 sd) + List.length (scope2 sd)
     + List.length (scope3 sd)
     = List.length
         (filter (emits str_of_num df_columns column_mappings) rows))%nat
    /\ (List.length (scope1 sd) + List.length (scope2 sd)
        + List.length (scope3 sd) <= List.length rows)%nat.
Proof.
  intros rows sd.
  assert (Hcount :
            (List.length (scope1 sd) + List.length (scope2 sd)
             + List.length (scope3 sd)
             = List.length
                 (filter (emits str_of_num df_columns column_mappings)
                         rows))%nat).
  { change (scope1 sd) with (items_of sd Scope1).
    change (scope2 sd) with (items_of sd Scope2).
    change (scope3 sd) with (items_of sd Scope3).
    unfold sd. rewrite !map_rows_items, !items_in_length.
    clear sd. induction rows as [| row rest IH].
    - reflexivity.
    - unfold emits_in, emits in *. cbn [filter].
      destruct (map_row str_of_num df_columns column_mappings row)
        as [[sc it] |].
      + destruct sc; cbn [Scope_eqb List.length]; lia.
      + exact IH. }
  split; [ exact Hcount | ].
  rewrite Hcount. apply filter_length_le.
Qed.

End RecordFacts.

Lemma mapper_records_are_well_formed_witness :
  str_in (item_type labelled_item) KINDS = true
  /\ In (original_row labelled_item) [labelled_row]
  /\ forallb (fun k => dict_mem k (item_data labelled_item))
             ["amount"; "unit"; "category"; item_type labelled_item] = true.
Proof.
  apply (mapper_records_are_well_formed int_text labelled_columns
           labelled_mappings [labelled_row] Scope1 labelled_item).
  left. reflexivity.
Defined.

Lemma record_amount_is_last_amount_cell_witness :
  exists amount,
    row_amount two_amounts_columns two_amounts_mappings two_amounts_row
    = Some amount
    /\ dict_get "amount"
         (collect two_amounts_columns two_amounts_row two_amounts_mappings
            [ ("amount", CNum 5); ("unit", CNull);
              ("category", CStr "diesel"); ("fuel", CBool true) ])
       = match last_cell_of_role two_amounts_columns two_amounts_row "amount"
                 two_amounts_mappings with
         | Some c => Some c
         | None => Some (CNum amount)
         end.
Proof.
  apply (record_amount_is_last_amount_cell int_text two_amounts_columns
           two_amounts_mappings two_amounts_row Scope1
           (mkItem "fuel"
              (collect two_amounts_columns two_amounts_row
                 two_amounts_mappings
                 [ ("amount", CNum 5); ("unit", CNull);
                   ("category", CStr "diesel"); ("fuel", CBool true) ])
              two_amounts_row)).
  reflexivity.
Defined.

Lemma row_without_amount_is_left_out_witness :
  map_row int_text labelled_columns labelled_mappings text_amount_row = None.
Proof.
  apply (row_without_amount_is_left_out int_text labelled_columns
           labelled_mappings text_amount_row).
  intros col Hin. simpl in Hin.
  destruct Hin as [<- | []]. reflexivity.
Defined.

(** ** Mappings of columns the table does not have *)

Section StaleMappings.
Variable df_columns : list string.
Variable row : Row.

Lemma kind_loop_in_table :
  forall items et sc,
    kind_loop df_columns row (filter (in_table df_columns) items) et sc
    = kind_loop df_columns row items et sc.
Proof.
  induction items as [| [col mapping] rest IH]; intros et sc.
  - reflexivity.
  - cbn [filter]. unfold in_table at 1. cbn [fst].
    destruct (str_in col df_columns) eqn:Hcol.
    + cbn [kind_loop]. rewrite Hcol.
      destruct (scope mapping); rewrite !IH; reflexivity.
    + cbn [kind_loop]. rewrite Hcol. cbn [andb]. apply IH.
Qed.

Lemma scope_loop_in_table :
  forall items sc,
    scope_loop df_columns row (filter (in_table df_columns) items) sc
    = scope_loop df_columns row items sc.
Proof.
  induction items as [| [col mapping] rest IH]; intros sc.
  - reflexivity.
  - cbn [filter]. unfold in_table at 1. cbn [fst].
    destruct (str_in col df_columns) eqn:Hcol.
    + cbn [scope_loop]. rewrite Hcol.
      destruct (scope mapping); rewrite ?IH; reflexivity.
    + cbn [scope_loop]. rewrite Hcol. cbn [andb].
      destruct (scope mapping); apply IH.
Qed.

Lemma collect_in_table :
  forall items data,
    collect df_columns row (filter (in_table df_columns) items) data
    = collect df_columns row items data.
Proof.
  induction items as [| [col mapping] rest IH]; intros data.
  - reflexivity.
  - cbn [filter]. unfold in_table at 1. cbn [fst].
    destruct (str_in col df_columns) eqn:Hcol.
    + cbn [collect]. rewrite Hcol, !IH. reflexivity.
    + cbn [collect]. rewrite Hcol. cbn [andb]. apply IH.
Qed.

Lemma columns_of_role_in_table :
  forall role items,
    columns_of_role df_columns (filter (in_table df_columns) items) role
    = columns_of_role df_columns items role.
Proof.
  intros role items. unfold columns_of_role. f_equal.
  induction items as [| [col mapping] rest IH].
  - reflexivity.
  - cbn [filter]. unfold in_table at 1. cbn [fst snd].
    destruct (str_in col df_columns) eqn:Hcol.
    + cbn [filter fst snd]. rewrite Hcol, IH. reflexivity.
    + rewrite andb_false_r. exact IH.
Qed.

End StaleMappings.

(** X11.  Mappings that name a column the table does not have play no
    part: a row is mapped as if they had been removed. *)
Theorem stale_mappings_are_ignored :
  forall (str_of_num : Q -> string) (df_columns : list string)
         (column_mappings : dict ColumnMapping) (row : Row),
    map_row str_of_num df_columns
      (filter (in_table df_columns) column_mappings) row
    = map_row str_of_num df_columns column_mappings row.
Proof.
  intros str_of_num df_columns column_mappings row.
  unfold map_row, row_amount, row_scope, row_emission_type, row_kind_scope,
    row_category, row_unit, amount_columns, unit_columns, category_columns.
  rewrite !columns_of_role_in_table, !kind_loop_in_table,
    !scope_loop_in_table.
  destruct (extract_amount row _); [ | reflexivity ].
  destruct (fst _) as [etype |]; [ | reflexivity ].
  destruct (scope_from_text _ _); [ | reflexivity ].
  destruct (truthy etype); [ | reflexivity ].
  rewrite collect_in_table. reflexivity.
Qed.

(** ** A table without rows *)

(** X12.  A table that has columns but no row gives the empty report:
    no line, every total zero, no category. *)
Theorem header_only_table_gives_empty_report :
  forall (str_of_num : Q -> string) (float_of_str : string -> option Q)
         (ai : string -> list Cell -> option ColumnMapping) (df : DataFrame),
    nrows df = 0%nat ->
    pipeline str_of_num float_of_str ai df = Some empty_results.
Proof.
  intros str_of_num float_of_str ai df Hrows.
  unfold pipeline, map_to_emission_categories, iterrows.
  rewrite Hrows. reflexivity.
Qed.

Lemma header_only_table_gives_empty_report_witness :
  pipeline int_text int_literal no_ai header_only_df = Some empty_results.
Proof.
  apply (header_only_table_gives_empty_report int_text int_literal no_ai
           header_only_df).
  reflexivity.
Defined.

(** ** Category totals *)

Lemma dict_get_add :
  forall (d : dict Q) (k t : string) (x : Q),
    dict_get k (dict_add t x d)
    = if String.eqb k t
      then Some (match dict_get t d with
                 | Some v => v + x
                 | None => 0 + x
                 end)
      else dict_get k d.
Proof.
  intros d k t x. unfold dict_add.
  destruct (dict_get t d); rewrite dict_get_set; reflexivity.
Qed.

Lemma lines_of_kind_snoc :
  forall s k lines line,
    lines_of_kind s k (lines ++ [line])
    = lines_of_kind s k lines
      ++ (if Scope_eqb (li_scope line) s && String.eqb (li_type line) k
          then [line] else []).
Proof.
  intros s k lines line. unfold lines_of_kind. rewrite filter_app.
  cbn [filter]. reflexivity.
Qed.

Lemma empty_results_categories : categories_consistent empty_results.
Proof. intros s k. destruct s; reflexivity. Qed.

Section CategoryTotals.
Variable float_of_str : string -> option Q.
Variable emission_factors : Catalog.

(** What one pass of the loop body changes in the report. *)
Lemma add_item_shape :
  forall sc results it results',
    add_item float_of_str emission_factors sc results it = Some results' ->
    exists e,
      item_emissions float_of_str emission_factors it = Some e
      /\ line_items results'
         = line_items results
           ++ [mkLine sc (item_type it) (item_data it) e (original_row it)]
      /\ r_total results' = r_total results + e
      /\ forall s,
           scope_result results' s
           = if Scope_eqb sc s
             then mkScopeResult (total (scope_result results s) + e)
                    (dict_add (item_type it) e
                       (categories (scope_result results s)))
             else scope_result results s.
Proof.
  intros sc results it results' Hadd. unfold add_item in Hadd.
  destruct (item_emissions float_of_str emission_factors it)
    as [e |]; [ | discriminate Hadd ].
  injection Hadd as <-. exists e.
  split; [ reflexivity | ].
  destruct results as [r1 r2 r3 rt lines].
  split; [ destruct sc; reflexivity | ].
  split; [ destruct sc; reflexivity | ].
  intros s. destruct sc, s; reflexivity.
Qed.

Lemma add_item_categories :
  forall sc results it results',
    add_item float_of_str emission_factors sc results it = Some results' ->
    categories_consistent results -> categories_consistent results'.
Proof.
  intros sc results it results' Hadd Hinv s k.
  destruct (add_item_shape sc results it results' Hadd)
    as [e [_ [Hlines [_ Hscope]]]].
  specialize (Hinv s k). rewrite Hscope, Hlines.
  unfold kind_emissions. rewrite lines_of_kind_snoc. cbn [li_scope li_type].
  destruct (Scope_eqb sc s) eqn:Hs.
  - cbn [categories]. rewrite dict_get_add.
    rewrite (String.eqb_sym (item_type it) k).
    destruct (String.eqb k (item_type it)) eqn:Hk.
    + cbn [andb]. apply String.eqb_eq in Hk. subst k.
      rewrite map_app, Qsum_app. cbn [map li_emissions].
      rewrite Qsum_cons, Qsum_nil.
      destruct (dict_get (item_type it) (categories (scope_result results s)))
        as [v |].
      * destruct Hinv as [Hv _]. split.
        -- unfold kind_emissions in Hv. rewrite Hv. ring.
        -- intro Habs. apply app_eq_nil in Habs. destruct Habs as [_ Habs].
           discriminate Habs.
      * split.
        -- rewrite Hinv. cbn [map]. rewrite Qsum_nil. ring.
        -- intro Habs. apply app_eq_nil in Habs. destruct Habs as [_ Habs].
           discriminate Habs.
    + cbn [andb]. rewrite app_nil_r. exact Hinv.
  - cbn [andb]. rewrite app_nil_r. exact Hinv.
Qed.

Lemma add_items_categories :
  forall sc items results results',
    add_items float_of_str emission_factors sc results items
      = Some results' ->
    categories_consistent results -> categories_consistent results'.
Proof.
  intros sc items. induction items as [| it rest IH];
    intros results results' Hadd Hinv.
  - simpl in Hadd. injection Hadd as <-. exact Hinv.
  - cbn [add_items] in Hadd.
    destruct (add_item float_of_str emission_factors sc results it)
      as [mid |] eqn:Hmid; [ | discriminate Hadd ].
    apply (IH mid results' Hadd).
    apply (add_item_categories sc results it mid Hmid Hinv).
Qed.

(** X13.  In every report the calculator returns, the total kept for a
    type under a scope is the sum of the emissions of the lines of that
    scope and type, and a type has an entry under a scope exactly when
    the scope has a line of that type. *)
Theorem category_totals_are_sums_of_their_lines :
  forall (structured_data : StructuredData) (results : Results),
    calculate_emissions float_of_str emission_factors structured_data
      = Some results ->
    forall s k,
      match dict_get k (categories (scope_result results s)) with
      | Some v => v == kind_emissions s k (line_items results)
                  /\ lines_of_kind s k (line_items results) <> []
      | None => lines_of_kind s k (line_items results) = []
      end.
Proof.
  intros structured_data results Hcalc.
  unfold calculate_emissions in Hcalc.
  destruct (add_items float_of_str emission_factors Scope1 empty_results
              (scope1 structured_data)) as [r1 |] eqn:H1;
    [ | discriminate Hcalc ].
  destruct (add_items float_of_str emission_factors Scope2 r1
              (scope2 structured_data)) as [r2 |] eqn:H2;
    [ | discriminate Hcalc ].
  change (categories_consistent results).
  eapply add_items_categories; [ exact Hcalc | ].
  eapply add_items_categories; [ exact H2 | ].
  eapply add_items_categories; [ exact H1 | ].
  exact empty_results_categories.
Qed.

End CategoryTotals.

Lemma category_totals_are_sums_of_their_lines_witness :
  exists results,
    calculate_emissions int_literal load_emission_factors sample_structured
      = Some results
    /\ match dict_get "waste" (categories (scope_result results Scope3)) with
       | Some v => v == kind_emissions Scope3 "waste" (line_items results)
                   /\ lines_of_kind Scope3 "waste" (line_items results) <> []
       | None => lines_of_kind Scope3 "waste" (line_items results) = []
       end.
Proof.
  eexists. split; [ vm_compute; reflexivity | ].
  apply (category_totals_are_sums_of_their_lines int_literal
           load_emission_factors sample_structured).
  vm_compute. reflexivity.
Defined.

(** ** Lines and records *)

Section LinesAndRecords.
Variable float_of_str : string -> option Q.
Variable emission_factors : Catalog.

Lemma add_items_records :
  forall sc items results results',
    add_items float_of_str emission_factors sc results items
      = Some results' ->
    map line_record (line_items results')
    = map line_record (line_items results) ++ map (item_record sc) items.
Proof.
  intros sc items. induction items as [| it rest IH];
    intros results results' Hadd.
  - simpl in Hadd. injection Hadd as <-. rewrite app_nil_r. reflexivity.
  - cbn [add_items] in Hadd.
    destruct (add_item float_of_str emission_factors sc results it)
      as [mid |] eqn:Hmid; [ | discriminate Hadd ].
    rewrite (IH mid results' Hadd).
    destruct (add_item_shape float_of_str emission_factors sc results it mid
                Hmid) as [e [_ [Hlines _]]].
    rewrite Hlines, map_app, <- app_assoc. reflexivity.
Qed.

(** X14.  A report has exactly one line per record, in the order scope
    1, scope 2, scope 3 and, within a scope, in the order of the records;
    the line repeats the type, the data and the source row of its record
    unchanged. *)
Theorem one_line_per_record :
  forall (structured_data : StructuredData) (results : Results),
    calculate_emissions float_of_str emission_factors structured_data
      = Some results ->
    map line_record (line_items results)
    = map (item_record Scope1) (scope1 structured_data)
      ++ map (item_record Scope2) (scope2 structured_data)
      ++ map (item_record Scope3) (scope3 structured_data).
Proof.
  intros structured_data results Hcalc.
  unfold calculate_emissions in Hcalc.
  destruct (add_items float_of_str emission_factors Scope1 empty_results _)
    as [r1 |] eqn:H1; [ | discriminate Hcalc ].
  destruct (add_items float_of_str emission_factors Scope2 r1 _)
    as [r2 |] eqn:H2; [ | discriminate Hcalc ].
  apply add_items_records in H1. apply add_items_records in H2.
  apply add_items_records in Hcalc.
  rewrite Hcalc, H2, H1. cbn [empty_results line_items map app].
  rewrite <- app_assoc. reflexivity.
Qed.

(** X15.  A record whose type is none of the six kinds, or whose data
    has no ['amount'] entry, never makes the calculator fail: it gets a
    line with emissions 0, its type gets an entry under its scope, and
    the totals keep their value. *)
Theorem record_without_branch_gets_zero_line :
  forall (sc : Scope) (results : Results) (it : Item),
    dict_get (item_type it) branches = None
    \/ dict_get "amount" (item_data it) = None ->
    exists results',
      add_item float_of_str emission_factors sc results it = Some results'
      /\ line_items results'
         = line_items results
           ++ [mkLine sc (item_type it) (item_data it) 0 (original_row it)]
      /\ r_total results' == r_total results
      /\ total (scope_result results' sc) == total (scope_result results sc)
      /\ dict_mem (item_type it) (categories (scope_result results' sc))
         = true.
Proof.
  intros sc results it Hnone.
  assert (Hzero : item_emissions float_of_str emission_factors it = Some 0).
  { unfold item_emissions. destruct Hnone as [Hb | Ha].
    - rewrite Hb. reflexivity.
    - rewrite Ha. destruct (dict_get (item_type it) branches); reflexivity. }
  destruct (add_item float_of_str emission_factors sc results it)
    as [results' |] eqn:Hadd.
  - exists results'. split; [ reflexivity | ].
    destruct (add_item_shape float_of_str emission_factors sc results it
                results' Hadd) as [e [He [Hlines [Htotal Hscope]]]].
    rewrite Hzero in He. injection He as <-.
    split; [ exact Hlines | ].
    split; [ rewrite Htotal; ring | ].
    rewrite (Hscope sc).
    assert (Hrefl : Scope_eqb sc sc = true) by (destruct sc; reflexivity).
    rewrite Hrefl. cbn [total categories].
    split; [ ring | ].
    unfold dict_mem. rewrite dict_get_add, String.eqb_refl. reflexivity.
  - unfold add_item in Hadd. rewrite Hzero in Hadd. discriminate Hadd.
Qed.

Lemma add_items_computable :
  forall sc items results results',
    add_items float_of_str emission_factors sc results items
      = Some results' ->
    forall it, In it items ->
               item_emissions float_of_str emission_factors it <> None.
Proof.
  intros sc items. induction items as [| it0 rest IH];
    intros results results' Hadd it Hin.
  - destruct Hin.
  - cbn [add_items] in Hadd.
    destruct (add_item float_of_str emission_factors sc results it0)
      as [mid |] eqn:Hmid; [ | discriminate Hadd ].
    destruct Hin as [<- | Hin].
    + destruct (add_item_shape float_of_str emission_factors sc results it0
                  mid Hmid) as [e [He _]].
      rewrite He. discriminate.
    + apply (IH mid results' Hadd it Hin).
Qed.

(** X16.  The calculator returns a report exactly when the emissions of
    every record can be computed, that is when, for every record of one
    of the six kinds with an amount, the amount converts to a float and
    the catalog has the kind; one record that fails makes the whole call
    fail. *)
Theorem calculator_returns_iff_every_record_computes :
  forall (structured_data : StructuredData),
    (exists results,
        calculate_emissions float_of_str emission_factors structured_data
        = Some results)
    <-> (forall s it,
            In it (items_of structured_data s) ->
            item_emissions float_of_str emission_factors it <> None).
Proof.
  intros structured_data. split.
  - intros [results Hcalc] s it Hin.
    unfold calculate_emissions in Hcalc.
    destruct (add_items float_of_str emission_factors Scope1 empty_results _)
      as [r1 |] eqn:H1; [ | discriminate Hcalc ].
    destruct (add_items float_of_str emission_factors Scope2 r1 _)
      as [r2 |] eqn:H2; [ | discriminate Hcalc ].
    destruct s; cbn [items_of] in Hin.
    + apply (add_items_computable _ _ _ _ H1 it Hin).
    + apply (add_items_computable _ _ _ _ H2 it Hin).
    + apply (add_items_computable _ _ _ _ Hcalc it Hin).
  - apply calculate_emissions_returns.
Qed.

Lemma add_items_other_scopes :
  forall sc items results results',
    add_items float_of_str emission_factors sc results items
      = Some results' ->
    forall s, Scope_eqb sc s = false ->
              scope_result results' s = scope_result results s.
Proof.
  intros sc items. induction items as [| it rest IH];
    intros results results' Hadd s Hs.
  - simpl in Hadd. injection Hadd as <-. reflexivity.
  - cbn [add_items] in Hadd.
    destruct (add_item float_of_str emission_factors sc results it)
      as [mid |] eqn:Hmid; [ | discriminate Hadd ].
    rewrite (IH mid results' Hadd s Hs).
    destruct (add_item_shape float_of_str emission_factors sc results it mid
                Hmid) as [e [_ [_ [_ Hscope]]]].
    rewrite Hscope, Hs. reflexivity.
Qed.

Lemma add_items_own_scope :
  forall sc items ra ra' rb rb',
    add_items float_of_str emission_factors sc ra items = Some ra' ->
    add_items float_of_str emission_factors sc rb items = Some rb' ->
    scope_result ra sc = scope_result rb sc ->
    scope_result ra' sc = scope_result rb' sc.
Proof.
  intros sc items. induction items as [| it rest IH];
    intros ra ra' rb rb' Ha Hb Heq.
  - simpl in Ha, Hb. injection Ha as <-. injection Hb as <-. exact Heq.
  - cbn [add_items] in Ha, Hb.
    destruct (add_item float_of_str emission_factors sc ra it)
      as [ma |] eqn:Hma; [ | discriminate Ha ].
    destruct (add_item float_of_str emission_factors sc rb it)
      as [mb |] eqn:Hmb; [ | discriminate Hb ].
    apply (IH ma ra' mb rb' Ha Hb).
    destruct (add_item_shape float_of_str emission_factors sc ra it ma Hma)
      as [ea [Hea [_ [_ Hsa]]]].
    destruct (add_item_shape float_of_str emission_factors sc rb it mb Hmb)
      as [eb [Heb [_ [_ Hsb]]]].
    rewrite Hea in Heb. injection Heb as <-.
    rewrite Hsa, Hsb, Heq. reflexivity.
Qed.

(** X17.  The total and the categories a report keeps for a scope depend
    on the records of that scope alone: two calls whose inputs agree on
    one scope return the same result for it, whatever the other scopes
    hold. *)
Theorem scope_result_depends_on_its_records_only :
  forall (sd sd' : StructuredData) (results results' : Results) (s : Scope),
    calculate_emissions float_of_str emission_factors sd = Some results ->
    calculate_emissions float_of_str emission_factors sd' = Some results' ->
    items_of sd s = items_of sd' s ->
    scope_result results s = scope_result results' s.
Proof.
  intros sd sd' results results' s Hcalc Hcalc' Hitems.
  unfold calculate_emissions in Hcalc, Hcalc'.
  destruct (add_items float_of_str emission_factors Scope1 empty_results
              (scope1 sd)) as [r1 |] eqn:H1; [ | discriminate Hcalc ].
  destruct (add_items float_of_str emission_factors Scope2 r1 (scope2 sd))
    as [r2 |] eqn:H2; [ | discriminate Hcalc ].
  destruct (add_items float_of_str emission_factors Scope1 empty_results
              (scope1 sd')) as [r1' |] eqn:H1'; [ | discriminate Hcalc' ].
  destruct (add_items float_of_str emission_factors Scope2 r1' (scope2 sd'))
    as [r2' |] eqn:H2'; [ | discriminate Hcalc' ].
  destruct s; cbn [items_of] in Hitems.
  - rewrite (add_items_other_scopes _ _ _ _ Hcalc Scope1 eq_refl).
    rewrite (add_items_other_scopes _ _ _ _ Hcalc' Scope1 eq_refl).
    rewrite (add_items_other_scopes _ _ _ _ H2 Scope1 eq_refl).
    rewrite (add_items_other_scopes _ _ _ _ H2' Scope1 eq_refl).
    rewrite <- Hitems in H1'.
    apply (add_items_own_scope _ _ _ _ _ _ H1 H1'). reflexivity.
  - rewrite (add_items_other_scopes _ _ _ _ Hcalc Scope2 eq_refl).
    rewrite (add_items_other_scopes _ _ _ _ Hcalc' Scope2 eq_refl).
    rewrite <- Hitems in H2'.
    apply (add_items_own_scope _ _ _ _ _ _ H2 H2').
    rewrite (add_items_other_scopes _ _ _ _ H1 Scope2 eq_refl).
    rewrite (add_items_other_scopes _ _ _ _ H1' Scope2 eq_refl).
    reflexivity.
  - rewrite <- Hitems in Hcalc'.
    apply (add_items_own_scope _ _ _ _ _ _ Hcalc Hcalc').
    rewrite (add_items_other_scopes _ _ _ _ H2 Scope3 eq_refl).
    rewrite (add_items_other_scopes _ _ _ _ H2' Scope3 eq_refl).
    rewrite (add_items_other_scopes _ _ _ _ H1 Scope3 eq_refl).
    rewrite (add_items_other_scopes _ _ _ _ H1' Scope3 eq_refl).
    reflexivity.
Qed.

End LinesAndRecords.

Lemma one_line_per_record_witness :
  exists results,
    calculate_emissions int_literal load_emission_factors sample_structured
      = Some results
    /\ map line_record (line_items results)
       = map (item_record Scope1) (scope1 sample_structured)
         ++ map (item_record Scope2) (scope2 sample_structured)
         ++ map (item_record Scope3) (scope3 sample_structured).
Proof.
  eexists. split; [ vm_compute; reflexivity | ].
  apply (one_line_per_record int_literal load_emission_factors
           sample_structured).
  vm_compute. reflexivity.
Defined.

Lemma record_without_branch_gets_zero_line_witness :
  exists results',
    add_item int_literal load_emission_factors Scope1 empty_results
      heating_item = Some results'
    /\ line_items results'
       = [mkLine Scope1 "heating" [("amount", CNum 40)] 0 []]
    /\ r_total results' == 0
    /\ total (scope_result results' Scope1) == 0
    /\ dict_mem "heating" (categories (scope_result results' Scope1)) = true.
Proof.
  apply (record_without_branch_gets_zero_line int_literal
           load_emission_factors Scope1 empty_results heating_item).
  left. reflexivity.
Defined.

Lemma scope_result_depends_on_its_records_only_witness :
  exists results results',
    calculate_emissions int_literal load_emission_factors sample_structured
      = Some results
    /\ calculate_emissions int_literal load_emission_factors
         (mkStructured [] (scope2 sample_structured) [heating_item])
       = Some results'
    /\ scope_result results Scope2 = scope_result results' Scope2.
Proof.
  eexists. eexists.
  split; [ vm_compute; reflexivity | ].
  split; [ vm_compute; reflexivity | ].
  apply (scope_result_depends_on_its_records_only int_literal
           load_emission_factors sample_structured
           (mkStructured [] (scope2 sample_structured) [heating_item])
           _ _ Scope2).
  - vm_compute. reflexivity.
  - vm_compute. reflexivity.
  - reflexivity.
Defined.

(** ** The factor of a line *)

Lemma prefix_refl : forall s, String.prefix s s = true.
Proof.
  induction s as [| c s IH]; [ reflexivity | ].
  cbn [String.prefix]. destruct (ascii_dec c c); [ exact IH | congruence ].
Qed.

Lemma contains_refl : forall s, contains s s = true.
Proof.
  intros s. destruct s; cbn [contains]; rewrite prefix_refl; reflexivity.
Qed.

Lemma match_factor_in_values :
  forall subtype factors v,
    match_factor subtype factors = Some v -> In v (dict_values factors).
Proof.
  intros subtype factors v. induction factors as [| [name f] rest IH];
    intros H.
  - discriminate H.
  - cbn [match_factor] in H.
    destruct (contains (lower subtype) (lower name)).
    + injection H as <-. left. reflexivity.
    + right. apply IH. exact H.
Qed.

Lemma dict_get_in_values :
  forall (V : Type) (d : dict V) (k : string) (v : V),
    dict_get k d = Some v -> In v (dict_values d).
Proof.
  intros V d k v. induction d as [| [k' v'] rest IH]; intros H.
  - discriminate H.
  - cbn [dict_get] in H. destruct (String.eqb k k').
    + injection H as <-. left. reflexivity.
    + right. apply IH. exact H.
Qed.

(** The factor used is a value of the catalog, unless the catalog has
    neither a matching name nor the default subtype. *)
Lemma resolved_factor_source :
  forall (b : Branch) (factors : dict Q) (subtype : string),
    In (resolve_factor b factors subtype) (dict_values factors)
    \/ (dict_get (default_subtype b) factors = None
        /\ resolve_factor b factors subtype = default_factor b).
Proof.
  intros b factors subtype. unfold resolve_factor.
  destruct (match_factor subtype factors) as [v |] eqn:Hm.
  - left. apply (match_factor_in_values _ _ _ Hm).
  - destruct (dict_get (default_subtype b) factors) as [v |] eqn:Hd.
    + left. apply (dict_get_in_values _ _ _ _ Hd).
    + right. split; reflexivity.
Qed.

(** X18.  With the default catalog, whatever text is taken as subtype,
    the factor used for a record of a kind is one of the factors the
    catalog lists for that kind, and it is strictly positive: the
    hard-coded fall-back numbers never come into play. *)
Theorem default_catalog_factor_is_listed_and_positive :
  forall (kind : string) (b : Branch) (factors : dict Q) (subtype : string),
    dict_get kind branches = Some b ->
    dict_get kind load_emission_factors = Some factors ->
    In (resolve_factor b factors subtype) (dict_values factors)
    /\ 0 < resolve_factor b factors subtype.
Proof.
  intros kind b factors subtype Hb Hf.
  assert (Hin : In (resolve_factor b factors subtype) (dict_values factors)).
  { destruct (resolved_factor_source b factors subtype) as [H | [Hnone _]];
      [ exact H | ].
    exfalso. unfold branches in Hb. unfold load_emission_factors in Hf.
    cbn [dict_get] in Hb, Hf.
    repeat match type of Hb with
           | (if ?c then _ else _) = _ =>
               destruct c;
               [ injection Hb as <-; injection Hf as <-;
                 discriminate Hnone | ]
           end.
    discriminate Hb. }
  split; [ exact Hin | ].
  unfold load_emission_factors in Hf. cbn [dict_get] in Hf.
  repeat match type of Hf with
         | (if ?c then _ else _) = _ =>
             destruct c;
             [ injection Hf as <-; simpl in Hin;
               repeat (destruct Hin as [<- | Hin]; [ reflexivity | ]);
               destruct Hin | ]
         end.
  discriminate Hf.
Qed.

Lemma default_catalog_factor_is_listed_and_positive_witness :
  In (resolve_factor transport_branch (default_factors_of "transport")
        "Night train")
     (dict_values (default_factors_of "transport"))
  /\ 0 < resolve_factor transport_branch (default_factors_of "transport")
           "Night train".
Proof.
  apply (default_catalog_factor_is_listed_and_positive "transport"
           transport_branch (default_factors_of "transport") "Night train");
    reflexivity.
Defined.

Lemma find_subtype_has_keyword :
  forall (kws : list string) (data : dict Cell) (s : string),
    find_subtype kws data = Some s -> any_in kws (lower s) = true.
Proof.
  intros kws data s. induction data as [| [key value] rest IH]; intros H.
  - discriminate H.
  - cbn [find_subtype] in H. destruct (as_str value) as [text |].
    + destruct (any_in kws (lower text)) eqn:Hkw.
      * injection H as <-. exact Hkw.
      * apply IH. exact H.
    + apply IH. exact H.
Qed.

Lemma default_name_is_found :
  forall (kind : string) (factors : dict Q) (name : string) (v : Q),
    dict_get kind load_emission_factors = Some factors ->
    In (name, v) factors ->
    match_factor name factors = Some v.
Proof.
  intros kind factors name v Hf Hin.
  unfold load_emission_factors in Hf. cbn [dict_get] in Hf.
  repeat match type of Hf with
         | (if ?c then _ else _) = _ =>
             destruct c;
             [ injection Hf as <-; simpl in Hin;
               repeat (destruct Hin as [Hin | Hin];
                       [ injection Hin as <- <-; reflexivity | ]);
               destruct Hin | ]
         end.
  discriminate Hf.
Qed.

Lemma picked_subtype_has_keyword :
  forall (b : Branch) (data : dict Cell),
    subtype_or_default b data = default_subtype b
    \/ any_in (keywords b) (lower (subtype_or_default b data)) = true.
Proof.
  intros b data. unfold subtype_or_default.
  destruct (find_subtype (keywords b) data) as [s |] eqn:Hfound;
    [ | left; reflexivity ].
  destruct (truthy s); [ | left; reflexivity ].
  right. apply (find_subtype_has_keyword _ _ _ Hfound).
Qed.

(** The name [E85 (Ethanol)] holds no keyword of the fuel branch and is
    not its default: the calculator never picks it, and the factor 1.56
    is never used. *)
Lemma e85_is_never_picked :
  forall (b : Branch) (data : dict Cell),
    dict_get "fuel" branches = Some b ->
    subtype_or_default b data <> "E85 (Ethanol)".
Proof.
  intros b data Hb Hpicked. injection Hb as <-.
  destruct (picked_subtype_has_keyword
              (mkBranch ["diesel"; "gasoline"; "petrol"; "natural gas"; "lpg"]
                        "Diesel" (268 # 100) false) data) as [H | H];
    rewrite Hpicked in H; discriminate H.
Qed.

(** X19.  The look-up of a subtype text that is the name of a catalog
    entry returns the factor of that entry, provided no earlier name of
    the list contains the text.  In the default catalog that is the case
    of every name: whenever the text the calculator has picked as the
    subtype of a record is the name of a default entry, the emissions
    are the amount times the factor of that entry (divided by 1000 for a
    refrigerant).  The text picked is either the default subtype of the
    branch or a text of the record that holds a keyword of the branch,
    so a name without a keyword is only used when it is the default. *)
Theorem catalog_name_resolves_to_its_factor :
  (forall (before after : dict Q) (name : string) (v : Q),
      not_in_earlier_name name before = true ->
      match_factor name (before ++ (name, v) :: after) = Some v)
  /\ (forall (float_of_str : string -> option Q) (b : Branch)
             (factors : dict Q) (name : string) (v : Q) (it : Item)
             (amount_cell : Cell) (a : Q),
        dict_get (item_type it) branches = Some b ->
        dict_get (item_type it) load_emission_factors = Some factors ->
        In (name, v) factors ->
        dict_get "amount" (item_data it) = Some amount_cell ->
        py_float float_of_str amount_cell = Some a ->
        subtype_or_default b (item_data it) = name ->
        item_emissions float_of_str load_emission_factors it
        = Some (if per_thousand b then a * v / 1000 else a * v))
  /\ (forall (b : Branch) (data : dict Cell),
        subtype_or_default b data = default_subtype b
        \/ any_in (keywords b) (lower (subtype_or_default b data)) = true).
Proof.
  split; [ | split ].
  - intros before after name v Hearlier.
    induction before as [| [k' v'] rest IH].
    + cbn [app match_factor]. rewrite contains_refl. reflexivity.
    + cbn [not_in_earlier_name forallb fst] in Hearlier.
      apply andb_prop in Hearlier. destruct Hearlier as [Hk' Hrest].
      apply negb_true_iff in Hk'.
      cbn [app match_factor]. rewrite Hk'. apply IH. exact Hrest.
  - intros float_of_str b factors name v it amount_cell a
           Hbranch Hfactors Hin Hcell Hfloat Hpicked.
    unfold item_emissions.
    rewrite Hbranch, Hcell, Hfloat, Hfactors, Hpicked.
    unfold resolve_factor.
    rewrite (default_name_is_found _ _ _ _ Hfactors Hin). reflexivity.
  - exact picked_subtype_has_keyword.
Qed.

Lemma catalog_name_resolves_to_its_factor_witness :
  item_emissions int_literal load_emission_factors long_haul_record
  = Some (3500 * (15 # 100)).
Proof.
  destruct catalog_name_resolves_to_its_factor as [_ [Hpicked _]].
  apply (Hpicked int_literal transport_branch
           (default_factors_of "transport") "Flight (Long-haul)" (15 # 100)
           long_haul_record (CNum 3500) 3500); try reflexivity.
  simpl. tauto.
Defined.

(** ** Signs of the emissions *)

Lemma Qsum_nonneg :
  forall l, Forall (fun x => 0 <= x) l -> 0 <= Qsum l.
Proof.
  intros l H. induction H as [| x l Hx _ IH].
  - rewrite Qsum_nil. apply Qle_refl.
  - rewrite Qsum_cons.
    setoid_replace 0 with (0 + 0) by ring.
    apply Qplus_le_compat; assumption.
Qed.

Lemma branch_default_nonneg :
  forall kind b, dict_get kind branches = Some b -> 0 <= default_factor b.
Proof.
  intros kind b Hb. unfold branches in Hb. cbn [dict_get] in Hb.
  repeat match type of Hb with
         | (if ?c then _ else _) = _ =>
             destruct c; [ injection Hb as <-; discriminate | ]
         end.
  discriminate Hb.
Qed.

Lemma catalog_nonneg_values :
  forall (emission_factors : Catalog) kind factors v,
    catalog_nonneg emission_factors = true ->
    dict_get kind emission_factors = Some factors ->
    In v (dict_values factors) -> 0 <= v.
Proof.
  intros emission_factors kind factors v Hcat Hget Hin.
  unfold catalog_nonneg in Hcat. rewrite forallb_forall in Hcat.
  assert (Hentry : exists k, In (k, factors) emission_factors).
  { clear Hcat. induction emission_factors as [| [k' f'] rest IH].
    - discriminate Hget.
    - cbn [dict_get] in Hget. destruct (String.eqb kind k').
      + injection Hget as <-. exists k'. left. reflexivity.
      + destruct (IH Hget) as [k Hk]. exists k. right. exact Hk. }
  destruct Hentry as [k Hk]. specialize (Hcat _ Hk). cbn [snd] in Hcat.
  rewrite forallb_forall in Hcat.
  unfold dict_values in Hin. apply in_map_iff in Hin.
  destruct Hin as [[n v'] [Hv Hnv]]. cbn [snd] in Hv. subst v'.
  specialize (Hcat _ Hnv). cbn [snd] in Hcat.
  apply Qle_bool_iff. exact Hcat.
Qed.

Section Signs.
Variable float_of_str : string -> option Q.
Variable emission_factors : Catalog.
Hypothesis Hcatalog : catalog_nonneg emission_factors = true.

Lemma item_emissions_nonneg :
  forall it e,
    amount_nonneg float_of_str it = true ->
    item_emissions float_of_str emission_factors it = Some e ->
    0 <= e.
Proof.
  intros it e Hamount He. unfold item_emissions in He.
  unfold amount_nonneg in Hamount.
  destruct (dict_get (item_type it) branches) as [b |] eqn:Hb;
    [ | injection He as <-; apply Qle_refl ].
  destruct (dict_get "amount" (item_data it)) as [c |];
    [ | injection He as <-; apply Qle_refl ].
  destruct (py_float float_of_str c) as [a |]; [ | discriminate He ].
  destruct (dict_get (item_type it) emission_factors) as [factors |] eqn:Hf;
    [ | discriminate He ].
  apply Qle_bool_iff in Hamount.
  assert (Hef : 0 <= resolve_factor b factors
                       (subtype_or_default b (item_data it))).
  { destruct (resolved_factor_source b factors
                (subtype_or_default b (item_data it))) as [Hin | [_ ->]].
    - apply (catalog_nonneg_values emission_factors (item_type it) factors _
               Hcatalog Hf Hin).
    - apply (branch_default_nonneg _ _ Hb). }
  assert (Hprod : 0 <= a * resolve_factor b factors
                             (subtype_or_default b (item_data it)))
    by (apply Qmult_le_0_compat; assumption).
  destruct (per_thousand b); injection He as <-; [ | exact Hprod ].
  unfold Qdiv. apply Qmult_le_0_compat; [ exact Hprod | discriminate ].
Qed.

Lemma add_items_lines_nonneg :
  forall sc items results results',
    forallb (amount_nonneg float_of_str) items = true ->
    add_items float_of_str emission_factors sc results items
      = Some results' ->
    Forall (fun l => 0 <= li_emissions l) (line_items results) ->
    Forall (fun l => 0 <= li_emissions l) (line_items results').
Proof.
  intros sc items. induction items as [| it rest IH];
    intros results results' Hamounts Hadd Hlines.
  - simpl in Hadd. injection Hadd as <-. exact Hlines.
  - cbn [add_items] in Hadd. cbn [forallb] in Hamounts.
    apply andb_prop in Hamounts. destruct Hamounts as [Hit Hrest].
    destruct (add_item float_of_str emission_factors sc results it)
      as [mid |] eqn:Hmid; [ | discriminate Hadd ].
    apply (IH mid results' Hrest Hadd).
    destruct (add_item_shape float_of_str emission_factors sc results it mid
                Hmid) as [e [He [Hl _]]].
    rewrite Hl. apply Forall_app. split; [ exact Hlines | ].
    constructor; [ | constructor ].
    cbn [li_emissions]. apply (item_emissions_nonneg it e Hit He).
Qed.

(** X20.  When no factor of the catalog is negative and no record has a
    negative amount, no line of the report has negative emissions, and
    neither the grand total nor a scope total is negative. *)
Theorem emissions_are_nonnegative :
  forall (structured_data : StructuredData) (results : Results),
    amounts_nonneg float_of_str structured_data = true ->
    calculate_emissions float_of_str emission_factors structured_data
      = Some results ->
    Forall (fun l => 0 <= li_emissions l) (line_items results)
    /\ 0 <= r_total results
    /\ forall s, 0 <= total (scope_result results s).
Proof.
  intros structured_data results Hamounts Hcalc.
  unfold amounts_nonneg in Hamounts.
  apply andb_prop in Hamounts. destruct Hamounts as [Hamounts H3].
  apply andb_prop in Hamounts. destruct Hamounts as [Ha1 Ha2].
  assert (Hcons : report_consistent results).
  { unfold calculate_emissions in Hcalc.
    destruct (add_items float_of_str emission_factors Scope1 empty_results _)
      as [r1 |] eqn:H1; [ | discriminate Hcalc ].
    destruct (add_items float_of_str emission_factors Scope2 r1 _)
      as [r2 |] eqn:H2; [ | discriminate Hcalc ].
    eapply add_items_consistent; [ exact Hcalc | ].
    eapply add_items_consistent; [ exact H2 | ].
    eapply add_items_consistent; [ exact H1 | ].
    exact empty_results_consistent. }
  assert (Hlines : Forall (fun l => 0 <= li_emissions l)
                          (line_items results)).
  { unfold calculate_emissions in Hcalc.
    destruct (add_items float_of_str emission_factors Scope1 empty_results _)
      as [r1 |] eqn:H1; [ | discriminate Hcalc ].
    destruct (add_items float_of_str emission_factors Scope2 r1 _)
      as [r2 |] eqn:H2; [ | discriminate Hcalc ].
    eapply add_items_lines_nonneg; [ exact H3 | exact Hcalc | ].
    eapply add_items_lines_nonneg; [ exact Ha2 | exact H2 | ].
    eapply add_items_lines_nonneg; [ exact Ha1 | exact H1 | ].
    constructor. }
  destruct Hcons as [_ [Hscope [_ Hall]]].
  split; [ exact Hlines | ]. split.
  - rewrite Hall. apply Qsum_nonneg.
    apply Forall_map. exact Hlines.
  - intros s. rewrite (Hscope s). unfold emissions_of_scope.
    apply Qsum_nonneg. apply Forall_map.
    apply Forall_forall. intros l Hl. apply filter_In in Hl.
    destruct Hl as [Hl _]. rewrite Forall_forall in Hlines.
    apply Hlines. exact Hl.
Qed.

End Signs.

Lemma emissions_are_nonnegative_witness :
  exists results,
    calculate_emissions int_literal load_emission_factors sample_structured
      = Some results
    /\ Forall (fun l => 0 <= li_emissions l) (line_items results)
    /\ 0 <= r_total results
    /\ forall s, 0 <= total (scope_result results s).
Proof.
  eexists. split; [ vm_compute; reflexivity | ].
  apply (emissions_are_nonnegative int_literal load_emission_factors
           eq_refl sample_structured).
  - vm_compute. reflexivity.
  - vm_compute. reflexivity.
Defined.

(** ** The reader and the file system *)

Lemma unlink_fresh :
  forall (fs : FileSystem) (path : string),
    ~ In path fs -> unlink path fs = fs.
Proof.
  intros fs path. induction fs as [| p rest IH]; intros Hnot.
  - reflexivity.
  - cbn [unlink filter]. destruct (String.eqb p path) eqn:Heq.
    + apply String.eqb_eq in Heq. exfalso. apply Hnot. left. exact Heq.
    + cbn [negb]. f_equal. apply IH. intro Hin. apply Hnot. right. exact Hin.
Qed.

Lemma unlink_other :
  forall (fs : FileSystem) (path p : string),
    p <> path -> (In p (unlink path fs) <-> In p fs).
Proof.
  intros fs path p Hneq. unfold unlink. rewrite filter_In.
  split; [ intros [H _]; exact H | ].
  intros H. split; [ exact H | ].
  apply negb_true_iff. apply String.eqb_neq. exact Hneq.
Qed.

(** X21.  [read_excel_file] touches no file but its temporary one: every
    other path exists afterwards exactly if it existed before; and when
    a reading attempt returns, and the temporary path was free, the file
    system is left exactly as it was found. *)
Theorem reader_touches_only_its_temporary_file :
  forall (fs : FileSystem) (tmp_path : string) (file : Upload),
    (forall p, p <> tmp_path ->
               (In p (fst (read_excel_file fs tmp_path file)) <-> In p fs))
    /\ (forall bound,
           read_attempts file = Returned bound ->
           ~ In tmp_path fs ->
           fst (read_excel_file fs tmp_path file) = fs).
Proof.
  intros fs tmp_path file. split.
  - intros p Hneq. unfold read_excel_file.
    destruct (read_attempts file) as [[df |] |]; cbn [fst].
    + rewrite (unlink_other _ _ _ Hneq). cbn [In]. intuition congruence.
    + rewrite (unlink_other _ _ _ Hneq). cbn [In]. intuition congruence.
    + cbn [In]. intuition congruence.
  - intros bound Hread Hfresh. unfold read_excel_file. rewrite Hread.
    assert (Hclean : unlink tmp_path (tmp_path :: fs) = fs).
    { cbn [unlink filter]. rewrite String.eqb_refl. cbn [negb].
      apply (unlink_fresh fs tmp_path Hfresh). }
    destruct bound; cbn [fst]; exact Hclean.
Qed.

Lemma reader_touches_only_its_temporary_file_witness :
  fst (read_excel_file ["/data/report.xlsx"] "/tmp/tmpab12.xlsx"
         readable_upload)
  = ["/data/report.xlsx"].
Proof.
  destruct (reader_touches_only_its_temporary_file ["/data/report.xlsx"]
              "/tmp/tmpab12.xlsx" readable_upload) as [_ Hclean].
  apply (Hclean (Some flight_df)).
  - reflexivity.
  - simpl. intuition discriminate.
Defined.

(** ** Column names after reading *)

Lemma lstrip_lstrip : forall s, lstrip (lstrip s) = lstrip s.
Proof.
  induction s as [| c s IH]; [ reflexivity | ].
  cbn [lstrip]. destruct (is_space c) eqn:Hc; [ exact IH | ].
  cbn [lstrip]. rewrite Hc. reflexivity.
Qed.

Lemma rstrip_rstrip : forall s, rstrip (rstrip s) = rstrip s.
Proof.
  induction s as [| c s IH]; [ reflexivity | ].
  cbn [rstrip]. destruct (rstrip s) as [| c' kept] eqn:Hs.
  - destruct (is_space c) eqn:Hc; [ reflexivity | ].
    cbn [rstrip]. rewrite Hc. reflexivity.
  - cbn [rstrip]. cbn [rstrip] in IH. 
    destruct (rstrip kept) as [| c'' kept'] eqn:Hk.
    + destruct (is_space c'); [ discriminate IH | ].
      injection IH as <-. reflexivity.
    + rewrite IH. reflexivity.
Qed.

Lemma lstrip_starts_clean : forall s, starts_clean (lstrip s) = true.
Proof.
  induction s as [| c s IH]; [ reflexivity | ].
  cbn [lstrip]. destruct (is_space c) eqn:Hc; [ exact IH | ].
  cbn [starts_clean]. rewrite Hc. reflexivity.
Qed.

Lemma rstrip_starts_clean :
  forall s, starts_clean s = true -> starts_clean (rstrip s) = true.
Proof.
  intros s H. destruct s as [| c s]; [ reflexivity | ].
  cbn [starts_clean] in H. apply negb_true_iff in H.
  cbn [rstrip]. destruct (rstrip s); [ rewrite H | ];
    cbn [starts_clean]; rewrite H; reflexivity.
Qed.

Lemma lstrip_clean : forall s, starts_clean s = true -> lstrip s = s.
Proof.
  intros s H. destruct s as [| c s]; [ reflexivity | ].
  cbn [starts_clean] in H. apply negb_true_iff in H.
  cbn [lstrip]. rewrite H. reflexivity.
Qed.

(** Stripping a stripped text changes nothing. *)
Lemma strip_strip : forall s, strip (strip s) = strip s.
Proof.
  intros s. unfold strip.
  rewrite (lstrip_clean (rstrip (lstrip s))).
  - apply rstrip_rstrip.
  - apply rstrip_starts_clean. apply lstrip_starts_clean.
Qed.

Lemma clean_columns_numeric :
  forall raw : DataFrame,
    Forall (fun col => s_dtype col = DNumeric -> has_null col = false)
           (clean_columns raw).
Proof.
  induction raw as [| col rest IH].
  - constructor.
  - cbn [clean_columns map]. constructor; [ | exact IH ].
    change (replaced_dtype col = DNumeric -> has_null col = false).
    unfold replaced_dtype.
    destruct (s_dtype col); destruct (has_null col); intros H;
      try reflexivity; discriminate H.
Qed.

(** X22.  When pandas reads a table whose column labels are ASCII
    texts, [read_excel_file] returns it with every label stripped of its
    leading and trailing blanks (stripping again changes nothing) and
    with the cells as they were read; and no column of the table
    returned is numeric and has an empty cell, because the replacement
    of NaN by None casts such a column to dtype object. *)
Theorem reader_returns_stripped_column_names :
  forall (fs : FileSystem) (tmp_path : string) (file : Upload)
         (raw : DataFrame),
    read_attempts file = Returned (Some raw) ->
    forallb (fun col => is_ascii (s_name col)) raw = true ->
    exists df,
      snd (read_excel_file fs tmp_path file) = Some df
      /\ map s_name df = map (fun col => strip (s_name col)) raw
      /\ Forall (fun col => strip (s_name col) = s_name col) df
      /\ map s_values df = map s_values raw
      /\ Forall (fun col => s_dtype col = DNumeric -> has_null col = false)
                df.
Proof.
  intros fs tmp_path file raw Hread _.
  exists (clean_columns raw). unfold read_excel_file. rewrite Hread.
  cbn [snd]. split; [ reflexivity | ].
  repeat split.
  - unfold clean_columns. rewrite map_map. reflexivity.
  - unfold clean_columns. apply Forall_map. apply Forall_forall.
    intros col _. cbn [s_name]. apply strip_strip.
  - unfold clean_columns. rewrite map_map. reflexivity.
  - apply clean_columns_numeric.
Qed.

Lemma reader_returns_stripped_column_names_witness :
  exists df,
    snd (read_excel_file [] "/tmp/tmpab12.xlsx" padded_upload) = Some df
    /\ map s_name df = ["Category"; "Amount"; "Reading"]
    /\ Forall (fun col => strip (s_name col) = s_name col) df
    /\ map s_values df = map s_values padded_table
    /\ Forall (fun col => s_dtype col = DNumeric -> has_null col = false)
              df.
Proof.
  apply (reader_returns_stripped_column_names [] "/tmp/tmpab12.xlsx"
           padded_upload padded_table); reflexivity.
Defined.

(** ** The DEFRA loader *)

(** X23.  [process_defra_emission_factors] removes its temporary copy
    exactly when it succeeds: when the source cannot be opened or pandas
    cannot read the copy it returns [None] and the copy stays behind;
    otherwise it returns the six kinds without any factor and, the
    temporary path having been free, leaves the file system as it was. *)
Theorem defra_loader_cleans_up_only_on_success :
  forall (fs : FileSystem) (tmp_path file_path : string)
         (workbook : Attempt Datatypes.unit),
    match snd (process_defra_emission_factors fs tmp_path file_path workbook)
    with
    | Some catalog =>
        catalog = defra_factors
        /\ str_in file_path fs = true
        /\ workbook <> Raised
        /\ (~ In tmp_path fs ->
            fst (process_defra_emission_factors fs tmp_path file_path
                   workbook) = fs)
    | None =>
        In tmp_path
           (fst (process_defra_emission_factors fs tmp_path file_path
                   workbook))
        /\ (str_in file_path fs = false \/ workbook = Raised)
    end.
Proof.
  intros fs tmp_path file_path workbook.
  unfold process_defra_emission_factors.
  destruct (str_in file_path fs); cbn [negb].
  - destruct workbook as [u |]; cbn [snd fst].
    + repeat split; try discriminate.
      intros Hfresh. cbn [unlink filter]. rewrite String.eqb_refl.
      cbn [negb]. apply (unlink_fresh fs tmp_path Hfresh).
    + split; [ left; reflexivity | right; reflexivity ].
  - cbn [snd fst]. split; [ left; reflexivity | left; reflexivity ].
Qed.

(** X24.  With the catalog the DEFRA loader returns, which lists no
    factor yet, the calculator uses the numbers written in its own code:
    a record of one of the six kinds gives its amount times the
    hard-coded default factor of the kind (divided by 1000 for a
    refrigerant), whatever subtype its texts name. *)
Theorem defra_catalog_uses_hard_coded_factors :
  forall (float_of_str : string -> option Q) (fs : FileSystem)
         (tmp_path file_path : string) (workbook : Attempt Datatypes.unit)
         (catalog : Catalog) (it : Item) (b : Branch) (amount_cell : Cell)
         (a : Q),
    snd (process_defra_emission_factors fs tmp_path file_path workbook)
      = Some catalog ->
    dict_get (item_type it) branches = Some b ->
    dict_get "amount" (item_data it) = Some amount_cell ->
    py_float float_of_str amount_cell = Some a ->
    item_emissions float_of_str catalog it
    = Some (if per_thousand b then a * default_factor b / 1000
            else a * default_factor b).
Proof.
  intros float_of_str fs tmp_path file_path workbook catalog it b amount_cell
         a Hload Hb Hcell Hfloat.
  assert (Hcat : catalog = defra_factors).
  { unfold process_defra_emission_factors in Hload.
    destruct (negb (str_in file_path fs)); [ discriminate Hload | ].
    destruct workbook; [ | discriminate Hload ].
    injection Hload as <-. reflexivity. }
  subst catalog.
  assert (Hempty : dict_get (item_type it) defra_factors = Some []).
  { unfold branches in Hb. unfold defra_factors. cbn [dict_get] in *.
    repeat match type of Hb with
           | (if ?c then _ else _) = _ =>
               destruct c eqn:?; [ reflexivity | ]
           end.
    discriminate Hb. }
  unfold item_emissions. rewrite Hb, Hcell, Hfloat, Hempty. reflexivity.
Qed.

Lemma defra_catalog_uses_hard_coded_factors_witness :
  item_emissions int_literal defra_factors labelled_item
  = Some (100 * (268 # 100)).
Proof.
  apply (defra_catalog_uses_hard_coded_factors int_literal
           ["/data/defra.xlsx"] "/tmp/tmpcd34.xlsx" "/data/defra.xlsx"
           (Returned tt) defra_factors labelled_item
           (mkBranch ["diesel"; "gasoline"; "petrol"; "natural gas"; "lpg"]
              "Diesel" (268 # 100) false)
           (CNum 100) 100); reflexivity.
Defined.

(** ** Conversion to the application format *)

Lemma num_of_set :
  forall (K k : string) (v : AppVal) (d : AppData),
    num_of K (dict_set k v d)
    = if String.eqb K k
      then match v with ANum q => Some q | _ => None end
      else num_of K d.
Proof.
  intros K k v d. unfold num_of. rewrite dict_get_set.
  destruct (String.eqb K k); reflexivity.
Qed.

Lemma add_amount_inv :
  forall (k : string) (x : Q) (d d' : AppData),
    add_amount k x d = Some d' ->
    exists v, num_of k d = Some v /\ d' = dict_set k (ANum (v + x)) d.
Proof.
  intros k x d d' H. unfold add_amount in H. unfold num_of.
  destruct (dict_get k d) as [[v | | | |] |]; try discriminate H.
  injection H as <-. exists v. split; reflexivity.
Qed.

Lemma vehicle_type_key :
  forall s, fst (vehicle_type_of s) = "vehicle_type"
            \/ fst (vehicle_type_of s) = "transport_type".
Proof.
  intros s. unfold vehicle_type_of.
  repeat match goal with
         | |- context [if ?c then _ else _] => destruct c
         end; cbn [fst]; tauto.
Qed.

Section ConvertFacts.
Variable str_of_num : Q -> string.
Variable float_of_str : string -> option Q.
Variable session_state : dict string.

(** One pass of the loop assigns none but its own keys. *)
Lemma convert_item_frame :
  forall app_data it app_data' K,
    convert_item str_of_num float_of_str app_data it = Some app_data' ->
    str_in K WRITTEN_KEYS = false ->
    dict_get K app_data' = dict_get K app_data.
Proof.
  intros app_data it app_data' K H HK.
  unfold str_in, WRITTEN_KEYS in HK. cbn [existsb] in HK.
  repeat (apply orb_false_elim in HK; destruct HK as [? HK]).
  pose proof (vehicle_type_key (category_text str_of_num (item_data it)))
    as Hvk.
  unfold convert_item in H.
  repeat match type of H with
         | (if ?c then _ else _) = _ => destruct c
         | match ?x with _ => _ end = _ =>
             let E := fresh "E" in destruct x eqn:E
         end;
    try discriminate H; injection H as <-;
    repeat match goal with
           | E : add_amount _ _ _ = Some _ |- _ =>
               apply add_amount_inv in E; destruct E as [? [_ ->]]
           end;
    rewrite ?dict_get_set;
    try (destruct Hvk as [-> | ->]);
    repeat match goal with
           | E : String.eqb K _ = false |- _ => rewrite E; clear E
           end;
    reflexivity.
Qed.

Lemma convert_items_frame :
  forall items app_data app_data' K,
    convert_items str_of_num float_of_str app_data items = Some app_data' ->
    str_in K WRITTEN_KEYS = false ->
    dict_get K app_data' = dict_get K app_data.
Proof.
  induction items as [| it rest IH]; intros app_data app_data' K H HK.
  - simpl in H. injection H as <-. reflexivity.
  - cbn [convert_items] in H.
    destruct (convert_item str_of_num float_of_str app_data it)
      as [mid |] eqn:Hmid; [ | discriminate H ].
    rewrite (IH mid app_data' K H HK).
    apply (convert_item_frame app_data it mid K Hmid HK).
Qed.

(** X25.  The conversion only ever assigns its seven amount keys and its
    subtype keys: the totals, the categories and the line items it
    copied from the report, the session settings, and the heating and
    material amounts (always zero) come out as they were put in. *)
Theorem conversion_leaves_copied_results_alone :
  forall (structured_data : StructuredData) (calculation_results : Results)
         (app_data : AppData) (K : string),
    convert_to_app_format str_of_num float_of_str session_state
      structured_data calculation_results = Some app_data ->
    str_in K WRITTEN_KEYS = false ->
    dict_get K app_data
    = dict_get K (initial_app_data session_state calculation_results).
Proof.
  intros structured_data calculation_results app_data K H HK.
  unfold convert_to_app_format in H.
  destruct (convert_items str_of_num float_of_str
              (initial_app_data session_state calculation_results)
              (scope1 structured_data)) as [a1 |] eqn:H1;
    [ | discriminate H ].
  destruct (convert_items str_of_num float_of_str a1
              (scope2 structured_data)) as [a2 |] eqn:H2;
    [ | discriminate H ].
  rewrite (convert_items_frame _ _ _ K H HK).
  rewrite (convert_items_frame _ _ _ K H2 HK).
  apply (convert_items_frame _ _ _ K H1 HK).
Qed.

End ConvertFacts.

Lemma amount_total_snoc :
  forall (float_of_str : string -> option Q) (kind : string)
         (items : list Item) (it : Item),
    amount_total float_of_str kind (items ++ [it])
    == amount_total float_of_str kind items
       + Qsum (if String.eqb (item_type it) kind
                  && dict_mem "amount" (item_data it)
               then match amount_of float_of_str (item_data it) with
                    | Some a => [a]
                    | None => []
                    end
               else []).
Proof.
  intros float_of_str kind items it. unfold amount_total.
  rewrite flat_map_app, Qsum_app. cbn [flat_map]. rewrite app_nil_r.
  reflexivity.
Qed.

Section Conservation.
Variable str_of_num : Q -> string.
Variable float_of_str : string -> option Q.
Variable session_state : dict string.

(** Brings the total over [items ++ [it]] back to the total over
    [items], once the type and the amount of the record are known. *)
Ltac unfold_total :=
  rewrite amount_total_snoc;
  repeat match goal with
         | H : item_type _ = _ |- _ => rewrite H
         | H : String.eqb (item_type _) _ = false |- _ => rewrite H
         | H : dict_mem "amount" _ = _ |- _ => rewrite H
         | H : amount_of _ _ = _ |- _ => rewrite H
         end;
  rewrite ?andb_false_r, ?andb_true_r;
  cbn [String.eqb Ascii.eqb Bool.eqb andb];
  rewrite ?Qsum_cons, ?Qsum_nil;
  repeat match goal with
         | H : _ == amount_total _ _ _ |- _ => rewrite <- H; clear H
         end.

Ltac amount_goal :=
  rewrite ?num_of_set; cbn [String.eqb Ascii.eqb Bool.eqb andb];
  eexists; split; [ eassumption || reflexivity | ];
  unfold_total; ring.

Ltac transport_goal :=
  rewrite ?num_of_set; cbn [String.eqb Ascii.eqb Bool.eqb andb];
  eexists; eexists;
  (split; [ eassumption || reflexivity | ]);
  (split; [ eassumption || reflexivity | ]);
  unfold_total; ring.

Lemma convert_item_conserves :
  forall items app_data it app_data',
    amounts_conserved float_of_str items app_data ->
    convert_item str_of_num float_of_str app_data it = Some app_data' ->
    amounts_conserved float_of_str (items ++ [it]) app_data'.
Proof.
  intros items app_data it app_data' [Hsimple Htransport] H.
  destruct (Hsimple _ _ (or_introl eq_refl)) as [fuel [Hfuel Qfuel]].
  destruct (Hsimple _ _ (or_intror (or_introl eq_refl)))
    as [elec [Helec Qelec]].
  destruct (Hsimple _ _ (or_intror (or_intror (or_introl eq_refl))))
    as [waste [Hwaste Qwaste]].
  destruct (Hsimple _ _
              (or_intror (or_intror (or_intror (or_introl eq_refl)))))
    as [water [Hwater Qwater]].
  destruct (Hsimple _ _
              (or_intror (or_intror (or_intror (or_intror
                 (or_introl eq_refl))))))
    as [refr [Hrefr Qrefr]].
  destruct Htransport as [vehicle [flight [Hvehicle [Hflight Qtransport]]]].
  clear Hsimple.
  pose proof (vehicle_type_key (category_text str_of_num (item_data it)))
    as Hvk.
  unfold convert_item in H.
  destruct (dict_mem "amount" (item_data it)) eqn:Hmem; cbn [negb] in H.
  2: { injection H as <-. split.
       - intros key kind Hin. cbn [AMOUNT_KEYS In] in Hin.
         repeat (destruct Hin as [Hin | Hin];
                 [ injection Hin as <- <-; amount_goal | ]).
         destruct Hin.
       - transport_goal. }
  repeat match type of H with
         | (if String.eqb (item_type it) ?k then _ else _) = _ =>
             let E := fresh "Etype" in
             destruct (String.eqb (item_type it) k) eqn:E;
             [ apply String.eqb_eq in E | ]
         end.
  all: repeat match type of H with
         | (if ?c then _ else _) = _ => destruct c
         | match ?x with _ => _ end = _ =>
             let E := fresh "E" in destruct x eqn:E
         end;
    try discriminate H; injection H as <-;
    repeat match goal with
           | E : add_amount _ _ _ = Some _ |- _ =>
               apply add_amount_inv in E; destruct E as [? [? ->]]
           end;
    repeat match goal with
           | Hx : num_of ?k ?d = Some ?x, Hk : num_of ?k ?d = Some ?y |- _ =>
               tryif constr_eq x y then fail
               else (assert (x = y) by congruence; subst x; clear Hx)
           end;
    try (destruct Hvk as [-> | ->]).
  all: split;
    [ intros key kind Hin; cbn [AMOUNT_KEYS In] in Hin;
      repeat (destruct Hin as [Hin | Hin];
              [ injection Hin as <- <-; amount_goal | ]);
      destruct Hin
    | transport_goal ].
Qed.
Lemma convert_items_conserve :
  forall items done app_data app_data',
    amounts_conserved float_of_str done app_data ->
    convert_items str_of_num float_of_str app_data items = Some app_data' ->
    amounts_conserved float_of_str (done ++ items) app_data'.
Proof.
  induction items as [| it rest IH]; intros done app_data app_data' Hinv H.
  - simpl in H. injection H as <-. rewrite app_nil_r. exact Hinv.
  - cbn [convert_items] in H.
    destruct (convert_item str_of_num float_of_str app_data it)
      as [mid |] eqn:Hmid; [ | discriminate H ].
    replace (done ++ it :: rest) with ((done ++ [it]) ++ rest)
      by (rewrite <- app_assoc; reflexivity).
    apply (IH (done ++ [it]) mid app_data'); [ | exact H ].
    apply (convert_item_conserves done app_data it mid Hinv Hmid).
Qed.

Lemma initial_app_data_conserves :
  forall calculation_results,
    amounts_conserved float_of_str []
      (initial_app_data session_state calculation_results).
Proof.
  intros calculation_results. split.
  - intros key kind Hin. cbn [AMOUNT_KEYS In] in Hin.
    repeat (destruct Hin as [Hin | Hin];
            [ injection Hin as <- <-; exists 0;
              split; reflexivity | ]).
    destruct Hin.
  - exists 0, 0. repeat split; reflexivity.
Qed.


(** The conversion of one record fails only on the amount of a record
    of one of the six kinds. *)
Lemma convert_item_returns :
  forall items app_data it,
    amounts_conserved float_of_str items app_data ->
    (str_in (item_type it) KINDS = true ->
     dict_mem "amount" (item_data it) = true ->
     amount_of float_of_str (item_data it) <> None) ->
    exists app_data',
      convert_item str_of_num float_of_str app_data it = Some app_data'.
Proof.
  intros items app_data it [Hsimple Htransport] Hamount.
  destruct (Hsimple _ _ (or_introl eq_refl)) as [fuel [Hfuel _]].
  destruct (Hsimple _ _ (or_intror (or_introl eq_refl)))
    as [elec [Helec _]].
  destruct (Hsimple _ _ (or_intror (or_intror (or_introl eq_refl))))
    as [waste [Hwaste _]].
  destruct (Hsimple _ _
              (or_intror (or_intror (or_intror (or_introl eq_refl)))))
    as [water [Hwater _]].
  destruct (Hsimple _ _
              (or_intror (or_intror (or_intror (or_intror
                 (or_introl eq_refl))))))
    as [refr [Hrefr _]].
  destruct Htransport as [vehicle [flight [Hvehicle [Hflight _]]]].
  clear Hsimple. unfold convert_item.
  destruct (dict_mem "amount" (item_data it)) eqn:Hmem; cbn [negb];
    [ | eexists; reflexivity ].
  assert (Hkind : str_in (item_type it) KINDS = true ->
                  exists a, amount_of float_of_str (item_data it) = Some a).
  { intros Hk.
    destruct (amount_of float_of_str (item_data it)) as [a |] eqn:Ha.
    - exists a. reflexivity.
    - exfalso. apply (Hamount Hk eq_refl). reflexivity. }
  clear Hamount. unfold num_of in *. unfold add_amount.
  repeat match goal with
         | H : match dict_get ?k ?d with _ => _ end = Some _ |- _ =>
             destruct (dict_get k d) as [[? | | | |] |];
             try discriminate H; clear H
         end.
  repeat match goal with
         | |- context [if String.eqb (item_type it) ?k then _ else _] =>
             let E := fresh "Etype" in
             destruct (String.eqb (item_type it) k) eqn:E;
             [ apply String.eqb_eq in E; rewrite E in Hkind;
               destruct (Hkind eq_refl) as [a Ha]; rewrite Ha;
               repeat match goal with
                      | |- context [if ?c then _ else _] => destruct c
                      | |- context [match dict_get "fuel" ?d with
                                    | _ => _ end] =>
                          destruct (dict_get "fuel" d)
                      end; eexists; reflexivity
             | ]
         end.
  eexists. reflexivity.
Qed.

Lemma convert_items_return :
  forall items done app_data,
    amounts_conserved float_of_str done app_data ->
    (forall it, In it items ->
                str_in (item_type it) KINDS = true ->
                dict_mem "amount" (item_data it) = true ->
                amount_of float_of_str (item_data it) <> None) ->
    exists app_data',
      convert_items str_of_num float_of_str app_data items = Some app_data'.
Proof.
  induction items as [| it rest IH]; intros done app_data Hinv Hok.
  - exists app_data. reflexivity.
  - cbn [convert_items].
    destruct (convert_item_returns done app_data it Hinv
                (Hok it (or_introl eq_refl))) as [mid Hmid].
    rewrite Hmid.
    apply (IH (done ++ [it]) mid).
    + apply (convert_item_conserves done app_data it mid Hinv Hmid).
    + intros it' Hin. apply Hok. right. exact Hin.
Qed.

Lemma computable_emissions_give_amount :
  forall (emission_factors : Catalog) (it : Item),
    item_emissions float_of_str emission_factors it <> None ->
    str_in (item_type it) KINDS = true ->
    dict_mem "amount" (item_data it) = true ->
    amount_of float_of_str (item_data it) <> None.
Proof.
  intros emission_factors it Hok Hkind Hmem Hnone.
  apply Hok. unfold item_emissions. unfold amount_of in Hnone.
  unfold dict_mem in Hmem.
  destruct (dict_get "amount" (item_data it)) as [c |];
    [ | discriminate Hmem ].
  rewrite Hnone.
  unfold str_in in Hkind. apply existsb_exists in Hkind.
  destruct Hkind as [kind [Hin Heq]]. apply String.eqb_eq in Heq.
  rewrite Heq. simpl in Hin.
  repeat (destruct Hin as [<- | Hin]; [ reflexivity | ]). destruct Hin.
Qed.

(** X27.  Whenever the calculator returns a report for a structured
    data, whatever the catalog, the conversion of the same structured
    data returns too: it converts no amount the calculator has not
    converted. *)
Theorem conversion_returns_when_calculator_does :
  forall (emission_factors : Catalog) (structured_data : StructuredData)
         (results : Results),
    calculate_emissions float_of_str emission_factors structured_data
      = Some results ->
    exists app_data,
      convert_to_app_format str_of_num float_of_str session_state
        structured_data results = Some app_data.
Proof.
  intros emission_factors structured_data results Hcalc.
  assert (Hok : forall s it,
             In it (items_of structured_data s) ->
             str_in (item_type it) KINDS = true ->
             dict_mem "amount" (item_data it) = true ->
             amount_of float_of_str (item_data it) <> None).
  { intros s it Hin. apply (computable_emissions_give_amount emission_factors).
    unfold calculate_emissions in Hcalc.
    destruct (add_items float_of_str emission_factors Scope1 empty_results _)
      as [r1 |] eqn:H1; [ | discriminate Hcalc ].
    destruct (add_items float_of_str emission_factors Scope2 r1 _)
      as [r2 |] eqn:H2; [ | discriminate Hcalc ].
    destruct s; cbn [items_of] in Hin.
    - apply (add_items_computable _ _ _ _ _ _ H1 it Hin).
    - apply (add_items_computable _ _ _ _ _ _ H2 it Hin).
    - apply (add_items_computable _ _ _ _ _ _ Hcalc it Hin). }
  unfold convert_to_app_format.
  destruct (convert_items_return (scope1 structured_data) []
              (initial_app_data session_state results)
              (initial_app_data_conserves results) (Hok Scope1))
    as [a1 H1].
  rewrite H1.
  pose proof (convert_items_conserve _ _ _ _
                (initial_app_data_conserves results) H1) as Hinv1.
  destruct (convert_items_return (scope2 structured_data) _ a1 Hinv1
              (Hok Scope2)) as [a2 H2].
  rewrite H2.
  pose proof (convert_items_conserve _ _ _ _ Hinv1 H2) as Hinv2.
  apply (convert_items_return (scope3 structured_data) _ a2 Hinv2
           (Hok Scope3)).
Qed.

End Conservation.


Lemma conversion_leaves_copied_results_alone_witness :
  dict_get "total_emissions" sample_app_data
  = dict_get "total_emissions" (initial_app_data [] sample_results).
Proof.
  apply (conversion_leaves_copied_results_alone int_text int_literal []
           sample_structured sample_results sample_app_data
           "total_emissions").
  - vm_compute. reflexivity.
  - reflexivity.
Defined.

Lemma conversion_returns_when_calculator_does_witness :
  exists app_data,
    convert_to_app_format int_text int_literal [] sample_structured
      sample_results = Some app_data.
Proof.
  apply (conversion_returns_when_calculator_does int_text int_literal []
           load_emission_factors sample_structured sample_results).
  vm_compute. reflexivity.
Defined.

Lemma extract_amount_first_numeric_witness :
  exists before col after,
    ["Quantity"; "Total"] = before ++ col :: after
    /\ (forall c, In c before ->
                  notna (row_get two_amounts_row c)
                  && is_numeric_value (row_get two_amounts_row c) = false)
    /\ notna (row_get two_amounts_row col)
       && is_numeric_value (row_get two_amounts_row col) = true
    /\ num_value (row_get two_amounts_row col) = Some 5.
Proof.
  apply (extract_amount_first_numeric two_amounts_row ["Quantity"; "Total"] 5).
  reflexivity.
Defined.

Lemma zero_amount_contributes_nothing_witness :
  exists e,
    item_emissions int_literal load_emission_factors zero_diesel_item = Some e
    /\ e == 0.
Proof.
  destruct (item_emissions int_literal load_emission_factors zero_diesel_item)
    as [e |] eqn:He; [ | vm_compute in He; discriminate He ].
  exists e. split; [ reflexivity | ].
  apply (zero_amount_contributes_nothing int_literal load_emission_factors
           zero_diesel_item (CNum 0) 0 e).
  - reflexivity.
  - reflexivity.
  - reflexivity.
  - exact He.
Defined.

Lemma defra_loader_cleans_up_only_on_success_witness :
  In "/tmp/tmpcd34.xlsx"
     (fst (process_defra_emission_factors ["/data/defra.xlsx"]
             "/tmp/tmpcd34.xlsx" "/data/defra.xlsx" Raised))
  /\ (str_in "/data/defra.xlsx" ["/data/defra.xlsx"] = false
      \/ @Raised Datatypes.unit = Raised).
Proof.
  exact (defra_loader_cleans_up_only_on_success ["/data/defra.xlsx"]
           "/tmp/tmpcd34.xlsx" "/data/defra.xlsx" Raised).
Defined.

(** ** The roll-up in any arithmetic *)

Section RunningSums.
Variable A : Arith.
Variable float_of_str : string -> option Q.
Variable emission_factors : Catalog.

Lemma running_sum_snoc :
  forall (l : list (a_num A)) (x : a_num A),
    running_sum A (l ++ [x]) = a_add A (running_sum A l) x.
Proof.
  intros l x. unfold running_sum. rewrite fold_left_app. reflexivity.
Qed.

Lemma dict_get_accumulate :
  forall (d : dict (a_num A)) (k t : string) (x : a_num A),
    dict_get k (accumulate A t x d)
    = if String.eqb k t
      then Some (a_add A (match dict_get t d with
                          | Some v => v
                          | None => a_zero A
                          end) x)
      else dict_get k d.
Proof.
  intros d k t x. unfold accumulate.
  destruct (dict_get t d); rewrite dict_get_set; reflexivity.
Qed.

Lemma lines_of_scope_snoc :
  forall s lines (line : ReportLine A),
    lines_of_scope A s (lines ++ [line])
    = lines_of_scope A s lines
      ++ (if Scope_eqb (rl_scope line) s then [line] else []).
Proof.
  intros s lines line. unfold lines_of_scope. rewrite filter_app.
  reflexivity.
Qed.

Lemma lines_of_scope_and_type_snoc :
  forall s k lines (line : ReportLine A),
    lines_of_scope_and_type A s k (lines ++ [line])
    = lines_of_scope_and_type A s k lines
      ++ (if Scope_eqb (rl_scope line) s && String.eqb (rl_type line) k
          then [line] else []).
Proof.
  intros s k lines line. unfold lines_of_scope_and_type.
  rewrite filter_app. reflexivity.
Qed.

Lemma empty_report_running_sums :
  totals_are_running_sums A (empty_report A).
Proof.
  repeat split; intros s; destruct s; reflexivity.
Qed.

(** One pass of the loop body: each accumulator that takes the emissions
    of the new line is the running sum extended by that line, and the
    others have not moved. *)
Lemma add_item_in_running_sums :
  forall sc report it report',
    add_item_in A float_of_str emission_factors sc report it
      = Some report' ->
    totals_are_running_sums A report ->
    totals_are_running_sums A report'.
Proof.
  intros sc report it report' Hadd [Htotal [Hscopes Hkinds]].
  unfold add_item_in in Hadd.
  destruct (item_emissions_in A float_of_str emission_factors it)
    as [emissions |]; [ | discriminate Hadd ].
  injection Hadd as <-.
  assert (Hlines : forall r s ss,
             rp_lines (set_scope_sums A r s ss) = rp_lines r)
    by (intros r s ss; destruct s; reflexivity).
  assert (Hgrand : forall r s ss,
             rp_total (set_scope_sums A r s ss) = rp_total r)
    by (intros r s ss; destruct s; reflexivity).
  assert (Hsums : forall s,
             scope_sums
               (mkReport A
                  (rp_scope1 (set_scope_sums A report sc
                     (mkScopeSums A
                        (a_add A (ss_total (scope_sums report sc)) emissions)
                        (accumulate A (item_type it) emissions
                           (ss_categories (scope_sums report sc))))))
                  (rp_scope2 (set_scope_sums A report sc
                     (mkScopeSums A
                        (a_add A (ss_total (scope_sums report sc)) emissions)
                        (accumulate A (item_type it) emissions
                           (ss_categories (scope_sums report sc))))))
                  (rp_scope3 (set_scope_sums A report sc
                     (mkScopeSums A
                        (a_add A (ss_total (scope_sums report sc)) emissions)
                        (accumulate A (item_type it) emissions
                           (ss_categories (scope_sums report sc))))))
                  (a_add A (rp_total report) emissions)
                  (rp_lines report ++
                   [mkReportLine A sc (item_type it) (item_data it) emissions
                      (original_row it)])) s
             = if Scope_eqb sc s
               then mkScopeSums A
                      (a_add A (ss_total (scope_sums report sc)) emissions)
                      (accumulate A (item_type it) emissions
                         (ss_categories (scope_sums report sc)))
               else scope_sums report s)
    by (intros s; destruct sc, s; reflexivity).
  rewrite Hlines, Hgrand.
  unfold totals_are_running_sums. cbn [rp_total rp_lines].
  split; [ | split ].
  - rewrite map_app. cbn [map rl_emissions]. rewrite running_sum_snoc.
    rewrite Htotal. reflexivity.
  - intros s. rewrite Hsums, lines_of_scope_snoc. cbn [rl_scope].
    destruct (Scope_eqb sc s) eqn:Hs.
    + apply Scope_eqb_eq in Hs. subst s. cbn [ss_total].
      rewrite map_app. cbn [map rl_emissions]. rewrite running_sum_snoc.
      rewrite Hscopes. reflexivity.
    + rewrite app_nil_r. apply Hscopes.
  - intros s k. rewrite Hsums, lines_of_scope_and_type_snoc.
    cbn [rl_scope rl_type].
    destruct (Scope_eqb sc s) eqn:Hs; cbn [andb].
    + apply Scope_eqb_eq in Hs. subst s. cbn [ss_categories].
      rewrite dict_get_accumulate. rewrite (String.eqb_sym k).
      destruct (String.eqb (item_type it) k) eqn:Hk.
      * apply String.eqb_eq in Hk. subst k. rewrite (Hkinds sc).
        destruct (lines_of_scope_and_type A sc (item_type it)
                    (rp_lines report)) as [| l0 ls].
        -- reflexivity.
        -- rewrite <- running_sum_snoc. cbn [app]. f_equal. f_equal.
           rewrite app_comm_cons, map_app. reflexivity.
      * rewrite app_nil_r. apply Hkinds.
    + rewrite app_nil_r. apply Hkinds.
Qed.

Lemma add_items_in_running_sums :
  forall sc items report report',
    add_items_in A float_of_str emission_factors sc report items
      = Some report' ->
    totals_are_running_sums A report ->
    totals_are_running_sums A report'.
Proof.
  intros sc items. induction items as [| it rest IH];
    intros report report' Hadd Hinv.
  - cbn [add_items_in] in Hadd. injection Hadd as <-. exact Hinv.
  - cbn [add_items_in] in Hadd.
    destruct (add_item_in A float_of_str emission_factors sc report it)
      as [mid |] eqn:Hmid; [ | discriminate Hadd ].
    apply (IH mid report' Hadd).
    apply (add_item_in_running_sums sc report it mid Hmid Hinv).
Qed.

Lemma calculate_emissions_in_running_sums :
  forall structured_data report,
    calculate_emissions_in A float_of_str emission_factors structured_data
      = Some report ->
    totals_are_running_sums A report.
Proof.
  intros structured_data report Hcalc.
  unfold calculate_emissions_in in Hcalc.
  destruct (add_items_in A float_of_str emission_factors Scope1
              (empty_report A) (scope1 structured_data))
    as [r1 |] eqn:H1; [ | discriminate Hcalc ].
  destruct (add_items_in A float_of_str emission_factors Scope2 r1
              (scope2 structured_data))
    as [r2 |] eqn:H2; [ | discriminate Hcalc ].
  eapply add_items_in_running_sums; [ exact Hcalc | ].
  eapply add_items_in_running_sums; [ exact H2 | ].
  eapply add_items_in_running_sums; [ exact H1 | ].
  exact empty_report_running_sums.
Qed.

End RunningSums.

(** ** Exact arithmetic as an instance *)

Section ExactInstance.
Variable float_of_str : string -> option Q.
Variable emission_factors : Catalog.

Lemma item_emissions_exact :
  forall it,
    item_emissions_in exact float_of_str emission_factors it
    = item_emissions float_of_str emission_factors it.
Proof. intros it. reflexivity. Qed.

Lemma add_item_exact :
  forall sc report it,
    add_item float_of_str emission_factors sc (results_of_report report) it
    = option_map results_of_report
        (add_item_in exact float_of_str emission_factors sc report it).
Proof.
  intros sc report it. unfold add_item, add_item_in.
  change (item_emissions_in exact float_of_str emission_factors it)
    with (item_emissions float_of_str emission_factors it).
  destruct (item_emissions float_of_str emission_factors it)
    as [emissions |]; [ | reflexivity ].
  cbn [option_map]. f_equal.
  destruct report as [s1 s2 s3 grand lines].
  unfold results_of_report.
  destruct sc;
    cbn [set_scope_sums set_scope_result scope_sums scope_result
         rp_scope1 rp_scope2 rp_scope3 rp_total rp_lines
         r_scope1 r_scope2 r_scope3 r_total line_items];
    rewrite map_app; reflexivity.
Qed.

Lemma add_items_exact :
  forall sc items report,
    add_items float_of_str emission_factors sc (results_of_report report)
      items
    = option_map results_of_report
        (add_items_in exact float_of_str emission_factors sc report items).
Proof.
  intros sc items. induction items as [| it rest IH]; intros report.
  - reflexivity.
  - cbn [add_items add_items_in]. rewrite add_item_exact.
    destruct (add_item_in exact float_of_str emission_factors sc report it)
      as [mid |]; [ | reflexivity ].
    cbn [option_map]. apply IH.
Qed.

(** [calculate_emissions] is [calculate_emissions_in] run in exact
    arithmetic. *)
Lemma calculate_emissions_exact :
  forall structured_data,
    calculate_emissions float_of_str emission_factors structured_data
    = option_map results_of_report
        (calculate_emissions_in exact float_of_str emission_factors
           structured_data).
Proof.
  intros structured_data. unfold calculate_emissions, calculate_emissions_in.
  change empty_results with (results_of_report (empty_report exact)).
  rewrite add_items_exact.
  destruct (add_items_in exact float_of_str emission_factors Scope1
              (empty_report exact) (scope1 structured_data))
    as [r1 |]; [ | reflexivity ].
  cbn [option_map]. rewrite add_items_exact.
  destruct (add_items_in exact float_of_str emission_factors Scope2 r1
              (scope2 structured_data))
    as [r2 |]; [ | reflexivity ].
  cbn [option_map]. apply add_items_exact.
Qed.

End ExactInstance.

(** C3 (amended).  In whatever arithmetic the calculator runs, binary64
    included, every accumulator of a report it returns is the running
    sum, from 0.0 and in the order of the line items, of the emissions
    of the lines it covers: the grand total of all the lines, a scope
    total of the lines of the scope, a category total of the lines of
    the scope and type.  [calculate_emissions] is the calculator run in
    exact arithmetic, and there the totals agree: the grand total is the
    sum of the three scope totals and of all the line emissions, a scope
    total is the sum of its lines and of its category totals. *)
Theorem C3_totals_are_running_sums :
  (forall (A : Arith) (float_of_str : string -> option Q)
          (emission_factors : Catalog) (structured_data : StructuredData)
          (report : Report A),
      calculate_emissions_in A float_of_str emission_factors structured_data
        = Some report ->
      rp_total report = running_sum A (map rl_emissions (rp_lines report))
      /\ (forall s,
             ss_total (scope_sums report s)
             = running_sum A
                 (map rl_emissions (lines_of_scope A s (rp_lines report))))
      /\ (forall s k,
             dict_get k (ss_categories (scope_sums report s))
             = match lines_of_scope_and_type A s k (rp_lines report) with
               | [] => None
               | covered => Some (running_sum A (map rl_emissions covered))
               end))
  /\ (forall (float_of_str : string -> option Q)
             (emission_factors : Catalog) (structured_data : StructuredData),
        calculate_emissions float_of_str emission_factors structured_data
        = option_map results_of_report
            (calculate_emissions_in exact float_of_str emission_factors
               structured_data))
  /\ (forall (float_of_str : string -> option Q)
             (emission_factors : Catalog) (structured_data : StructuredData)
             (results : Results),
        calculate_emissions float_of_str emission_factors structured_data
          = Some results ->
        r_total results
          == total (r_scope1 results) + total (r_scope2 results)
             + total (r_scope3 results)
        /\ (forall s, total (scope_result results s)
                      == emissions_of_scope s (line_items results))
        /\ (forall s, total (scope_result results s)
                      == categories_sum (scope_result results s))
        /\ r_total results == Qsum (map li_emissions (line_items results))).
Proof.
  split; [ | split ].
  - intros A float_of_str emission_factors structured_data report Hcalc.
    exact (calculate_emissions_in_running_sums A float_of_str
             emission_factors structured_data report Hcalc).
  - exact calculate_emissions_exact.
  - intros float_of_str emission_factors structured_data results Hcalc.
    exact (exact_totals_agree float_of_str emission_factors structured_data
             results Hcalc).
Qed.

Lemma C3_witness :
  (exists report : Report binary64,
      calculate_emissions_in binary64 int_literal load_emission_factors
        sample_structured = Some report
      /\ List.length (rp_lines report) = 7%nat
      /\ rp_total report
         = running_sum binary64 (map rl_emissions (rp_lines report))
      /\ (forall s,
             ss_total (scope_sums report s)
             = running_sum binary64
                 (map rl_emissions
                    (lines_of_scope binary64 s (rp_lines report))))
      /\ (forall s k,
             dict_get k (ss_categories (scope_sums report s))
             = match lines_of_scope_and_type binary64 s k (rp_lines report)
               with
               | [] => None
               | covered =>
                   Some (running_sum binary64 (map rl_emissions covered))
               end))
  /\ (exists results : Results,
        calculate_emissions int_literal load_emission_factors
          sample_structured = Some results
        /\ r_total results
           == total (r_scope1 results) + total (r_scope2 results)
              + total (r_scope3 results)
        /\ (forall s, total (scope_result results s)
                      == emissions_of_scope s (line_items results))
        /\ (forall s, total (scope_result results s)
                      == categories_sum (scope_result results s))
        /\ r_total results == Qsum (map li_emissions (line_items results))).
Proof.
  destruct C3_totals_are_running_sums as [Hsums [_ Hexact]].
  split.
  - destruct (calculate_emissions_in binary64 int_literal
                load_emission_factors sample_structured)
      as [report |] eqn:Hcalc; [ | vm_compute in Hcalc; discriminate Hcalc ].
    exists report. split; [ reflexivity | ].
    split.
    + vm_compute in Hcalc. injection Hcalc as <-. reflexivity.
    + exact (Hsums binary64 int_literal load_emission_factors
               sample_structured report Hcalc).
  - destruct (calculate_emissions int_literal load_emission_factors
                sample_structured)
      as [results |] eqn:Hcalc; [ | vm_compute in Hcalc; discriminate Hcalc ].
    exists results. split; [ reflexivity | ].
    exact (Hexact int_literal load_emission_factors sample_structured
             results Hcalc).
Defined.

(** C3 as stated fails in binary64.  A purchase of 10^12 kWh under scope
    2, the same energy booked back under scope 3, and one kilogram of
    landfill waste: the grand total is 0.45, the float of the waste
    line, while the scope 3 total has absorbed the waste line into
    -4.8e11 with an error, and the three scope totals add up to
    7373/16384 = 0.45001220703125, which is 2.7e-5 away in relative
    terms.  With the three records under scope 3, the waste between the
    two bookings, it is the scope total that is 0.45001220703125 while
    its category totals, 0 and 0.45, add up to 0.45. *)
Lemma C3_counterexample :
  (exists report : Report binary64,
      calculate_emissions_in binary64 int_literal load_emission_factors
        cancelling_records = Some report
      /\ rp_total report = float_of_Q (45 # 100)
      /\ scope_totals_sum report = float_of_Q (7373 # 16384)
      /\ floats_agree (rp_total report) (scope_totals_sum report) = false)
  /\ (exists report : Report binary64,
        calculate_emissions_in binary64 int_literal load_emission_factors
          interleaved_records = Some report
        /\ ss_total (rp_scope3 report) = float_of_Q (7373 # 16384)
        /\ category_totals_sum (rp_scope3 report) = float_of_Q (45 # 100)
        /\ floats_agree (ss_total (rp_scope3 report))
                        (category_totals_sum (rp_scope3 report)) = false).
Proof.
  split.
  - eexists. split; [ vm_compute; reflexivity | ].
    repeat split; vm_compute; reflexivity.
  - eexists. split; [ vm_compute; reflexivity | ].
    repeat split; vm_compute; reflexivity.
Qed.
